(** * Azure AI Search store: the filter translator and the adapter

    A shallow embedding of the OData filter translator
    ([AzureAISearchFilterTranslator]) and of the index and vector
    operations of the vector-store adapter ([AzureAISearchVector]), with
    the properties that the specification states about them.

    The repository holds two copies of the translator.  [Part002] embeds
    the copy that the specification describes: its [translate] trims the
    rendering and returns [undefined] when nothing is left, its
    [escapeFieldName] is the identity, and its [any]/[all] fields carry
    a raw predicate string.  [Part001] embeds the earlier copy, whose
    [translate] returns the rendering as it is, whose [escapeFieldName]
    quotes field names and whose [any]/[all] fields carry a nested
    filter.  The lines that the two copies share ([formatValue], the
    raw-filter guard, the composites and the order of the fields) are
    studied on the first copy; what differs is stated about the second,
    with the first copy evaluated at the same inputs. *)

(** Beyond the translator, [Adapter] embeds [describeIndex],
    [getVectorFieldName], dimension validation and [upsert]; [Runs] names
    the states that they reach; [Operations] holds [createIndex],
    [deleteIndex], [updateVector] and [deleteVector]; and [Reading] holds
    what is needed to read the translator's output back and to compare
    its two copies.  Every request to the external service, of whichever
    operation, goes to one log.  The query methods are not embedded: they
    rest on the host's floating-point weights and scores, on [JSON.parse]
    and on the paged iterator of the service client. *)

From Stdlib Require Import String Ascii List Bool Arith ZArith.
From Stdlib Require Import Lia.
Import ListNotations.
Open Scope string_scope.

Set Warnings "-register-all".

(** ** The JavaScript operations that the code relies on

    A string is the sequence of its UTF-8 bytes.  The characters that
    the code looks for (the single quote, the slash, the space and the
    dash) are one byte each and are part of no longer sequence, so
    finding and replacing them byte by byte agrees with doing it on the
    code units of the host.  White space is told apart by the byte
    sequences of its code points. *)

Module Js.

(** [Array.prototype.join]: the empty array gives the empty string,
    one element gives that element, and the separator goes between
    neighbours. *)
Definition join (sep : string) (items : list string) : string :=
  String.concat sep items.

(** [Boolean(s)] on a string, and [if (s)]: only the empty string is
    falsy. *)
Definition Boolean (s : string) : bool := negb (s =? "").

(** [if (x)] on an optional string property: [undefined] and the empty
    string are falsy. *)
Definition truthy (x : option string) : bool :=
  match x with
  | Some s => Boolean s
  | None => false
  end.

(** [s.replace(/c/g, by)] for a one-character pattern [c]. *)
Fixpoint replace_all (c : ascii) (by_ : string) (s : string) : string :=
  match s with
  | EmptyString => EmptyString
  | String a rest =>
      if Ascii.eqb a c then by_ ++ replace_all c by_ rest
      else String a (replace_all c by_ rest)
  end.

(** What doubling means, character by character: a single quote gives
    two, any other character gives itself. *)
Definition doubled (s : string) : string :=
  string_of_list_ascii
    (flat_map (fun a => if Ascii.eqb a "'" then ["'"; "'"]%char else [a])
              (list_ascii_of_string s)).

(** Reads a doubled text back: two single quotes in a row give one. *)
Fixpoint undouble (s : string) : string :=
  match s with
  | EmptyString => EmptyString
  | String a rest =>
      match rest with
      | String b rest' =>
          if Ascii.eqb a "'" && Ascii.eqb b "'"
          then String a (undouble rest')
          else String a (undouble rest)
      | EmptyString => s
      end
  end.

(** [s.includes(needle)]. *)
Definition includes (s needle : string) : bool :=
  match String.index 0 needle s with
  | Some _ => true
  | None => false
  end.

(** *** White space

    [String.prototype.trim] removes the white space and the line
    terminators of the language: U+0009 to U+000D, U+0020, U+00A0,
    U+1680, U+2000 to U+200A, U+2028, U+2029, U+202F, U+205F, U+3000 and
    U+FEFF.  In UTF-8 the first six are one byte, U+00A0 is two bytes,
    and the others are three. *)

(** TAB, LF, VT, FF, CR and SPACE. *)
Definition is_space (a : ascii) : bool :=
  let n := nat_of_ascii a in
  ((9 <=? n)%nat && (n <=? 13)%nat) || (n =? 32)%nat.

(** U+00A0, the bytes C2 A0. *)
Definition is_space2 (a b : ascii) : bool :=
  ((nat_of_ascii a =? 194) && (nat_of_ascii b =? 160))%nat.

(** U+1680 (E1 9A 80), U+2000 to U+200A (E2 80 80 to E2 80 8A), U+2028,
    U+2029 and U+202F (E2 80 A8, E2 80 A9, E2 80 AF), U+205F (E2 81 9F),
    U+3000 (E3 80 80) and U+FEFF (EF BB BF). *)
Definition is_space3 (a b c : ascii) : bool :=
  let x := nat_of_ascii a in
  let y := nat_of_ascii b in
  let z := nat_of_ascii c in
  ((x =? 225) && (y =? 154) && (z =? 128)
   || (x =? 226) && (y =? 128) && (128 <=? z) && (z <=? 138)
   || (x =? 226) && (y =? 128) && ((z =? 168) || (z =? 169) || (z =? 175))
   || (x =? 226) && (y =? 129) && (z =? 159)
   || (x =? 227) && (y =? 128) && (z =? 128)
   || (x =? 239) && (y =? 187) && (z =? 191))%nat.

(** [s.trimStart()]: white space is dropped from the front, one code
    point at a time, until something else is met. *)
Fixpoint trim_start (s : string) : string :=
  match s with
  | EmptyString => EmptyString
  | String a rest =>
      if is_space a then trim_start rest
      else
        match rest with
        | EmptyString => s
        | String b rest2 =>
            if is_space2 a b then trim_start rest2
            else
              match rest2 with
              | EmptyString => s
              | String c rest3 =>
                  if is_space3 a b c then trim_start rest3 else s
              end
        end
  end.

(** The string holds white space only. *)
Definition blank (s : string) : bool :=
  match trim_start s with
  | EmptyString => true
  | String _ _ => false
  end.

(** [s.trimEnd()]: the string up to the point from which only white
    space follows. *)
Fixpoint trim_end (s : string) : string :=
  match s with
  | EmptyString => EmptyString
  | String a rest => if blank s then EmptyString else String a (trim_end rest)
  end.

(** [s.trim()]. *)
Definition trim (s : string) : string := trim_end (trim_start s).

(** A visible character of the ASCII range: part of no white space. *)
Definition is_ink (a : ascii) : bool :=
  let n := nat_of_ascii a in
  ((33 <=? n) && (n <=? 126))%nat.

(** The string holds a visible character of the ASCII range. *)
Fixpoint inked (s : string) : bool :=
  match s with
  | EmptyString => false
  | String a rest => is_ink a || inked rest
  end.

(** *** Calls that may throw

    What a call of the translator gives: its value, or the error that
    it throws.  The errors that the translator can meet are those of the
    host: the [RangeError] of [Date.prototype.toISOString] on a date
    whose time value is not a number, and what [String(value)] throws on
    an object that cannot be converted, a [TypeError] or whatever its
    own [toString] throws. *)

Inductive Exception : Type :=
| RangeError
| TypeError
| Uncaught (what : string).

Inductive Completion (A : Type) : Type :=
| Normal (a : A)
| Throw (e : Exception).
Arguments Normal {A} a.
Arguments Throw {A} e.

(** One statement after another: an error ends the call. *)
Definition bind {A B : Type} (m : Completion A) (k : A -> Completion B)
  : Completion B :=
  match m with
  | Normal a => k a
  | Throw e => Throw e
  end.

Section Map.
Context {A B : Type}.
Variable f : A -> Completion B.

(** [array.map(f)] for a callback that may throw: the elements are
    visited in order and the first error ends the call. *)
Fixpoint mapM (l : list A) : Completion (list B) :=
  match l with
  | [] => Normal []
  | x :: rest =>
      bind (f x) (fun y => bind (mapM rest) (fun ys => Normal (y :: ys)))
  end.

End Map.

(** The values of the host language that [formatValue] cannot look
    into: dates with [Date.prototype.toISOString], which throws on an
    invalid date, and the values that reach the final [String(value)],
    which [Other] holds: numbers, for the declared types, and any object
    else, on which [String] may throw. *)
Class Runtime : Type := {
  Date : Type;
  toISOString : Date -> Completion string;
  Other : Type;
  String_ : Other -> Completion string
}.

(** A value of type [any] as [formatValue] tells them apart. *)
Inductive Value `{Runtime} : Type :=
| VString (s : string)
| VDate (d : Date)
| VBoolean (b : bool)
| VNull
| VUndefined
| VOther (o : Other).

(** [Object.entries(record)]: the own properties of a record, in the
    order in which the host enumerates them. *)
Definition Entries (V : Type) : Type := list (string * V).

End Js.

Import Js.

(** ** The fields of a filter node

    The fourteen fields that [translateFilter] looks at, in the order of
    its [if] statements; both copies of the translator read them in
    this order. *)

Module Fields.

Inductive Field : Type :=
| FAnd | FOr | FNot
| FEq | FNe | FGt | FGe | FLt | FLe
| FContains | FStartsWith | FEndsWith
| FAny | FAll.

Definition fieldOrder : list Field :=
  [FAnd; FOr; FNot; FEq; FNe; FGt; FGe; FLt; FLe;
   FContains; FStartsWith; FEndsWith; FAny; FAll].

Definition isSome {A : Type} (x : option A) : bool :=
  match x with
  | Some _ => true
  | None => false
  end.

(** What a field gives when it is set, and nothing when it is not. *)
Definition whenSet {A : Type} (x : option A)
    (render : A -> Completion (list string)) : Completion (list string) :=
  match x with
  | Some a => render a
  | None => Normal []
  end.

End Fields.

Import Fields.

(** ** The translator, first copy *)

Module Part001.
Section Translator.
Context `{Runtime}.

Local Notation "x <- m ;; k" := (bind m (fun x => k))
  (at level 61, m at next level, right associativity).

(** [AzureAISearchVectorFilter]: one object with optional properties.
    [f_filter] is the property [$filter]; the other projections carry
    the property's name after [f_].  [any] and [all] hold
    [{ collection, filter }]. *)
Inductive AzureAISearchVectorFilter : Type :=
  mkFilter {
    f_filter : option string;
    f_and : option (list AzureAISearchVectorFilter);
    f_or : option (list AzureAISearchVectorFilter);
    f_not : option AzureAISearchVectorFilter;
    f_eq : option (Entries Value);
    f_ne : option (Entries Value);
    f_gt : option (Entries Value);
    f_ge : option (Entries Value);
    f_lt : option (Entries Value);
    f_le : option (Entries Value);
    f_contains : option (Entries string);
    f_startsWith : option (Entries string);
    f_endsWith : option (Entries string);
    f_any : option (string * AzureAISearchVectorFilter);
    f_all : option (string * AzureAISearchVectorFilter)
  }.

(** [formatValue]: the date case is the call [value.toISOString()],
    which throws on an invalid date. *)
Definition formatValue (value : Value) : Completion string :=
  match value with
  | VString s =>
      let escapedValue := replace_all "'" "''" s in
      Normal ("'" ++ escapedValue ++ "'")
  | VDate d => toISOString d
  | VBoolean b => Normal (if b then "true" else "false")
  | VNull | VUndefined => Normal "null"
  | VOther o => String_ o
  end.

Definition escapeFieldName (field : string) : string :=
  if includes field "/" || includes field " " || includes field "-"
  then "'" ++ field ++ "'"
  else field.

Definition translateComparison
    (comparison : Entries Value) (operator : string) : Completion (list string) :=
  mapM (fun '(field, value) =>
          formattedValue <- formatValue value ;;
          Normal (escapeFieldName field ++ " " ++ operator ++ " " ++ formattedValue))
       comparison.

Definition translateStringOperation
    (operation : Entries string) (functionName : string) : Completion (list string) :=
  mapM (fun '(field, value) =>
          let escapedField := escapeFieldName field in
          formattedValue <- formatValue (VString value) ;;
          if functionName =? "contains"
          then Normal ("search.ismatch(" ++ formattedValue ++ ", '" ++ field ++ "')")
          else Normal (functionName ++ "(" ++ escapedField ++ ", "
                       ++ formattedValue ++ ")"))
       operation.

(** [conditions.push(...items)].  Each [if] block of [translateFilter]
    is read as one push: of the strings that the block adds when its
    guards hold, and of nothing when one of them fails.  A block that
    throws ends the call. *)
Definition push (conditions items : list string) : list string :=
  conditions ++ items.

Fixpoint translateFilter (filter : AzureAISearchVectorFilter) : Completion string :=
  let conditions : list string := [] in
  items <- match f_and filter with
           | Some children =>
               rendered <- mapM translateFilter children ;;
               let andConditions := List.filter Boolean rendered in
               if (0 <? length andConditions)%nat
               then Normal ["(" ++ join " and " andConditions ++ ")"]
               else Normal []
           | None => Normal []
           end ;;
  let conditions := push conditions items in
  items <- match f_or filter with
           | Some children =>
               rendered <- mapM translateFilter children ;;
               let orConditions := List.filter Boolean rendered in
               if (0 <? length orConditions)%nat
               then Normal ["(" ++ join " or " orConditions ++ ")"]
               else Normal []
           | None => Normal []
           end ;;
  let conditions := push conditions items in
  items <- match f_not filter with
           | Some child =>
               notCondition <- translateFilter child ;;
               if Boolean notCondition
               then Normal ["not (" ++ notCondition ++ ")"]
               else Normal []
           | None => Normal []
           end ;;
  let conditions := push conditions items in
  items <- match f_eq filter with
           | Some r => translateComparison r "eq"
           | None => Normal []
           end ;;
  let conditions := push conditions items in
  items <- match f_ne filter with
           | Some r => translateComparison r "ne"
           | None => Normal []
           end ;;
  let conditions := push conditions items in
  items <- match f_gt filter with
           | Some r => translateComparison r "gt"
           | None => Normal []
           end ;;
  let conditions := push conditions items in
  items <- match f_ge filter with
           | Some r => translateComparison r "ge"
           | None => Normal []
           end ;;
  let conditions := push conditions items in
  items <- match f_lt filter with
           | Some r => translateComparison r "lt"
           | None => Normal []
           end ;;
  let conditions := push conditions items in
  items <- match f_le filter with
           | Some r => translateComparison r "le"
           | None => Normal []
           end ;;
  let conditions := push conditions items in
  items <- match f_contains filter with
           | Some r => translateStringOperation r "contains"
           | None => Normal []
           end ;;
  let conditions := push conditions items in
  items <- match f_startsWith filter with
           | Some r => translateStringOperation r "startswith"
           | None => Normal []
           end ;;
  let conditions := push conditions items in
  items <- match f_endsWith filter with
           | Some r => translateStringOperation r "endswith"
           | None => Normal []
           end ;;
  let conditions := push conditions items in
  items <- match f_any filter with
           | Some (collection, inner) =>
               anyFilter <- translateFilter inner ;;
               if Boolean anyFilter
               then Normal [collection ++ "/any(x: " ++ anyFilter ++ ")"]
               else Normal []
           | None => Normal []
           end ;;
  let conditions := push conditions items in
  items <- match f_all filter with
           | Some (collection, inner) =>
               allFilter <- translateFilter inner ;;
               if Boolean allFilter
               then Normal [collection ++ "/all(x: " ++ allFilter ++ ")"]
               else Normal []
           | None => Normal []
           end ;;
  let conditions := push conditions items in
  Normal (join " and " conditions).

(** [translate(filter?)]: [None] is [undefined], for the argument and
    for the result. *)
Definition translate (filter : option AzureAISearchVectorFilter)
  : Completion (option string) :=
  match filter with
  | None => Normal None
  | Some filter =>
      if truthy (f_filter filter)
      then Normal (f_filter filter)
      else
        rendered <- translateFilter filter ;;
        Normal (Some rendered)
  end.

(** *** The node read field by field *)

(** [if (filter.k)]: arrays and objects are truthy, also when empty. *)
Definition populated (filter : AzureAISearchVectorFilter) (k : Field) : bool :=
  match k with
  | FAnd => isSome (f_and filter)
  | FOr => isSome (f_or filter)
  | FNot => isSome (f_not filter)
  | FEq => isSome (f_eq filter)
  | FNe => isSome (f_ne filter)
  | FGt => isSome (f_gt filter)
  | FGe => isSome (f_ge filter)
  | FLt => isSome (f_lt filter)
  | FLe => isSome (f_le filter)
  | FContains => isSome (f_contains filter)
  | FStartsWith => isSome (f_startsWith filter)
  | FEndsWith => isSome (f_endsWith filter)
  | FAny => isSome (f_any filter)
  | FAll => isSome (f_all filter)
  end.

(** The renderings of the children that are not the empty string. *)
Definition survivors (children : list AzureAISearchVectorFilter)
  : Completion (list string) :=
  rendered <- mapM translateFilter children ;;
  Normal (List.filter Boolean rendered).

(** A composite: nothing without survivors, else the survivors joined
    and put between one pair of parentheses. *)
Definition composite (sep : string) (children : list AzureAISearchVectorFilter)
  : Completion (list string) :=
  kept <- survivors children ;;
  Normal match kept with
         | [] => []
         | _ => ["(" ++ join sep kept ++ ")"]
         end.

Definition negation (child : AzureAISearchVectorFilter) : Completion (list string) :=
  rendered <- translateFilter child ;;
  Normal match rendered with
         | EmptyString => []
         | _ => ["not (" ++ rendered ++ ")"]
         end.

Definition quantified (quantifier : string)
    (operand : string * AzureAISearchVectorFilter) : Completion (list string) :=
  rendered <- translateFilter (snd operand) ;;
  Normal match rendered with
         | EmptyString => []
         | _ => [fst operand ++ "/" ++ quantifier ++ "(x: " ++ rendered ++ ")"]
         end.

(** The condition strings that one field gives. *)
Definition conditionsOf (filter : AzureAISearchVectorFilter) (k : Field)
  : Completion (list string) :=
  match k with
  | FAnd => whenSet (f_and filter) (composite " and ")
  | FOr => whenSet (f_or filter) (composite " or ")
  | FNot => whenSet (f_not filter) negation
  | FEq => whenSet (f_eq filter) (fun r => translateComparison r "eq")
  | FNe => whenSet (f_ne filter) (fun r => translateComparison r "ne")
  | FGt => whenSet (f_gt filter) (fun r => translateComparison r "gt")
  | FGe => whenSet (f_ge filter) (fun r => translateComparison r "ge")
  | FLt => whenSet (f_lt filter) (fun r => translateComparison r "lt")
  | FLe => whenSet (f_le filter) (fun r => translateComparison r "le")
  | FContains =>
      whenSet (f_contains filter) (fun r => translateStringOperation r "contains")
  | FStartsWith =>
      whenSet (f_startsWith filter) (fun r => translateStringOperation r "startswith")
  | FEndsWith =>
      whenSet (f_endsWith filter) (fun r => translateStringOperation r "endswith")
  | FAny => whenSet (f_any filter) (quantified "any")
  | FAll => whenSet (f_all filter) (quantified "all")
  end.

(** *** Object literals *)

(** The object [{}]. *)
Definition noFields : AzureAISearchVectorFilter :=
  mkFilter None None None None None None None None None None None None None
    None None.

(** [{ ...filter, $filter: raw }] and the like: one property set, the
    others kept. *)
Definition set_filter (raw : string) (filter : AzureAISearchVectorFilter) :=
  mkFilter (Some raw) (f_and filter) (f_or filter) (f_not filter)
    (f_eq filter) (f_ne filter) (f_gt filter) (f_ge filter) (f_lt filter)
    (f_le filter) (f_contains filter) (f_startsWith filter)
    (f_endsWith filter) (f_any filter) (f_all filter).

Definition set_and (children : list AzureAISearchVectorFilter)
    (filter : AzureAISearchVectorFilter) :=
  mkFilter (f_filter filter) (Some children) (f_or filter) (f_not filter)
    (f_eq filter) (f_ne filter) (f_gt filter) (f_ge filter) (f_lt filter)
    (f_le filter) (f_contains filter) (f_startsWith filter)
    (f_endsWith filter) (f_any filter) (f_all filter).

Definition set_or (children : list AzureAISearchVectorFilter)
    (filter : AzureAISearchVectorFilter) :=
  mkFilter (f_filter filter) (f_and filter) (Some children) (f_not filter)
    (f_eq filter) (f_ne filter) (f_gt filter) (f_ge filter) (f_lt filter)
    (f_le filter) (f_contains filter) (f_startsWith filter)
    (f_endsWith filter) (f_any filter) (f_all filter).

Definition set_not (child : AzureAISearchVectorFilter)
    (filter : AzureAISearchVectorFilter) :=
  mkFilter (f_filter filter) (f_and filter) (f_or filter) (Some child)
    (f_eq filter) (f_ne filter) (f_gt filter) (f_ge filter) (f_lt filter)
    (f_le filter) (f_contains filter) (f_startsWith filter)
    (f_endsWith filter) (f_any filter) (f_all filter).

Definition set_eq (r : Entries Value) (filter : AzureAISearchVectorFilter) :=
  mkFilter (f_filter filter) (f_and filter) (f_or filter) (f_not filter)
    (Some r) (f_ne filter) (f_gt filter) (f_ge filter) (f_lt filter)
    (f_le filter) (f_contains filter) (f_startsWith filter)
    (f_endsWith filter) (f_any filter) (f_all filter).

Definition set_gt (r : Entries Value) (filter : AzureAISearchVectorFilter) :=
  mkFilter (f_filter filter) (f_and filter) (f_or filter) (f_not filter)
    (f_eq filter) (f_ne filter) (Some r) (f_ge filter) (f_lt filter)
    (f_le filter) (f_contains filter) (f_startsWith filter)
    (f_endsWith filter) (f_any filter) (f_all filter).

Definition set_contains (r : Entries string) (filter : AzureAISearchVectorFilter) :=
  mkFilter (f_filter filter) (f_and filter) (f_or filter) (f_not filter)
    (f_eq filter) (f_ne filter) (f_gt filter) (f_ge filter) (f_lt filter)
    (f_le filter) (Some r) (f_startsWith filter)
    (f_endsWith filter) (f_any filter) (f_all filter).

Definition set_startsWith (r : Entries string) (filter : AzureAISearchVectorFilter) :=
  mkFilter (f_filter filter) (f_and filter) (f_or filter) (f_not filter)
    (f_eq filter) (f_ne filter) (f_gt filter) (f_ge filter) (f_lt filter)
    (f_le filter) (f_contains filter) (Some r)
    (f_endsWith filter) (f_any filter) (f_all filter).

Definition set_endsWith (r : Entries string) (filter : AzureAISearchVectorFilter) :=
  mkFilter (f_filter filter) (f_and filter) (f_or filter) (f_not filter)
    (f_eq filter) (f_ne filter) (f_gt filter) (f_ge filter) (f_lt filter)
    (f_le filter) (f_contains filter) (f_startsWith filter)
    (Some r) (f_any filter) (f_all filter).

Definition set_any (operand : string * AzureAISearchVectorFilter)
    (filter : AzureAISearchVectorFilter) :=
  mkFilter (f_filter filter) (f_and filter) (f_or filter) (f_not filter)
    (f_eq filter) (f_ne filter) (f_gt filter) (f_ge filter) (f_lt filter)
    (f_le filter) (f_contains filter) (f_startsWith filter)
    (f_endsWith filter) (Some operand) (f_all filter).

Definition set_all (operand : string * AzureAISearchVectorFilter)
    (filter : AzureAISearchVectorFilter) :=
  mkFilter (f_filter filter) (f_and filter) (f_or filter) (f_not filter)
    (f_eq filter) (f_ne filter) (f_gt filter) (f_ge filter) (f_lt filter)
    (f_le filter) (f_contains filter) (f_startsWith filter)
    (f_endsWith filter) (f_any filter) (Some operand).

End Translator.
End Part001.

(** ** The translator, second copy *)

Module Part002.
Section Translator.
Context `{Runtime}.

Local Notation "x <- m ;; k" := (bind m (fun x => k))
  (at level 61, m at next level, right associativity).

(** [AzureAISearchVectorFilter]: one object with optional properties.
    [f_filter] is the property [$filter]; the other projections carry
    the property's name after [f_].  [any] and [all] hold
    [{ collection, predicate }], the predicate being a raw lambda
    expression. *)
Inductive AzureAISearchVectorFilter : Type :=
  mkFilter {
    f_filter : option string;
    f_and : option (list AzureAISearchVectorFilter);
    f_or : option (list AzureAISearchVectorFilter);
    f_not : option AzureAISearchVectorFilter;
    f_eq : option (Entries Value);
    f_ne : option (Entries Value);
    f_gt : option (Entries Value);
    f_ge : option (Entries Value);
    f_lt : option (Entries Value);
    f_le : option (Entries Value);
    f_contains : option (Entries string);
    f_startsWith : option (Entries string);
    f_endsWith : option (Entries string);
    f_any : option (string * string);
    f_all : option (string * string)
  }.

(** [formatValue]: the date case is the call [value.toISOString()],
    which throws on an invalid date. *)
Definition formatValue (value : Value) : Completion string :=
  match value with
  | VString s =>
      let escapedValue := replace_all "'" "''" s in
      Normal ("'" ++ escapedValue ++ "'")
  | VDate d => toISOString d
  | VBoolean b => Normal (if b then "true" else "false")
  | VNull | VUndefined => Normal "null"
  | VOther o => String_ o
  end.

Definition escapeFieldName (field : string) : string := field.

Definition translateComparison
    (comparison : Entries Value) (operator : string) : Completion (list string) :=
  mapM (fun '(field, value) =>
          formattedValue <- formatValue value ;;
          Normal (escapeFieldName field ++ " " ++ operator ++ " " ++ formattedValue))
       comparison.

Definition translateStringOperation
    (operation : Entries string) (functionName : string) : Completion (list string) :=
  mapM (fun '(field, value) =>
          let escapedField := escapeFieldName field in
          formattedValue <- formatValue (VString value) ;;
          if functionName =? "contains"
          then Normal ("search.ismatch(" ++ formattedValue ++ ", '" ++ field ++ "')")
          else Normal (functionName ++ "(" ++ escapedField ++ ", "
                       ++ formattedValue ++ ")"))
       operation.

(** [conditions.push(...items)].  Each [if] block of [translateFilter]
    is read as one push: of the strings that the block adds when its
    guards hold, and of nothing when one of them fails.  A block that
    throws ends the call. *)
Definition push (conditions items : list string) : list string :=
  conditions ++ items.

Fixpoint translateFilter (filter : AzureAISearchVectorFilter) : Completion string :=
  let conditions : list string := [] in
  items <- match f_and filter with
           | Some children =>
               rendered <- mapM translateFilter children ;;
               let andConditions := List.filter Boolean rendered in
               if (0 <? length andConditions)%nat
               then Normal ["(" ++ join " and " andConditions ++ ")"]
               else Normal []
           | None => Normal []
           end ;;
  let conditions := push conditions items in
  items <- match f_or filter with
           | Some children =>
               rendered <- mapM translateFilter children ;;
               let orConditions := List.filter Boolean rendered in
               if (0 <? length orConditions)%nat
               then Normal ["(" ++ join " or " orConditions ++ ")"]
               else Normal []
           | None => Normal []
           end ;;
  let conditions := push conditions items in
  items <- match f_not filter with
           | Some child =>
               notCondition <- translateFilter child ;;
               if Boolean notCondition
               then Normal ["not (" ++ notCondition ++ ")"]
               else Normal []
           | None => Normal []
           end ;;
  let conditions := push conditions items in
  items <- match f_eq filter with
           | Some r => translateComparison r "eq"
           | None => Normal []
           end ;;
  let conditions := push conditions items in
  items <- match f_ne filter with
           | Some r => translateComparison r "ne"
           | None => Normal []
           end ;;
  let conditions := push conditions items in
  items <- match f_gt filter with
           | Some r => translateComparison r "gt"
           | None => Normal []
           end ;;
  let conditions := push conditions items in
  items <- match f_ge filter with
           | Some r => translateComparison r "ge"
           | None => Normal []
           end ;;
  let conditions := push conditions items in
  items <- match f_lt filter with
           | Some r => translateComparison r "lt"
           | None => Normal []
           end ;;
  let conditions := push conditions items in
  items <- match f_le filter with
           | Some r => translateComparison r "le"
           | None => Normal []
           end ;;
  let conditions := push conditions items in
  items <- match f_contains filter with
           | Some r => translateStringOperation r "contains"
           | None => Normal []
           end ;;
  let conditions := push conditions items in
  items <- match f_startsWith filter with
           | Some r => translateStringOperation r "startswith"
           | None => Normal []
           end ;;
  let conditions := push conditions items in
  items <- match f_endsWith filter with
           | Some r => translateStringOperation r "endswith"
           | None => Normal []
           end ;;
  let conditions := push conditions items in
  items <- match f_any filter with
           | Some (collection, predicate) =>
               Normal [collection ++ "/any(" ++ predicate ++ ")"]
           | None => Normal []
           end ;;
  let conditions := push conditions items in
  items <- match f_all filter with
           | Some (collection, predicate) =>
               Normal [collection ++ "/all(" ++ predicate ++ ")"]
           | None => Normal []
           end ;;
  let conditions := push conditions items in
  Normal (join " and " conditions).

(** [translate(filter?)]: [None] is [undefined], for the argument and
    for the result.  The rendering is trimmed, and what is left comes
    back when it is not empty. *)
Definition translate (filter : option AzureAISearchVectorFilter)
  : Completion (option string) :=
  match filter with
  | None => Normal None
  | Some filter =>
      if truthy (f_filter filter)
      then Normal (f_filter filter)
      else
        rendered <- translateFilter filter ;;
        let translated := trim rendered in
        Normal (if (0 <? String.length translated)%nat
                then Some translated
                else None)
  end.

(** *** The node read field by field *)

(** [if (filter.k)]: arrays and objects are truthy, also when empty. *)
Definition populated (filter : AzureAISearchVectorFilter) (k : Field) : bool :=
  match k with
  | FAnd => isSome (f_and filter)
  | FOr => isSome (f_or filter)
  | FNot => isSome (f_not filter)
  | FEq => isSome (f_eq filter)
  | FNe => isSome (f_ne filter)
  | FGt => isSome (f_gt filter)
  | FGe => isSome (f_ge filter)
  | FLt => isSome (f_lt filter)
  | FLe => isSome (f_le filter)
  | FContains => isSome (f_contains filter)
  | FStartsWith => isSome (f_startsWith filter)
  | FEndsWith => isSome (f_endsWith filter)
  | FAny => isSome (f_any filter)
  | FAll => isSome (f_all filter)
  end.

(** The renderings of the children that are not the empty string. *)
Definition survivors (children : list AzureAISearchVectorFilter)
  : Completion (list string) :=
  rendered <- mapM translateFilter children ;;
  Normal (List.filter Boolean rendered).

(** A composite: nothing without survivors, else the survivors joined
    and put between one pair of parentheses. *)
Definition composite (sep : string) (children : list AzureAISearchVectorFilter)
  : Completion (list string) :=
  kept <- survivors children ;;
  Normal match kept with
         | [] => []
         | _ => ["(" ++ join sep kept ++ ")"]
         end.

Definition negation (child : AzureAISearchVectorFilter) : Completion (list string) :=
  rendered <- translateFilter child ;;
  Normal match rendered with
         | EmptyString => []
         | _ => ["not (" ++ rendered ++ ")"]
         end.

(** A quantifier: the collection, the quantifier and the predicate as
    it was given. *)
Definition quantified (quantifier : string) (operand : string * string)
  : Completion (list string) :=
  Normal [fst operand ++ "/" ++ quantifier ++ "(" ++ snd operand ++ ")"].

(** The condition strings that one field gives. *)
Definition conditionsOf (filter : AzureAISearchVectorFilter) (k : Field)
  : Completion (list string) :=
  match k with
  | FAnd => whenSet (f_and filter) (composite " and ")
  | FOr => whenSet (f_or filter) (composite " or ")
  | FNot => whenSet (f_not filter) negation
  | FEq => whenSet (f_eq filter) (fun r => translateComparison r "eq")
  | FNe => whenSet (f_ne filter) (fun r => translateComparison r "ne")
  | FGt => whenSet (f_gt filter) (fun r => translateComparison r "gt")
  | FGe => whenSet (f_ge filter) (fun r => translateComparison r "ge")
  | FLt => whenSet (f_lt filter) (fun r => translateComparison r "lt")
  | FLe => whenSet (f_le filter) (fun r => translateComparison r "le")
  | FContains =>
      whenSet (f_contains filter) (fun r => translateStringOperation r "contains")
  | FStartsWith =>
      whenSet (f_startsWith filter) (fun r => translateStringOperation r "startswith")
  | FEndsWith =>
      whenSet (f_endsWith filter) (fun r => translateStringOperation r "endswith")
  | FAny => whenSet (f_any filter) (quantified "any")
  | FAll => whenSet (f_all filter) (quantified "all")
  end.

(** *** Object literals *)

(** The object [{}]. *)
Definition noFields : AzureAISearchVectorFilter :=
  mkFilter None None None None None None None None None None None None None
    None None.

(** [{ ...filter, $filter: raw }] and the like: one property set, the
    others kept. *)
Definition set_filter (raw : string) (filter : AzureAISearchVectorFilter) :=
  mkFilter (Some raw) (f_and filter) (f_or filter) (f_not filter)
    (f_eq filter) (f_ne filter) (f_gt filter) (f_ge filter) (f_lt filter)
    (f_le filter) (f_contains filter) (f_startsWith filter)
    (f_endsWith filter) (f_any filter) (f_all filter).

Definition set_and (children : list AzureAISearchVectorFilter)
    (filter : AzureAISearchVectorFilter) :=
  mkFilter (f_filter filter) (Some children) (f_or filter) (f_not filter)
    (f_eq filter) (f_ne filter) (f_gt filter) (f_ge filter) (f_lt filter)
    (f_le filter) (f_contains filter) (f_startsWith filter)
    (f_endsWith filter) (f_any filter) (f_all filter).

Definition set_or (children : list AzureAISearchVectorFilter)
    (filter : AzureAISearchVectorFilter) :=
  mkFilter (f_filter filter) (f_and filter) (Some children) (f_not filter)
    (f_eq filter) (f_ne filter) (f_gt filter) (f_ge filter) (f_lt filter)
    (f_le filter) (f_contains filter) (f_startsWith filter)
    (f_endsWith filter) (f_any filter) (f_all filter).

Definition set_not (child : AzureAISearchVectorFilter)
    (filter : AzureAISearchVectorFilter) :=
  mkFilter (f_filter filter) (f_and filter) (f_or filter) (Some child)
    (f_eq filter) (f_ne filter) (f_gt filter) (f_ge filter) (f_lt filter)
    (f_le filter) (f_contains filter) (f_startsWith filter)
    (f_endsWith filter) (f_any filter) (f_all filter).

Definition set_eq (r : Entries Value) (filter : AzureAISearchVectorFilter) :=
  mkFilter (f_filter filter) (f_and filter) (f_or filter) (f_not filter)
    (Some r) (f_ne filter) (f_gt filter) (f_ge filter) (f_lt filter)
    (f_le filter) (f_contains filter) (f_startsWith filter)
    (f_endsWith filter) (f_any filter) (f_all filter).

Definition set_gt (r : Entries Value) (filter : AzureAISearchVectorFilter) :=
  mkFilter (f_filter filter) (f_and filter) (f_or filter) (f_not filter)
    (f_eq filter) (f_ne filter) (Some r) (f_ge filter) (f_lt filter)
    (f_le filter) (f_contains filter) (f_startsWith filter)
    (f_endsWith filter) (f_any filter) (f_all filter).

Definition set_contains (r : Entries string) (filter : AzureAISearchVectorFilter) :=
  mkFilter (f_filter filter) (f_and filter) (f_or filter) (f_not filter)
    (f_eq filter) (f_ne filter) (f_gt filter) (f_ge filter) (f_lt filter)
    (f_le filter) (Some r) (f_startsWith filter)
    (f_endsWith filter) (f_any filter) (f_all filter).

Definition set_startsWith (r : Entries string) (filter : AzureAISearchVectorFilter) :=
  mkFilter (f_filter filter) (f_and filter) (f_or filter) (f_not filter)
    (f_eq filter) (f_ne filter) (f_gt filter) (f_ge filter) (f_lt filter)
    (f_le filter) (f_contains filter) (Some r)
    (f_endsWith filter) (f_any filter) (f_all filter).

Definition set_endsWith (r : Entries string) (filter : AzureAISearchVectorFilter) :=
  mkFilter (f_filter filter) (f_and filter) (f_or filter) (f_not filter)
    (f_eq filter) (f_ne filter) (f_gt filter) (f_ge filter) (f_lt filter)
    (f_le filter) (f_contains filter) (f_startsWith filter)
    (Some r) (f_any filter) (f_all filter).

Definition set_any (operand : string * string)
    (filter : AzureAISearchVectorFilter) :=
  mkFilter (f_filter filter) (f_and filter) (f_or filter) (f_not filter)
    (f_eq filter) (f_ne filter) (f_gt filter) (f_ge filter) (f_lt filter)
    (f_le filter) (f_contains filter) (f_startsWith filter)
    (f_endsWith filter) (Some operand) (f_all filter).

Definition set_all (operand : string * string)
    (filter : AzureAISearchVectorFilter) :=
  mkFilter (f_filter filter) (f_and filter) (f_or filter) (f_not filter)
    (f_eq filter) (f_ne filter) (f_gt filter) (f_ge filter) (f_lt filter)
    (f_le filter) (f_contains filter) (f_startsWith filter)
    (f_endsWith filter) (f_any filter) (Some operand).

End Translator.
End Part002.

(** ** The adapter: [describeIndex], dimension validation and [upsert] *)

Module Adapter.

(** What [JSON.stringify] gives for an object: its text, or the error
    that it throws (a [TypeError] for a [BigInt] or for a cycle, or what
    a [toJSON] method throws), by its message. *)
Inductive Stringified : Type :=
| Text (json : string)
| Unserializable (message : string).

(** What the adapter takes from its host without looking into it: the
    components of a vector, and a metadata object with
    [JSON.stringify(m)] and [m.content || '']. *)
Class Host : Type := {
  Num : Type;
  Metadata : Type;
  emptyObject : Metadata;
  JSON_stringify : Metadata -> Stringified;
  contentOf : Metadata -> string
}.

(** A field of an index definition.  A number that may be missing is an
    [option Z]. *)
Record SearchField : Type := {
  sf_name : string;
  sf_type : string;
  sf_dimensions : option Z;
  sf_vectorSearchDimensions : option Z
}.

(** An index definition: [fields], and [vectorSearch?.algorithms] with
    each algorithm given by its [hnswParameters?.metric]. *)
Record SearchIndex : Type := {
  ix_fields : option (list SearchField);
  ix_algorithms : option (list (option string))
}.

Inductive Metric : Type := cosine | euclidean | dotproduct.

Definition METRIC_MAPPING : list (Metric * string) :=
  [(cosine, "cosine"); (euclidean, "euclidean"); (dotproduct, "dotProduct")].

Record IndexStats : Type := {
  st_dimension : option Z;
  st_count : Z;
  st_metric : Metric
}.

Record IndexingResult : Type := {
  succeeded : bool;
  key : option string;
  errorMessage : option string
}.

(** *** The index definition that [createIndex] sends *)

(** A field of an index definition as [createIndex] writes it; an
    attribute that the object literal leaves out is [None]. *)
Record FieldDefinition : Type := {
  fd_name : string;
  fd_type : string;
  fd_key : option bool;
  fd_searchable : option bool;
  fd_filterable : option bool;
  fd_retrievable : option bool;
  fd_sortable : option bool;
  fd_facetable : option bool;
  fd_vectorSearchDimensions : option Z;
  fd_vectorSearchProfileName : option string
}.

Record HnswConfig : Type := {
  hc_metric : option string;
  hc_m : Z;
  hc_efConstruction : Z;
  hc_efSearch : Z
}.

Record Algorithm : Type := {
  alg_name : string;
  alg_kind : string;
  alg_hnswParameters : HnswConfig
}.

Record Profile : Type := {
  pr_name : string;
  pr_algorithmConfigurationName : string
}.

(** [prioritizedFields]; a field reference [{ fieldName }] stands for
    its name. *)
Record PrioritizedFields : Type := {
  titleField : option string;
  prioritizedContentFields : option (list string);
  prioritizedKeywordsFields : option (list string)
}.

Record SemanticConfiguration : Type := {
  conf_name : string;
  conf_prioritizedFields : PrioritizedFields
}.

Record IndexDefinition : Type := {
  def_name : string;
  def_fields : list FieldDefinition;
  def_profiles : list Profile;
  def_algorithms : list Algorithm;
  def_semantic : option (list SemanticConfiguration)
}.

(** What is thrown.  [MastraError] keeps the identifier and the cause;
    the other constructors are the errors of the service client, the
    error of [JSON.stringify] and the three [new Error(...)] of the
    code, with the numbers that their messages print. *)
Inductive Error : Type :=
| SdkError (message : string)
| StringifyError (message : string)
| VectorFieldNotFound
| InvalidDimension (i : nat) (length : nat) (expected : option Z)
| DocumentsFailed (failed total : nat)
| MastraError (id : string) (cause : Error).

Inductive Outcome (A : Type) : Type :=
| Returned (a : A)
| Thrown (e : Error).
Arguments Returned {A} a.
Arguments Thrown {A} e.

Section Store.
Context `{Host}.

(** The value of a property of a document: [undefined], a string or a
    vector. *)
Inductive DocValue : Type :=
| Undefined
| Str (s : string)
| Vec (v : list Num).

(** A document: an object, given by its properties in the order in
    which they were created. *)
Definition Document : Type := list (string * DocValue).

(** One property of an object literal: a name that the object holds
    already takes the new value where it stands, and a new name goes to
    the end. *)
Fixpoint assign (key : string) (value : DocValue) (o : Document) : Document :=
  match o with
  | [] => [(key, value)]
  | (k, v) :: rest =>
      if k =? key then (k, value) :: rest else (k, v) :: assign key value rest
  end.

(** An object literal [{ k1: v1, ..., kn: vn }], computed names
    included: its properties are assigned from left to right. *)
Definition object (properties : list (string * DocValue)) : Document :=
  fold_left (fun o property => assign (fst property) (snd property) o)
    properties [].

(** [o[key]]: [undefined] for a name that the object does not hold. *)
Definition get (key : string) (o : Document) : DocValue :=
  match find (fun property => fst property =? key) o with
  | Some property => snd property
  | None => Undefined
  end.

(** Truthiness of such a value: an array is truthy, also when empty. *)
Definition truthyValue (v : DocValue) : bool :=
  match v with
  | Undefined => false
  | Str s => Boolean s
  | Vec _ => true
  end.

(** [a || b]. *)
Definition orValue (a b : DocValue) : DocValue :=
  if truthyValue a then a else b.

(** The requests that go to the external service, through the index
    client ([getIndex], [createIndex], [deleteIndex]) or through the
    search client of an index (the others). *)
Inductive Call : Type :=
| GetIndex (indexName : string)
| GetDocumentsCount (indexName : string)
| UploadDocuments (indexName : string) (documents : list Document)
| CreateIndex (definition : IndexDefinition)
| DeleteIndex (indexName : string)
| GetDocument (indexName id : string)
| MergeDocuments (indexName : string) (documents : list Document)
| DeleteDocuments (indexName : string) (ids : list string).

(** The external service, and [crypto.randomUUID] by the number of
    earlier draws.  An answer may depend on the requests made so far. *)
Record Service : Type := {
  getIndex : list Call -> string -> Outcome SearchIndex;
  getDocumentsCount : list Call -> string -> Outcome Z;
  uploadDocuments : list Call -> string -> list Document -> Outcome (list IndexingResult);
  randomUUID : nat -> string
}.

(** The requests made so far (oldest first), the index names that have
    a cached search client, and the number of identifiers drawn. *)
Record State : Type := {
  calls : list Call;
  searchClients : list string;
  uuids : nat
}.

Definition M (A : Type) : Type := State -> Outcome A * State.

Definition ret {A : Type} (a : A) : M A := fun st => (Returned a, st).

Definition throw {A : Type} (e : Error) : M A := fun st => (Thrown e, st).

Definition bind {A B : Type} (m : M A) (k : A -> M B) : M B :=
  fun st =>
    match m st with
    | (Returned a, st') => k a st'
    | (Thrown e, st') => (Thrown e, st')
    end.

(** [try { m } catch (error) { handler(error) }]. *)
Definition tryCatch {A : Type} (m : M A) (handler : Error -> M A) : M A :=
  fun st =>
    match m st with
    | (Returned a, st') => (Returned a, st')
    | (Thrown e, st') => handler e st'
    end.

Definition lift {A : Type} (o : Outcome A) : M A := fun st => (o, st).

(** One request: it is recorded, then answered. *)
Definition request {A : Type} (c : Call) (answer : list Call -> Outcome A) : M A :=
  fun st =>
    (answer (calls st),
     {| calls := calls st ++ [c];
        searchClients := searchClients st;
        uuids := uuids st |}).

Notation "x <- m ;; k" := (bind m (fun x => k))
  (at level 61, m at next level, right associativity).

(** [getSearchClient]: the client of an index is created once and kept;
    creating it sends nothing.  The client stands for its index name. *)
Definition getSearchClient (indexName : string) : M string :=
  fun st =>
    if existsb (String.eqb indexName) (searchClients st)
    then (Returned indexName, st)
    else (Returned indexName,
          {| calls := calls st;
             searchClients := indexName :: searchClients st;
             uuids := uuids st |}).

(** Truthiness of a number that may be missing. *)
Definition truthyNum (x : option Z) : bool :=
  match x with
  | Some n => negb (n =? 0)%Z
  | None => false
  end.

(** [a || b] on such numbers. *)
Definition orNum (a b : option Z) : option Z :=
  if truthyNum a then a else b.

Definition isVectorField (field : SearchField) : bool :=
  (sf_type field =? "Collection(Edm.Single)")
  && truthyNum (orNum (sf_dimensions field) (sf_vectorSearchDimensions field)).

(** [index.fields?.find(p)]. *)
Definition findField (index : SearchIndex) (p : SearchField -> bool)
  : option SearchField :=
  match ix_fields index with
  | Some fields => find p fields
  | None => None
  end.

Definition getVectorFieldName (svc : Service) (indexName : string) : M string :=
  tryCatch
    (index <- request (GetIndex indexName) (fun h => getIndex svc h indexName) ;;
     let vectorField := findField index isVectorField in
     ret (match vectorField with
          | Some field => if Boolean (sf_name field) then sf_name field else "vector"
          | None => "vector"
          end))
    (fun _ => ret "vector").

Definition metricOf (index : SearchIndex) : Metric :=
  let metric := cosine in
  match ix_algorithms index with
  | Some algorithms =>
      match nth_error algorithms 0 with
      | Some (Some azureMetric) =>
          if Boolean azureMetric then
            match find (fun '(_, value) => value =? azureMetric) METRIC_MAPPING with
            | Some metricEntry => fst metricEntry
            | None => metric
            end
          else metric
      | _ => metric
      end
  | None => metric
  end.

Definition describeIndex (svc : Service) (indexName : string) : M IndexStats :=
  tryCatch
    (index <- request (GetIndex indexName) (fun h => getIndex svc h indexName) ;;
     searchClient <- getSearchClient indexName ;;
     countResult <- request (GetDocumentsCount searchClient)
                      (fun h => getDocumentsCount svc h searchClient) ;;
     let vectorField := findField index isVectorField in
     let fallback : M IndexStats :=
       let defaultVectorField :=
         findField index (fun field => sf_name field =? "vector") in
       match defaultVectorField with
       | Some field =>
           let dimension :=
             orNum (sf_dimensions field) (sf_vectorSearchDimensions field) in
           if truthyNum dimension
           then ret {| st_dimension := dimension;
                       st_count := countResult;
                       st_metric := cosine |}
           else throw VectorFieldNotFound
       | None => throw VectorFieldNotFound
       end in
     match vectorField with
     | None => fallback
     | Some field =>
         if negb (truthyNum (sf_dimensions field))
            && negb (truthyNum (sf_vectorSearchDimensions field))
         then fallback
         else
           ret {| st_dimension :=
                    orNum (sf_dimensions field) (sf_vectorSearchDimensions field);
                  st_count := countResult;
                  st_metric := metricOf index |}
     end)
    (fun error =>
       throw (MastraError "STORAGE_AZURE_AI_SEARCH_DESCRIBE_INDEX_FAILED" error)).

(** [length !== dimension]. *)
Definition differs (length : nat) (dimension : option Z) : bool :=
  match dimension with
  | Some d => negb (Z.of_nat length =? d)%Z
  | None => true
  end.

(** The loop of [validateVectorDimensions], from index [i] on. *)
Fixpoint validateFrom (i : nat) (vectors : list (list Num)) (dimension : option Z)
  : Outcome unit :=
  match vectors with
  | [] => Returned tt
  | vector :: rest =>
      if differs (length vector) dimension
      then Thrown (InvalidDimension i (length vector) dimension)
      else validateFrom (S i) rest dimension
  end.

Definition validateVectorDimensions (vectors : list (list Num))
    (dimension : option Z) : Outcome unit :=
  validateFrom 0 vectors dimension.

(** [vectors.map(() => crypto.randomUUID())]. *)
Definition drawIds (svc : Service) (n : nat) : M (list string) :=
  fun st =>
    (Returned (map (fun k => randomUUID svc (uuids st + k)) (seq 0 n)),
     {| calls := calls st;
        searchClients := searchClients st;
        uuids := uuids st + n |}).

Record UpsertVectorParams : Type := {
  indexName : string;
  vectors : list (list Num);
  metadata : option (list Metadata);
  ids : option (list string)
}.

(** [JSON.stringify(m)] as a property value. *)
Definition stringify (m : Metadata) : Outcome DocValue :=
  match JSON_stringify m with
  | Text json => Returned (Str json)
  | Unserializable message => Thrown (StringifyError message)
  end.

(** [vectorIds[i]]. *)
Definition idAt (vectorIds : list string) (i : nat) : DocValue :=
  match nth_error vectorIds i with
  | Some id => Str id
  | None => Undefined
  end.

(** [vectors.map((vector, i) => ...)], from index [i] on: the document
    of each vector is one object literal whose second name is computed,
    and a metadata object that [JSON.stringify] refuses ends the call. *)
Fixpoint documentsFrom (i : nat) (vectorFieldName : string)
    (vectorIds : list string) (metadata : list Metadata)
    (vectors : list (list Num)) : Outcome (list Document) :=
  match vectors with
  | [] => Returned []
  | vector :: rest =>
      match stringify (match nth_error metadata i with
                       | Some m => m
                       | None => emptyObject
                       end) with
      | Thrown e => Thrown e
      | Returned json =>
          let doc :=
            object [ ("id", idAt vectorIds i);
                     (vectorFieldName, Vec vector);
                     ("metadata", json);
                     ("content",
                      Str match nth_error metadata i with
                          | Some m => contentOf m
                          | None => ""
                          end) ] in
          match documentsFrom (S i) vectorFieldName vectorIds metadata rest with
          | Returned documents => Returned (doc :: documents)
          | Thrown e => Thrown e
          end
      end
  end.

Definition upsert (svc : Service) (params : UpsertVectorParams) : M (list string) :=
  let metadata := match metadata params with Some m => m | None => [] end in
  tryCatch
    (indexInfo <- describeIndex svc (indexName params) ;;
     _ <- lift (validateVectorDimensions (vectors params) (st_dimension indexInfo)) ;;
     vectorFieldName <- getVectorFieldName svc (indexName params) ;;
     vectorIds <- match ids params with
                  | Some given => ret given
                  | None => drawIds svc (length (vectors params))
                  end ;;
     documents <- lift (documentsFrom 0 vectorFieldName vectorIds metadata
                          (vectors params)) ;;
     searchClient <- getSearchClient (indexName params) ;;
     uploadResult <- request (UploadDocuments searchClient documents)
                       (fun h => uploadDocuments svc h searchClient documents) ;;
     let failures := List.filter (fun result => negb (succeeded result)) uploadResult in
     if (0 <? length failures)%nat
     then throw (MastraError "STORAGE_AZURE_AI_SEARCH_UPSERT_PARTIAL_FAILURE"
                   (DocumentsFailed (length failures) (length uploadResult)))
     else ret vectorIds)
    (fun error =>
       throw (MastraError "STORAGE_AZURE_AI_SEARCH_UPSERT_FAILED" error)).

(** A fresh adapter: nothing requested, no client cached. *)
Definition fresh : State :=
  {| calls := []; searchClients := []; uuids := 0 |}.

End Store.
End Adapter.

(** ** A runtime for the examples

    A date stands for the text that [toISOString] returns for it, and
    is [None] when it is invalid; a number stands for the text that
    [String] returns for it. *)

#[export] Instance textRuntime : Runtime := {
  Date := option string;
  toISOString := fun d =>
    match d with
    | Some text => Normal text
    | None => Throw RangeError
    end;
  Other := string;
  String_ := fun o => Normal o
}.

(** Metadata stands for its JSON text and carries no [content]; the
    text [BigInt] stands for an object that [JSON.stringify] refuses. *)
#[export] Instance textHost : Adapter.Host := {
  Adapter.Num := Z;
  Adapter.Metadata := string;
  Adapter.emptyObject := "{}";
  Adapter.JSON_stringify := fun m =>
    if m =? "BigInt"
    then Adapter.Unserializable "Do not know how to serialize a BigInt"
    else Adapter.Text m;
  Adapter.contentOf := fun _ => ""
}.

(** The [id] of a document when it is a string. *)
Definition keyOf (document : Adapter.Document) : option string :=
  match Adapter.get "id" document with
  | Adapter.Str id => Some id
  | _ => None
  end.

(** A service with one index, [products], whose vector field declares
    three dimensions; every upload succeeds. *)
Definition productsIndex : Adapter.SearchIndex :=
  {| Adapter.ix_fields :=
       Some [ {| Adapter.sf_name := "id";
                 Adapter.sf_type := "Edm.String";
                 Adapter.sf_dimensions := None;
                 Adapter.sf_vectorSearchDimensions := None |};
              {| Adapter.sf_name := "vector";
                 Adapter.sf_type := "Collection(Edm.Single)";
                 Adapter.sf_dimensions := None;
                 Adapter.sf_vectorSearchDimensions := Some 3%Z |} ];
     Adapter.ix_algorithms := Some [Some "cosine"] |}.

Definition productsService : Adapter.Service :=
  {| Adapter.getIndex := fun _ indexName =>
       if indexName =? "products"
       then Adapter.Returned productsIndex
       else Adapter.Thrown (Adapter.SdkError "index not found");
     Adapter.getDocumentsCount := fun _ _ => Adapter.Returned 0%Z;
     Adapter.uploadDocuments := fun _ _ documents =>
       Adapter.Returned
         (map (fun d => {| Adapter.succeeded := true;
                           Adapter.key := keyOf d;
                           Adapter.errorMessage := None |})
              documents);
     Adapter.randomUUID := fun _ => "00000000-0000-4000-8000-000000000000" |}.

(** Three upserts into [products]: one vector of two components, one
    vector of three, and one vector of three whose metadata cannot be
    serialized. *)
Definition mismatched : Adapter.UpsertVectorParams :=
  {| Adapter.indexName := "products";
     Adapter.vectors := [[1; 2]%Z];
     Adapter.metadata := None;
     Adapter.ids := Some ["doc1"] |}.

Definition matching : Adapter.UpsertVectorParams :=
  {| Adapter.indexName := "products";
     Adapter.vectors := [[1; 2; 3]%Z];
     Adapter.metadata := Some ["{}"];
     Adapter.ids := Some ["doc1"] |}.

Definition unserializable : Adapter.UpsertVectorParams :=
  {| Adapter.indexName := "products";
     Adapter.vectors := [[1; 2; 3]%Z];
     Adapter.metadata := Some ["BigInt"];
     Adapter.ids := Some ["doc1"] |}.

(** ** Reading the translator's output and its trees *)

Module Reading.

(** The body of an OData string literal, read from just after the
    opening quote: two single quotes in a row stand for one, a single
    quote alone closes the literal.  The result is the text of the
    literal and what follows it; [None] when the literal is not closed. *)

Fixpoint readBody (s : string) : option (string * string) :=
  match s with
  | EmptyString => None
  | String a rest =>
      if Ascii.eqb a "'" then
        match rest with
        | String b rest' =>
            if Ascii.eqb b "'" then
              match readBody rest' with
              | Some (content, after) => Some (String a content, after)
              | None => None
              end
            else Some (EmptyString, rest)
        | EmptyString => Some (EmptyString, EmptyString)
        end
      else
        match readBody rest with
        | Some (content, after) => Some (String a content, after)
        | None => None
        end
  end.

(** A string literal at the start of [s]. *)
Definition readLiteral (s : string) : option (string * string) :=
  match s with
  | String a rest => if Ascii.eqb a "'" then readBody rest else None
  | EmptyString => None
  end.

Definition startsWithQuote (s : string) : bool :=
  match s with
  | String a _ => Ascii.eqb a "'"
  | EmptyString => false
  end.

(** What follows the white-space character that [s] starts with, when
    it starts with one. *)
Definition leading (s : string) : option string :=
  match s with
  | EmptyString => None
  | String a rest =>
      if is_space a then Some rest
      else
        match rest with
        | EmptyString => None
        | String b rest2 =>
            if is_space2 a b then Some rest2
            else
              match rest2 with
              | EmptyString => None
              | String c rest3 => if is_space3 a b c then Some rest3 else None
              end
        end
  end.

(** [s] is empty or starts with something that [trim] keeps. *)
Definition headed (s : string) : bool :=
  match leading s with
  | Some _ => false
  | None => true
  end.

Section Trees.
Context `{Runtime}.
Import Part001.

(** The number of entries of a mapping, none when it is absent. *)
Definition entryCount {V : Type} (x : option (Entries V)) : nat :=
  match x with
  | Some r => length r
  | None => 0
  end.

(** The tree with [$filter] removed at every node. *)
Fixpoint forgetRaw (filter : AzureAISearchVectorFilter) : AzureAISearchVectorFilter :=
  mkFilter None
    match f_and filter with Some children => Some (map forgetRaw children) | None => None end
    match f_or filter with Some children => Some (map forgetRaw children) | None => None end
    match f_not filter with Some child => Some (forgetRaw child) | None => None end
    (f_eq filter) (f_ne filter) (f_gt filter) (f_ge filter) (f_lt filter) (f_le filter)
    (f_contains filter) (f_startsWith filter) (f_endsWith filter)
    match f_any filter with Some (collection, inner) => Some (collection, forgetRaw inner) | None => None end
    match f_all filter with Some (collection, inner) => Some (collection, forgetRaw inner) | None => None end.

(** The number of comparisons and string predicates of the tree, at
    every depth. *)
Fixpoint leaves (filter : AzureAISearchVectorFilter) : nat :=
  match f_and filter with Some children => list_sum (map leaves children) | None => 0 end
  + match f_or filter with Some children => list_sum (map leaves children) | None => 0 end
  + match f_not filter with Some child => leaves child | None => 0 end
  + entryCount (f_eq filter) + entryCount (f_ne filter) + entryCount (f_gt filter)
  + entryCount (f_ge filter) + entryCount (f_lt filter) + entryCount (f_le filter)
  + entryCount (f_contains filter) + entryCount (f_startsWith filter)
  + entryCount (f_endsWith filter)
  + match f_any filter with Some (_, inner) => leaves inner | None => 0 end
  + match f_all filter with Some (_, inner) => leaves inner | None => 0 end.

(** The field name holds no slash, space or dash. *)
Definition plainName (field : string) : bool :=
  negb (includes field "/" || includes field " " || includes field "-").

Definition plainNames {V : Type} (x : option (Entries V)) : bool :=
  match x with
  | Some r => forallb (fun entry => plainName (fst entry)) r
  | None => true
  end.

(** A tree of the first copy that the second copy can hold and renders
    alike: no quantifier at any depth, and plain names wherever
    [escapeFieldName] is applied. *)
Fixpoint portable (filter : AzureAISearchVectorFilter) : bool :=
  match f_and filter with Some children => forallb portable children | None => true end
  && match f_or filter with Some children => forallb portable children | None => true end
  && match f_not filter with Some child => portable child | None => true end
  && plainNames (f_eq filter) && plainNames (f_ne filter) && plainNames (f_gt filter)
  && plainNames (f_ge filter) && plainNames (f_lt filter) && plainNames (f_le filter)
  && plainNames (f_startsWith filter) && plainNames (f_endsWith filter)
  && negb (isSome (f_any filter)) && negb (isSome (f_all filter)).

(** The same tree as a filter of the second copy; quantifiers, which
    differ in shape, are left out. *)
Fixpoint toSecond (filter : AzureAISearchVectorFilter) : Part002.AzureAISearchVectorFilter :=
  Part002.mkFilter (f_filter filter)
    match f_and filter with Some children => Some (map toSecond children) | None => None end
    match f_or filter with Some children => Some (map toSecond children) | None => None end
    match f_not filter with Some child => Some (toSecond child) | None => None end
    (f_eq filter) (f_ne filter) (f_gt filter) (f_ge filter) (f_lt filter) (f_le filter)
    (f_contains filter) (f_startsWith filter) (f_endsWith filter)
    None None.

End Trees.
End Reading.

(** ** The states that the adapter's operations reach *)

Module Runs.
Import Adapter.
Section Store.
Context `{Host}.

(** The client cache once [getSearchClient] has run for [name]. *)
Definition withClient (name : string) (clients : list string) : list string :=
  if existsb (String.eqb name) clients then clients else name :: clients.

(** The state once one request more has been sent. *)
Definition having (c : Call) (st : State) : State :=
  {| calls := calls st ++ [c];
     searchClients := searchClients st;
     uuids := uuids st |}.

(** The state once the search client of [name] is cached. *)
Definition cached (name : string) (st : State) : State :=
  {| calls := calls st;
     searchClients := withClient name (searchClients st);
     uuids := uuids st |}.

(** The state once [getVectorFieldName] has run: one request more. *)
Definition afterLookup (name : string) (st : State) : State :=
  {| calls := calls st ++ [GetIndex name];
     searchClients := searchClients st;
     uuids := uuids st |}.

(** The state once [describeIndex] has asked for the index and for the
    document count. *)
Definition afterDescribe (name : string) (st : State) : State :=
  {| calls := calls st ++ [GetIndex name; GetDocumentsCount name];
     searchClients := withClient name (searchClients st);
     uuids := uuids st |}.

(** The identifiers that [upsert] uses: the given ones, or one drawn
    per vector. *)
Definition upsertIds (svc : Service) (params : UpsertVectorParams) (st : State)
  : list string :=
  match ids params with
  | Some given => given
  | None =>
      map (fun k => randomUUID svc (uuids st + k)) (seq 0 (length (vectors params)))
  end.

(** The documents that [upsert] prepares under the vector field
    [vectorFieldName]. *)
Definition upsertDocuments (svc : Service) (params : UpsertVectorParams)
    (st : State) (vectorFieldName : string) : Outcome (list Document) :=
  documentsFrom 0 vectorFieldName (upsertIds svc params st)
    (match metadata params with Some m => m | None => [] end)
    (vectors params).

(** The state once [upsert] has described the index, looked the vector
    field up and settled the identifiers: three requests. *)
Definition beforeUpload (params : UpsertVectorParams) (st : State) : State :=
  {| calls := calls st ++ [GetIndex (indexName params);
                           GetDocumentsCount (indexName params);
                           GetIndex (indexName params)];
     searchClients := withClient (indexName params) (searchClients st);
     uuids := match ids params with
              | Some _ => uuids st
              | None => uuids st + length (vectors params)
              end |}.

(** The state once [upsert] has sent its upload. *)
Definition afterUpload (params : UpsertVectorParams) (st : State)
    (documents : list Document) : State :=
  having (UploadDocuments (indexName params) documents) (beforeUpload params st).

(** What [upsert] makes of the answer to its upload. *)
Definition uploadOutcome (out : list string) (answer : Outcome (list IndexingResult))
  : Outcome (list string) :=
  match answer with
  | Thrown e => Thrown (MastraError "STORAGE_AZURE_AI_SEARCH_UPSERT_FAILED" e)
  | Returned results =>
      let failures := List.filter (fun result => negb (succeeded result)) results in
      if (0 <? length failures)%nat
      then Thrown (MastraError "STORAGE_AZURE_AI_SEARCH_UPSERT_FAILED"
                     (MastraError "STORAGE_AZURE_AI_SEARCH_UPSERT_PARTIAL_FAILURE"
                        (DocumentsFailed (length failures) (length results))))
      else Returned out
  end.

(** [metadata[i] || {}] and [metadata[i]?.content || '']. *)
Definition metadataAt (metadata : list Metadata) (i : nat) : Metadata :=
  match nth_error metadata i with
  | Some m => m
  | None => emptyObject
  end.

Definition contentAt (metadata : list Metadata) (i : nat) : string :=
  match nth_error metadata i with
  | Some m => contentOf m
  | None => ""
  end.

(** The document that [upsert] prepares for the vector at position
    [i], once its metadata is serialized. *)
Definition documentAt (field : string) (vectorIds : list string)
    (metadata : list Metadata) (i : nat) (vector : list Num) (json : DocValue)
  : Document :=
  object [ ("id", idAt vectorIds i);
           (field, Vec vector);
           ("metadata", json);
           ("content", Str (contentAt metadata i)) ].

(** The vector field is none of [id], [metadata] and [content]. *)
Definition plainField (field : string) : bool :=
  negb ((field =? "id") || (field =? "metadata") || (field =? "content")).

End Store.
End Runs.

(** A service like [productsService] whose uploads report the first
    document as failed. *)
Definition rejectingService : Adapter.Service :=
  {| Adapter.getIndex := Adapter.getIndex productsService;
     Adapter.getDocumentsCount := Adapter.getDocumentsCount productsService;
     Adapter.uploadDocuments := fun _ _ documents =>
       Adapter.Returned
         (map (fun d => {| Adapter.succeeded := false;
                           Adapter.key := keyOf d;
                           Adapter.errorMessage := Some "quota exceeded" |})
              (firstn 1 documents)
          ++ map (fun d => {| Adapter.succeeded := true;
                              Adapter.key := keyOf d;
                              Adapter.errorMessage := None |})
               (skipn 1 documents))%list;
     Adapter.randomUUID := Adapter.randomUUID productsService |}.

(** ** The adapter: creating and deleting indexes, updating and deleting vectors *)

Module Operations.
Import Adapter.

(** An error of the service client: its [statusCode] and its [message]. *)
Record Failure : Type := {
  statusCode : option Z;
  message : option string
}.

(** What these operations throw: an error of the operations embedded in
    [Adapter] or of [JSON.stringify], a [new Error(message)], an error
    of the service client, or a [MastraError] with its identifier, its
    [text] and its cause. *)
Inductive Raised : Type :=
| Inner (e : Error)
| Plain (message : string)
| Sdk (failure : Failure)
| Mastra (id : string) (text : option string) (cause : option Raised).

Inductive Result (A : Type) : Type :=
| Done (a : A)
| Raise (e : Raised).
Arguments Done {A} a.
Arguments Raise {A} e.

(** The answer of the service client to one request. *)
Inductive Reply (A : Type) : Type :=
| Replied (a : A)
| Refused (failure : Failure).
Arguments Replied {A} a.
Arguments Refused {A} failure.

Record HnswParameters : Type := {
  hp_m : option Z;
  hp_efConstruction : option Z;
  hp_efSearch : option Z
}.

Record SemanticConfig : Type := {
  sc_name : option string;
  sc_prioritizedFields : option PrioritizedFields
}.

(** The parameters of [createIndex].  [ci_dimension] is [None] for a
    value that [Number.isInteger] refuses. *)
Record CreateIndexParams : Type := {
  ci_indexName : string;
  ci_dimension : option Z;
  ci_metric : option Metric;
  ci_vectorField : option string;
  ci_additionalFields : option (list FieldDefinition);
  ci_hnswParameters : option HnswParameters;
  ci_semanticConfig : option SemanticConfig
}.

(** [x ?? fallback], and a destructuring default. *)
Definition orDefault {A : Type} (x : option A) (fallback : A) : A :=
  match x with
  | Some a => a
  | None => fallback
  end.

Definition Metric_eqb (a b : Metric) : bool :=
  match a, b with
  | cosine, cosine | euclidean, euclidean | dotproduct, dotproduct => true
  | _, _ => false
  end.

(** [METRIC_MAPPING[metric]]. *)
Definition similarityFunctionOf (metric : Metric) : option string :=
  match find (fun entry => Metric_eqb (fst entry) metric) METRIC_MAPPING with
  | Some entry => Some (snd entry)
  | None => None
  end.

Definition defaultFields (vectorField : string) (dimension : Z)
  : list FieldDefinition :=
  let vectorFieldConfig :=
    {| fd_name := vectorField;
       fd_type := "Collection(Edm.Single)";
       fd_key := None;
       fd_searchable := Some true;
       fd_filterable := None;
       fd_retrievable := Some true;
       fd_sortable := None;
       fd_facetable := None;
       fd_vectorSearchDimensions := Some dimension;
       fd_vectorSearchProfileName := Some "vector-profile" |} in
  [ {| fd_name := "id";
       fd_type := "Edm.String";
       fd_key := Some true;
       fd_searchable := Some false;
       fd_filterable := Some false;
       fd_retrievable := None;
       fd_sortable := Some false;
       fd_facetable := Some false;
       fd_vectorSearchDimensions := None;
       fd_vectorSearchProfileName := None |};
    vectorFieldConfig;
    {| fd_name := "metadata";
       fd_type := "Edm.String";
       fd_key := None;
       fd_searchable := Some false;
       fd_filterable := Some true;
       fd_retrievable := None;
       fd_sortable := Some false;
       fd_facetable := Some false;
       fd_vectorSearchDimensions := None;
       fd_vectorSearchProfileName := None |};
    {| fd_name := "content";
       fd_type := "Edm.String";
       fd_key := None;
       fd_searchable := Some true;
       fd_filterable := Some false;
       fd_retrievable := None;
       fd_sortable := Some false;
       fd_facetable := Some false;
       fd_vectorSearchDimensions := None;
       fd_vectorSearchProfileName := None |} ].

(** The [indexDefinition] that [createIndex] builds inside its [try]. *)
Definition indexDefinition (params : CreateIndexParams) (dimension : Z)
  : IndexDefinition :=
  let metric := orDefault (ci_metric params) cosine in
  let vectorField := orDefault (ci_vectorField params) "vector" in
  let additionalFields := orDefault (ci_additionalFields params) [] in
  let hnswParameters :=
    orDefault (ci_hnswParameters params)
      {| hp_m := None; hp_efConstruction := None; hp_efSearch := None |} in
  let similarityFunction := similarityFunctionOf metric in
  let defaultFields := defaultFields vectorField dimension in
  let existingFieldNames := map fd_name defaultFields in
  let allFields : list FieldDefinition :=
    (defaultFields
     ++ List.filter
          (fun field => negb (existsb (String.eqb (fd_name field)) existingFieldNames))
          additionalFields)%list in
  let hnswConfig :=
    {| hc_metric := similarityFunction;
       hc_m := orDefault (hp_m hnswParameters) 4%Z;
       hc_efConstruction := orDefault (hp_efConstruction hnswParameters) 400%Z;
       hc_efSearch := orDefault (hp_efSearch hnswParameters) 500%Z |} in
  {| def_name := ci_indexName params;
     def_fields := allFields;
     def_profiles :=
       [ {| pr_name := "vector-profile";
            pr_algorithmConfigurationName := "vector-algorithm" |} ];
     def_algorithms :=
       [ {| alg_name := "vector-algorithm";
            alg_kind := "hnsw";
            alg_hnswParameters := hnswConfig |} ];
     def_semantic :=
       match ci_semanticConfig params with
       | Some semanticConfig =>
           Some [ {| conf_name :=
                       orDefault (sc_name semanticConfig) "default-semantic-config";
                     conf_prioritizedFields :=
                       orDefault (sc_prioritizedFields semanticConfig)
                         {| titleField := Some "content";
                            prioritizedContentFields := Some ["content"];
                            prioritizedKeywordsFields := Some ["tags"] |} |} ]
       | None => None
       end |}.

Section Store.
Context `{Host}.

(** The [update] of [updateVector]. *)
Record Update : Type := {
  up_vector : option (list Num);
  up_metadata : option Metadata
}.

(** The service client for the requests of these operations; an answer
    may depend on the requests made so far. *)
Record Backend : Type := {
  sdk_createIndex : list Call -> IndexDefinition -> Reply unit;
  sdk_deleteIndex : list Call -> string -> Reply unit;
  sdk_getDocument : list Call -> string -> string -> Reply (option Document);
  sdk_mergeDocuments : list Call -> string -> list Document -> Reply unit;
  sdk_deleteDocuments : list Call -> string -> list string -> Reply unit
}.

(** These operations run on the state of the adapter, with the one log
    of requests. *)
Definition Op (A : Type) : Type := State -> Result A * State.

Definition done {A : Type} (a : A) : Op A := fun st => (Done a, st).

Definition raise {A : Type} (e : Raised) : Op A := fun st => (Raise e, st).

Definition andThen {A B : Type} (m : Op A) (k : A -> Op B) : Op B :=
  fun st =>
    match m st with
    | (Done a, st') => k a st'
    | (Raise e, st') => (Raise e, st')
    end.

(** [try { m } catch (error) { handler(error) }]. *)
Definition attempt {A : Type} (m : Op A) (handler : Raised -> Op A) : Op A :=
  fun st =>
    match m st with
    | (Done a, st') => (Done a, st')
    | (Raise e, st') => handler e st'
    end.

(** One request: it is recorded, then answered. *)
Definition send {A : Type} (c : Call) (answer : list Call -> Reply A) : Op A :=
  fun st =>
    (match answer (calls st) with
     | Replied a => Done a
     | Refused failure => Raise (Sdk failure)
     end,
     {| calls := (calls st ++ [c])%list;
        searchClients := searchClients st;
        uuids := uuids st |}).

(** An operation embedded in [Adapter], run on the same state. *)
Definition earlier {A : Type} (m : M A) : Op A :=
  fun st =>
    match m st with
    | (Returned a, st') => (Done a, st')
    | (Thrown e, st') => (Raise (Inner e), st')
    end.

Notation "x <- m ;; k" := (andThen m (fun x => k))
  (at level 61, m at next level, right associativity).

(** [error?.statusCode === 409 || error?.message?.includes('already exists')]. *)
Definition alreadyExists (error : Raised) : bool :=
  match error with
  | Sdk failure =>
      match statusCode failure with
      | Some code => (code =? 409)%Z
      | None => false
      end
      || match message failure with
         | Some text => includes text "already exists"
         | None => false
         end
  | Plain text => includes text "already exists"
  | _ => false
  end.

Definition createIndex (backend : Backend) (params : CreateIndexParams) : Op unit :=
  let invalid : Op unit :=
    raise (Mastra "STORAGE_AZURE_AI_SEARCH_CREATE_INDEX_INVALID_DIMENSION"
             (Some "Dimension must be a positive integer") None) in
  match ci_dimension params with
  | None => invalid
  | Some dimension =>
      if (dimension <=? 0)%Z then invalid
      else
        attempt
          (let indexDefinition := indexDefinition params dimension in
           send (CreateIndex indexDefinition)
             (fun h => sdk_createIndex backend h indexDefinition))
          (fun error =>
             if alreadyExists error then done tt
             else raise (Mastra "STORAGE_AZURE_AI_SEARCH_CREATE_INDEX_FAILED"
                           None (Some error)))
  end.

(** [this.searchClients.delete(indexName)]. *)
Definition forgetClient (indexName : string) : Op unit :=
  fun st =>
    (Done tt,
     {| calls := calls st;
        searchClients :=
          List.filter (fun name => negb (name =? indexName)) (searchClients st);
        uuids := uuids st |}).

Definition deleteIndex (backend : Backend) (indexName : string) : Op unit :=
  attempt
    (_ <- send (DeleteIndex indexName) (fun h => sdk_deleteIndex backend h indexName) ;;
     forgetClient indexName)
    (fun error =>
       raise (Mastra "STORAGE_AZURE_AI_SEARCH_DELETE_INDEX_FAILED" None (Some error))).

(** [error && typeof error === 'object' && 'statusCode' in error
    && error.statusCode === 404]. *)
Definition notFound (error : Raised) : bool :=
  match error with
  | Sdk failure =>
      match statusCode failure with
      | Some code => (code =? 404)%Z
      | None => false
      end
  | _ => false
  end.

Definition deleteVector (backend : Backend) (indexName id : string) : Op unit :=
  attempt
    (searchClient <- earlier (getSearchClient indexName) ;;
     send (DeleteDocuments searchClient [id])
       (fun h => sdk_deleteDocuments backend h searchClient [id]))
    (fun error =>
       if notFound error then done tt
       else raise (Mastra "STORAGE_AZURE_AI_SEARCH_DELETE_VECTOR_FAILED"
                     None (Some error))).

(** The object literal [updatedDoc] of [updateVector], once its
    [metadata] property is evaluated: the second name is computed, and
    [content] is [update.metadata?.content || existingDoc.content || '']. *)
Definition updatedDocument (id vectorFieldName : string) (update : Update)
    (existingDoc : Document) (metadata : DocValue) : Document :=
  object [ ("id", Str id);
           (vectorFieldName,
            match up_vector update with
            | Some vector => Vec vector
            | None => get vectorFieldName existingDoc
            end);
           ("metadata", metadata);
           ("content",
            orValue
              (orValue
                 match up_metadata update with
                 | Some m => Str (contentOf m)
                 | None => Undefined
                 end
                 (get "content" existingDoc))
              (Str "")) ].

Definition updateVector (svc : Service) (backend : Backend)
    (indexName id : string) (update : Update) : Op unit :=
  attempt
    (_ <- match up_vector update, up_metadata update with
          | None, None => raise (Plain "No updates provided")
          | _, _ => done tt
          end ;;
     searchClient <- earlier (getSearchClient indexName) ;;
     vectorFieldName <- earlier (getVectorFieldName svc indexName) ;;
     existingDoc <- send (GetDocument searchClient id)
                      (fun h => sdk_getDocument backend h searchClient id) ;;
     match existingDoc with
     | None => raise (Plain ("Document with ID " ++ id ++ " not found"))
     | Some existingDoc =>
         _ <- match up_vector update with
              | Some vector =>
                  indexInfo <- earlier (describeIndex svc indexName) ;;
                  earlier (lift (validateVectorDimensions [vector]
                                   (st_dimension indexInfo)))
              | None => done tt
              end ;;
         metadata <- match up_metadata update with
                     | Some m => earlier (lift (stringify m))
                     | None => done (get "metadata" existingDoc)
                     end ;;
         let updatedDoc :=
           updatedDocument id vectorFieldName update existingDoc metadata in
         send (MergeDocuments searchClient [updatedDoc])
           (fun h => sdk_mergeDocuments backend h searchClient [updatedDoc])
     end)
    (fun error =>
       raise (Mastra "STORAGE_AZURE_AI_SEARCH_UPDATE_VECTOR_FAILED" None (Some error))).

End Store.
End Operations.

(** ** The states that [updateVector] reaches *)

Module Worlds.
Import Adapter Runs Operations.
Section Store.
Context `{Host}.

(** The state once [updateVector] has looked the vector field up. *)
Definition looked (name : string) (st : State) : State :=
  afterLookup name (cached name st).

(** The state once [updateVector] has asked for the document. *)
Definition fetched (name id : string) (st : State) : State :=
  having (GetDocument name id) (looked name st).

(** The state once [updateVector] has described the index, after the
    document came back. *)
Definition described (name id : string) (st : State) : State :=
  afterDescribe name (fetched name id st).

(** What [updateVector] does once the document has come back. *)
Definition merging (svc : Service) (backend : Backend) (name id field : string)
    (update : Update) (existingDoc : Document) : Op unit :=
  andThen
    match up_vector update with
    | Some vector =>
        andThen (earlier (describeIndex svc name))
          (fun indexInfo =>
             earlier (lift (validateVectorDimensions [vector]
                              (st_dimension indexInfo))))
    | None => done tt
    end
    (fun _ =>
       andThen
         match up_metadata update with
         | Some m => earlier (lift (stringify m))
         | None => done (get "metadata" existingDoc)
         end
         (fun metadata =>
            send (MergeDocuments name
                    [updatedDocument id field update existingDoc metadata])
              (fun h =>
                 sdk_mergeDocuments backend h name
                   [updatedDocument id field update existingDoc metadata]))).

(** [statusCode === code] on an error of the service client. *)
Definition hasStatus (code : Z) (failure : Failure) : bool :=
  match statusCode failure with
  | Some c => (c =? code)%Z
  | None => false
  end.

(** [message?.includes(fragment)] on an error of the service client. *)
Definition messageIncludes (fragment : string) (failure : Failure) : bool :=
  match message failure with
  | Some text => includes text fragment
  | None => false
  end.

End Store.
End Worlds.

(** What [getIndex] shows of a definition that the service has stored:
    name, type and dimensions of each field, and the metric of each
    algorithm. *)
Definition stored (definition : Adapter.IndexDefinition) : Adapter.SearchIndex :=
  {| Adapter.ix_fields :=
       Some (map (fun field =>
                    {| Adapter.sf_name := Adapter.fd_name field;
                       Adapter.sf_type := Adapter.fd_type field;
                       Adapter.sf_dimensions := None;
                       Adapter.sf_vectorSearchDimensions :=
                         Adapter.fd_vectorSearchDimensions field |})
                 (Adapter.def_fields definition));
     Adapter.ix_algorithms :=
       Some (map (fun algorithm =>
                    Adapter.hc_metric (Adapter.alg_hnswParameters algorithm))
                 (Adapter.def_algorithms definition)) |}.

(** A request for an index [catalog] with 1536 dimensions, the
    dot-product metric and one more field. *)
Definition catalogParams : Operations.CreateIndexParams :=
  {| Operations.ci_indexName := "catalog";
     Operations.ci_dimension := Some 1536%Z;
     Operations.ci_metric := Some Adapter.dotproduct;
     Operations.ci_vectorField := Some "embedding";
     Operations.ci_additionalFields :=
       Some [ {| Adapter.fd_name := "category";
                 Adapter.fd_type := "Edm.String";
                 Adapter.fd_key := None;
                 Adapter.fd_searchable := None;
                 Adapter.fd_filterable := Some true;
                 Adapter.fd_retrievable := None;
                 Adapter.fd_sortable := None;
                 Adapter.fd_facetable := None;
                 Adapter.fd_vectorSearchDimensions := None;
                 Adapter.fd_vectorSearchProfileName := None |} ];
     Operations.ci_hnswParameters := None;
     Operations.ci_semanticConfig := None |}.

(** A service that holds the index that [catalogParams] asks for. *)
Definition catalogService : Adapter.Service :=
  {| Adapter.getIndex := fun _ _ =>
       Adapter.Returned (stored (Operations.indexDefinition catalogParams 1536%Z));
     Adapter.getDocumentsCount := fun _ _ => Adapter.Returned 7%Z;
     Adapter.uploadDocuments := Adapter.uploadDocuments productsService;
     Adapter.randomUUID := Adapter.randomUUID productsService |}.

(** The document [doc1] of [products]. *)
Definition storedDoc : @Adapter.Document textHost :=
  [ ("id", Adapter.Str "doc1");
    ("vector", Adapter.Vec [1; 2; 3]%Z);
    ("metadata", Adapter.Str "{}");
    ("content", Adapter.Str "first document") ].

(** The document that [upsert] prepares from [matching]. *)
Definition preparedDoc : @Adapter.Document textHost :=
  [ ("id", Adapter.Str "doc1");
    ("vector", Adapter.Vec [1; 2; 3]%Z);
    ("metadata", Adapter.Str "{}");
    ("content", Adapter.Str "") ].

(** A client for [products]: the index exists already, [doc1] is its
    only document, and deleting [ghost] is refused with status 404. *)
Definition productsBackend : Operations.Backend :=
  {| Operations.sdk_createIndex := fun _ definition =>
       if Adapter.def_name definition =? "products"
       then Operations.Refused
              {| Operations.statusCode := Some 409%Z;
                 Operations.message := Some "Index already exists" |}
       else Operations.Replied tt;
     Operations.sdk_deleteIndex := fun _ _ => Operations.Replied tt;
     Operations.sdk_getDocument := fun _ _ id =>
       if id =? "doc1" then Operations.Replied (Some storedDoc)
       else Operations.Replied None;
     Operations.sdk_mergeDocuments := fun _ _ _ => Operations.Replied tt;
     Operations.sdk_deleteDocuments := fun _ _ ids =>
       if existsb (String.eqb "ghost") ids
       then Operations.Refused
              {| Operations.statusCode := Some 404%Z;
                 Operations.message := Some "Document not found" |}
       else Operations.Replied tt |}.

(** A request to create [products] anew, with three dimensions. *)
Definition productsParams : Operations.CreateIndexParams :=
  {| Operations.ci_indexName := "products";
     Operations.ci_dimension := Some 3%Z;
     Operations.ci_metric := None;
     Operations.ci_vectorField := None;
     Operations.ci_additionalFields := None;
     Operations.ci_hnswParameters := None;
     Operations.ci_semanticConfig := None |}.

(** A tree that both copies can hold, and a filter of the second copy
    whose field name starts with a no-break space (U+00A0). *)
Definition booksFilter : Part001.AzureAISearchVectorFilter :=
  Part001.set_and
    [Part001.set_eq [("category", VString "books")] Part001.noFields;
     Part001.set_not
       (Part001.set_startsWith [("title", "The")] Part001.noFields)
       Part001.noFields]
    Part001.noFields.

Definition paddedFilter : Part002.AzureAISearchVectorFilter :=
  Part002.set_eq
    [(String (ascii_of_nat 194) (String (ascii_of_nat 160) "name"), VString "x")]
    Part002.noFields.

(** Three updates: a vector of two components, a vector of three, and
    new metadata alone. *)
Definition shortVectorUpdate : @Operations.Update textHost :=
  @Operations.Build_Update textHost (Some [1; 2]%Z) None.

Definition fullVectorUpdate : @Operations.Update textHost :=
  @Operations.Build_Update textHost (Some [4; 5; 6]%Z) None.

Definition metadataUpdate : @Operations.Update textHost :=
  @Operations.Build_Update textHost None (Some "{}").

(** * Properties *)

(** ** Calls that may throw *)

Section CompletionProperties.
Context {A B : Type}.

Local Notation "x <- m ;; k" := (bind m (fun x => k))
  (at level 61, m at next level, right associativity).

(** The first statement of a sequence may be replaced by an equal one. *)
Lemma bind_head {C : Type} (m m' : Completion A) (k : A -> Completion C)
    (rhs : Completion C) :
  m = m' -> bind m' k = rhs -> bind m k = rhs.
Proof. now intros ->. Qed.

Lemma bind_both {C : Type} (m m' : Completion A) (k k' : A -> Completion C) :
  m = m' -> (forall a, k a = k' a) -> bind m k = bind m' k'.
Proof. intros -> E. destruct m'; [apply E | reflexivity]. Qed.

Lemma mapM_ext_in (f g : A -> Completion B) (l : list A) :
  (forall x, In x l -> f x = g x) -> mapM f l = mapM g l.
Proof.
  induction l as [ | x rest IH]; intros E; [reflexivity | ].
  cbn [mapM]. rewrite (E x (or_introl eq_refl)).
  rewrite IH; [reflexivity | ]. intros y I. apply E. now right.
Qed.

Lemma mapM_map {C : Type} (g : C -> A) (f : A -> Completion B) (l : list C) :
  mapM f (map g l) = mapM (fun x => f (g x)) l.
Proof.
  induction l as [ | x rest IH]; [reflexivity | ].
  cbn [map mapM]. now rewrite IH.
Qed.

(** A callback that never throws maps like [map]. *)
Lemma mapM_Normal (f : A -> B) (l : list A) :
  mapM (fun x => Normal (f x)) l = Normal (map f l).
Proof.
  induction l as [ | x rest IH]; [reflexivity | ].
  cbn [mapM map bind]. now rewrite IH.
Qed.

(** [mapM] returns exactly when the callback returns on every element,
    and then gives the results in order. *)
Lemma mapM_returns (f : A -> Completion B) (l : list A) (ys : list B) :
  mapM f l = Normal ys <-> Forall2 (fun x y => f x = Normal y) l ys.
Proof.
  revert ys. induction l as [ | x rest IH]; intros ys; cbn [mapM].
  - split.
    + intros E. injection E as <-. constructor.
    + now inversion 1.
  - destruct (f x) as [y | e] eqn:F; cbn [bind].
    + destruct (mapM f rest) as [zs | e] eqn:M; cbn [bind].
      * split.
        -- intros E. injection E as <-. constructor; [exact F | now apply IH].
        -- inversion 1 as [ | ? y' ? zs' Fy R]; subst.
           apply IH in R. congruence.
      * split; [discriminate | ].
        inversion 1 as [ | ? y' ? zs' Fy R]; subst.
        apply IH in R. discriminate R.
    + split; [discriminate | ].
      inversion 1 as [ | ? y' ? zs' Fy R]; subst. congruence.
Qed.

Lemma mapM_length (f : A -> Completion B) (l : list A) (ys : list B) :
  mapM f l = Normal ys -> length ys = length l.
Proof.
  intros E. apply mapM_returns in E. symmetry. exact (Forall2_length E).
Qed.

(** What holds of every result of the callback holds of every element
    of the result. *)
Lemma mapM_Forall (P : B -> Prop) (f : A -> Completion B) (l : list A)
    (ys : list B) :
  (forall x y, In x l -> f x = Normal y -> P y) ->
  mapM f l = Normal ys -> Forall P ys.
Proof.
  intros Q E. apply mapM_returns in E.
  induction E as [ | x y rest ys F R IH]; constructor.
  - apply (Q x); [now left | exact F].
  - apply IH. intros x' y' I. apply Q. now right.
Qed.

End CompletionProperties.

(** ** The translator, first copy *)

Section TranslatorProperties.
Context `{Runtime}.
Import Part001.

Local Notation "x <- m ;; k" := (bind m (fun x => k))
  (at level 61, m at next level, right associativity).

Lemma Boolean_true_iff (s : string) : Boolean s = true <-> s <> "".
Proof.
  unfold Boolean. rewrite negb_true_iff. split.
  - intros E ->. discriminate.
  - intros N. destruct s; [congruence | reflexivity].
Qed.

Lemma truthy_Some (raw : string) : raw <> "" -> truthy (Some raw) = true.
Proof. intros N. now apply Boolean_true_iff. Qed.

(** The guarded pushes of [translateFilter], block by block. *)
Lemma composite_block (sep : string)
    (a : option (list AzureAISearchVectorFilter)) :
  match a with
  | Some children =>
      rendered <- mapM translateFilter children ;;
      if (0 <? length (List.filter Boolean rendered))%nat
      then Normal ["(" ++ join sep (List.filter Boolean rendered) ++ ")"]
      else Normal []
  | None => Normal []
  end
  = whenSet a (composite sep).
Proof.
  destruct a as [children | ]; [ | reflexivity]. cbn [whenSet].
  unfold composite, survivors.
  destruct (mapM translateFilter children) as [rendered | e]; [ | reflexivity].
  cbn [bind]. now destruct (List.filter Boolean rendered).
Qed.

Lemma negation_block (n : option AzureAISearchVectorFilter) :
  match n with
  | Some child =>
      notCondition <- translateFilter child ;;
      if Boolean notCondition
      then Normal ["not (" ++ notCondition ++ ")"]
      else Normal []
  | None => Normal []
  end
  = whenSet n negation.
Proof.
  destruct n as [child | ]; [ | reflexivity]. cbn [whenSet]. unfold negation.
  destruct (translateFilter child) as [rendered | e]; [ | reflexivity].
  cbn [bind]. now destruct rendered.
Qed.

Lemma quantified_block (quantifier : string)
    (q : option (string * AzureAISearchVectorFilter)) :
  match q with
  | Some (collection, inner) =>
      rendered <- translateFilter inner ;;
      if Boolean rendered
      then Normal [collection ++ "/" ++ quantifier ++ "(x: " ++ rendered ++ ")"]
      else Normal []
  | None => Normal []
  end
  = whenSet q (quantified quantifier).
Proof.
  destruct q as [[collection inner] | ]; [ | reflexivity].
  cbn [whenSet]. unfold quantified. cbn [fst snd].
  destruct (translateFilter inner) as [rendered | e]; [ | reflexivity].
  cbn [bind]. now destruct rendered.
Qed.

(** One step of [translateFilter]: the fourteen pushes, in a row.  The
    first block that throws ends the call on both sides. *)
Lemma translateFilter_conditions (filter : AzureAISearchVectorFilter) :
  translateFilter filter
  = (blocks <- mapM (conditionsOf filter) fieldOrder ;;
     Normal (join " and " (concat blocks))).
Proof.
  destruct filter as [raw a o n e1 e2 e3 e4 e5 e6 s1 s2 s3 q1 q2].
  cbn [translateFilter mapM fieldOrder conditionsOf
       f_and f_or f_not f_eq f_ne f_gt f_ge f_lt f_le
       f_contains f_startsWith f_endsWith f_any f_all].
  apply (bind_head _ _ _ _ (composite_block " and " a)).
  destruct (whenSet a (composite " and ")) as [i1 | e]; [cbn [bind] | reflexivity].
  apply (bind_head _ _ _ _ (composite_block " or " o)).
  destruct (whenSet o (composite " or ")) as [i2 | e]; [cbn [bind] | reflexivity].
  apply (bind_head _ _ _ _ (negation_block n)).
  destruct (whenSet n negation) as [i3 | e]; [cbn [bind] | reflexivity].
  change (match e1 with Some r => translateComparison r "eq" | None => Normal [] end)
    with (whenSet e1 (fun r => translateComparison r "eq")).
  destruct (whenSet e1 _) as [i4 | e]; [cbn [bind] | reflexivity].
  change (match e2 with Some r => translateComparison r "ne" | None => Normal [] end)
    with (whenSet e2 (fun r => translateComparison r "ne")).
  destruct (whenSet e2 _) as [i5 | e]; [cbn [bind] | reflexivity].
  change (match e3 with Some r => translateComparison r "gt" | None => Normal [] end)
    with (whenSet e3 (fun r => translateComparison r "gt")).
  destruct (whenSet e3 _) as [i6 | e]; [cbn [bind] | reflexivity].
  change (match e4 with Some r => translateComparison r "ge" | None => Normal [] end)
    with (whenSet e4 (fun r => translateComparison r "ge")).
  destruct (whenSet e4 _) as [i7 | e]; [cbn [bind] | reflexivity].
  change (match e5 with Some r => translateComparison r "lt" | None => Normal [] end)
    with (whenSet e5 (fun r => translateComparison r "lt")).
  destruct (whenSet e5 _) as [i8 | e]; [cbn [bind] | reflexivity].
  change (match e6 with Some r => translateComparison r "le" | None => Normal [] end)
    with (whenSet e6 (fun r => translateComparison r "le")).
  destruct (whenSet e6 _) as [i9 | e]; [cbn [bind] | reflexivity].
  change (match s1 with
          | Some r => translateStringOperation r "contains"
          | None => Normal []
          end)
    with (whenSet s1 (fun r => translateStringOperation r "contains")).
  destruct (whenSet s1 _) as [i10 | e]; [cbn [bind] | reflexivity].
  change (match s2 with
          | Some r => translateStringOperation r "startswith"
          | None => Normal []
          end)
    with (whenSet s2 (fun r => translateStringOperation r "startswith")).
  destruct (whenSet s2 _) as [i11 | e]; [cbn [bind] | reflexivity].
  change (match s3 with
          | Some r => translateStringOperation r "endswith"
          | None => Normal []
          end)
    with (whenSet s3 (fun r => translateStringOperation r "endswith")).
  destruct (whenSet s3 _) as [i12 | e]; [cbn [bind] | reflexivity].
  apply (bind_head _ _ _ _ (quantified_block "any" q1)).
  destruct (whenSet q1 (quantified "any")) as [i13 | e]; [cbn [bind] | reflexivity].
  apply (bind_head _ _ _ _ (quantified_block "all" q2)).
  destruct (whenSet q2 (quantified "all")) as [i14 | e]; [cbn [bind] | reflexivity].
  unfold push. cbn [concat app]. now rewrite app_nil_r, <- !app_assoc.
Qed.


(** In a run that throws nowhere, the node is the join of the condition
    strings of its fields. *)
Lemma translateFilter_conjoins_returned (filter : AzureAISearchVectorFilter)
    (given : Field -> list string) :
  (forall k, conditionsOf filter k = Normal (given k)) ->
  translateFilter filter = Normal (join " and " (flat_map given fieldOrder)).
Proof.
  intros E. rewrite translateFilter_conditions.
  rewrite (mapM_ext_in _ (fun k => Normal (given k))) by (intros k _; apply E).
  rewrite mapM_Normal. cbn [bind]. now rewrite flat_map_concat_map.
Qed.

(** A field that [set_filter] does not touch gives what it gave. *)
Lemma conditionsOf_set_filter (raw : string) (filter : AzureAISearchVectorFilter)
    (k : Field) :
  conditionsOf (set_filter raw filter) k = conditionsOf filter k.
Proof. now destruct k. Qed.

(** The structured rendering never reads [$filter]. *)
Lemma translateFilter_set_filter (raw : string) (filter : AzureAISearchVectorFilter) :
  translateFilter (set_filter raw filter) = translateFilter filter.
Proof.
  rewrite !translateFilter_conditions.
  now rewrite (mapM_ext_in _ _ _ (fun k _ => conditionsOf_set_filter raw filter k)).
Qed.

(** C2, as amended: when [$filter] holds a string that is not empty,
    [translate] returns that string as it is, whatever the other fields
    hold. *)
Theorem translate_raw_verbatim (filter : AzureAISearchVectorFilter) (raw : string) :
  f_filter filter = Some raw ->
  raw <> "" ->
  translate (Some filter) = Normal (Some raw).
Proof.
  intros E N. unfold translate. rewrite E.
  now rewrite (truthy_Some raw N).
Qed.

(** *** The node as a conjunction of its fields *)

Lemma fieldOrder_complete (k : Field) : In k fieldOrder.
Proof. destruct k; cbv; tauto. Qed.

Lemma fieldOrder_NoDup : NoDup fieldOrder.
Proof.
  unfold fieldOrder.
  repeat (constructor; [cbn; intuition discriminate | ]).
  constructor.
Qed.

Lemma conditionsOf_unpopulated (filter : AzureAISearchVectorFilter) (k : Field) :
  populated filter k = false -> conditionsOf filter k = Normal [].
Proof.
  destruct k; cbn [populated conditionsOf];
    match goal with |- isSome ?x = false -> _ => destruct x end;
    intros E; (discriminate E || reflexivity).
Qed.

(** C5: a node renders as the condition strings of its fields, taken
    in the order and, or, not, eq, ne, gt, ge, lt, le, contains,
    startsWith, endsWith, any, all, and joined with [" and "]; the list
    names every field once, and a field that is not populated gives no
    condition.  A field whose rendering throws ends the call, the
    fields being visited in that order. *)
Theorem translateFilter_conjoins_fields (filter : AzureAISearchVectorFilter) :
  translateFilter filter
  = (blocks <- mapM (conditionsOf filter)
                 [FAnd; FOr; FNot; FEq; FNe; FGt; FGe; FLt; FLe;
                  FContains; FStartsWith; FEndsWith; FAny; FAll] ;;
     Normal (join " and " (concat blocks)))
  /\ (forall given,
        (forall k, conditionsOf filter k = Normal (given k)) ->
        translateFilter filter
        = Normal (join " and "
                    (flat_map given
                       [FAnd; FOr; FNot; FEq; FNe; FGt; FGe; FLt; FLe;
                        FContains; FStartsWith; FEndsWith; FAny; FAll])))
  /\ (forall k, In k fieldOrder)
  /\ NoDup fieldOrder
  /\ (forall k, populated filter k = false -> conditionsOf filter k = Normal []).
Proof.
  split; [apply translateFilter_conditions | ].
  split; [apply translateFilter_conjoins_returned | ].
  split; [apply fieldOrder_complete | ].
  split; [apply fieldOrder_NoDup | ].
  apply conditionsOf_unpopulated.
Qed.

(** *** Composite nodes *)

Lemma translateFilter_only (k : Field) (filter : AzureAISearchVectorFilter) :
  (forall k', k' <> k -> conditionsOf filter k' = Normal []) ->
  translateFilter filter
  = (items <- conditionsOf filter k ;; Normal (join " and " items)).
Proof.
  intros E. rewrite translateFilter_conditions.
  unfold fieldOrder.
  destruct k; cbn [mapM];
    repeat match goal with
      | |- context [conditionsOf filter ?k'] =>
          rewrite (E k') by discriminate
      end;
    cbn [bind];
    match goal with
    | |- context [conditionsOf filter ?k'] =>
        destruct (conditionsOf filter k') as [items | e]
    end;
    cbn [bind concat app]; rewrite ?app_nil_r; reflexivity.
Qed.

(** C6: an [and] node renders its children, drops the renderings that
    are empty, joins the others with [" and "] and, when one is left at
    least, puts one pair of parentheses around the result; an [or] node
    does the same with [" or "]; a [not] node whose child renders to
    something puts [not (] before it and [)] after it.  A child whose
    rendering throws ends the call. *)
Theorem translateFilter_composites :
  (forall children,
      translateFilter (set_and children noFields)
      = (rendered <- mapM translateFilter children ;;
         Normal match List.filter Boolean rendered with
                | [] => ""
                | kept => "(" ++ join " and " kept ++ ")"
                end))
  /\ (forall children,
      translateFilter (set_or children noFields)
      = (rendered <- mapM translateFilter children ;;
         Normal match List.filter Boolean rendered with
                | [] => ""
                | kept => "(" ++ join " or " kept ++ ")"
                end))
  /\ (forall child,
      translateFilter (set_not child noFields)
      = (rendered <- translateFilter child ;;
         Normal match rendered with
                | "" => ""
                | _ => "not (" ++ rendered ++ ")"
                end)).
Proof.
  repeat split.
  - intros children.
    rewrite (translateFilter_only FAnd) by (intros [] N; congruence || reflexivity).
    cbn [conditionsOf set_and f_and whenSet]. unfold composite, survivors.
    destruct (mapM translateFilter children) as [rendered | e]; [ | reflexivity].
    cbn [bind]. now destruct (List.filter Boolean rendered).
  - intros children.
    rewrite (translateFilter_only FOr) by (intros [] N; congruence || reflexivity).
    cbn [conditionsOf set_or f_or whenSet]. unfold composite, survivors.
    destruct (mapM translateFilter children) as [rendered | e]; [ | reflexivity].
    cbn [bind]. now destruct (List.filter Boolean rendered).
  - intros child.
    rewrite (translateFilter_only FNot) by (intros [] N; congruence || reflexivity).
    cbn [conditionsOf set_not f_not whenSet]. unfold negation.
    destruct (translateFilter child) as [rendered | e]; [ | reflexivity].
    cbn [bind]. now destruct rendered.
Qed.

(** *** Values *)

Lemma replace_all_doubled (s : string) : replace_all "'" "''" s = doubled s.
Proof.
  unfold doubled. induction s as [ | a rest IH]; [reflexivity | ].
  cbn [replace_all list_ascii_of_string flat_map].
  destruct (Ascii.eqb a "'"); cbn; now rewrite IH.
Qed.

(** Doubling loses nothing: the text reads back. *)
Lemma undouble_replace_all (s : string) : undouble (replace_all "'" "''" s) = s.
Proof.
  induction s as [ | a rest IH]; [reflexivity | ].
  cbn [replace_all]. destruct (Ascii.eqb a "'") eqn:E.
  - apply Ascii.eqb_eq in E. subst a. cbn. now rewrite IH.
  - cbn [undouble].
    destruct (replace_all "'" "''" rest) as [ | b rest'] eqn:R.
    + cbn in IH. now subst rest.
    + rewrite E. cbn [andb]. now rewrite IH.
Qed.

Lemma formatValue_string_injective (s t : string) :
  formatValue (VString s) = formatValue (VString t) -> s = t.
Proof.
  cbn [formatValue]. intros E.
  injection E as E.
  rewrite <- (undouble_replace_all s), <- (undouble_replace_all t).
  f_equal.
  assert (L : forall u v : string, u ++ "'" = v ++ "'" -> u = v).
  { induction u as [ | a u IH]; intros [ | b v]; cbn; intros Q.
    - reflexivity.
    - injection Q as _ Q. destruct v; discriminate.
    - injection Q as _ Q. destruct u; discriminate.
    - injection Q as -> Q. f_equal. now apply IH. }
  now apply L.
Qed.

(** C7, as amended: a string goes between single quotes with each
    single quote in it doubled; a date gives what [toISOString] gives,
    which is its ISO text when the date is valid and the error that
    [toISOString] throws when it is not; a boolean gives [true] or
    [false]; [null] and [undefined] give [null]; any other value gives
    what [String] gives for it.  [formatValue] throws only what
    [toISOString] or [String] throws. *)
Theorem formatValue_by_type :
  (forall s, formatValue (VString s) = Normal ("'" ++ doubled s ++ "'"))
  /\ (forall d, formatValue (VDate d) = toISOString d)
  /\ formatValue (VBoolean true) = Normal "true"
  /\ formatValue (VBoolean false) = Normal "false"
  /\ formatValue VNull = Normal "null"
  /\ formatValue VUndefined = Normal "null"
  /\ (forall o, formatValue (VOther o) = String_ o)
  /\ formatValue (VString "Book's Title") = Normal "'Book''s Title'"
  /\ (forall value e,
        formatValue value = Throw e ->
        (exists d, value = VDate d /\ toISOString d = Throw e)
        \/ (exists o, value = VOther o /\ String_ o = Throw e)).
Proof.
  repeat split.
  - intros s. cbn [formatValue]. now rewrite replace_all_doubled.
  - intros value e. destruct value; cbn [formatValue]; try discriminate.
    + intros T. left. now exists d.
    + intros T. right. now exists o.
Qed.

(** *** Field names in this copy *)

Lemma escapeFieldName_plain (field : string) :
  includes field "/" = false ->
  includes field " " = false ->
  includes field "-" = false ->
  escapeFieldName field = field.
Proof. intros A B C. unfold escapeFieldName. now rewrite A, B, C. Qed.

Lemma escapeFieldName_special (field : string) :
  includes field "/" || includes field " " || includes field "-" = true ->
  escapeFieldName field = "'" ++ field ++ "'".
Proof. intros E. unfold escapeFieldName. now rewrite E. Qed.

(** [contains] never reaches [escapeFieldName]: the field sits between
    single quotes as the second argument of [search.ismatch]. *)
Lemma contains_renders_ismatch (field value : string) :
  translateStringOperation [(field, value)] "contains"
  = Normal ["search.ismatch(" ++ ("'" ++ replace_all "'" "''" value ++ "'")
            ++ ", '" ++ field ++ "')"].
Proof. reflexivity. Qed.

(** In this copy a filter that is present never gives an absent
    result. *)
Lemma first_copy_present_never_absent (filter : AzureAISearchVectorFilter) :
  translate (Some filter) <> Normal None.
Proof.
  unfold translate. destruct (f_filter filter) as [raw | ]; cbn [truthy].
  - destruct (Boolean raw); [discriminate | ].
    destruct (translateFilter filter); discriminate.
  - destruct (translateFilter filter); discriminate.
Qed.

End TranslatorProperties.

(** *** The first copy where it differs from the second

    The first copy returns the empty rendering as the empty string,
    puts field names that hold a slash, a space or a dash between single
    quotes, and renders the nested filter of a quantifier behind the
    lambda variable [x: ]. *)

Lemma first_copy_empty_rendering_is_empty_string :
  Part001.translate None = Normal None
  /\ Part001.translate (Some (Part001.set_and [] Part001.noFields)) = Normal (Some "")
  /\ Part001.translate (Some Part001.noFields) = Normal (Some "").
Proof. repeat split. Qed.

Lemma first_copy_quotes_special_names :
  Part001.escapeFieldName "address/city" = "'address/city'"
  /\ Part001.escapeFieldName "first name" = "'first name'"
  /\ Part001.escapeFieldName "unit-price" = "'unit-price'"
  /\ Part001.translate
       (Some (Part001.set_eq [("address/city", VString "Paris")] Part001.noFields))
     = Normal (Some "'address/city' eq 'Paris'")
  /\ Part001.translate
       (Some (Part001.set_startsWith [("first name", "Al")] Part001.noFields))
     = Normal (Some "startswith('first name', 'Al')")
  /\ Part001.translate
       (Some (Part001.set_endsWith [("address/city", "ris")] Part001.noFields))
     = Normal (Some "endswith('address/city', 'ris')").
Proof. repeat split. Qed.

Lemma first_copy_any_recurses_with_lambda_prefix :
  Part001.translate
    (Some (Part001.set_any
             ("stores", Part001.set_eq [("name", VString "Flagship")] Part001.noFields)
             Part001.noFields))
  = Normal (Some "stores/any(x: name eq 'Flagship')")
  /\ Part001.translate
       (Some (Part001.set_all
                ("stores", Part001.set_eq [("name", VString "Flagship")] Part001.noFields)
                Part001.noFields))
     = Normal (Some "stores/all(x: name eq 'Flagship')")
  /\ Part001.translate (Some (Part001.set_any ("stores", Part001.noFields) Part001.noFields))
     = Normal (Some "").
Proof. repeat split. Qed.

(** C2, as stated, fails at [{ $filter: '', eq: { a: 'b' } }]: the field
    is populated, and what comes back is the rendering of [eq]. *)
Lemma translate_raw_empty_not_verbatim :
  let filter :=
    Part001.set_filter "" (Part001.set_eq [("a", VString "b")] Part001.noFields) in
  Part001.f_filter filter = Some ""
  /\ Part001.translate (Some filter) = Normal (Some "a eq 'b'")
  /\ Part001.translate (Some filter) <> Normal (Part001.f_filter filter).
Proof. cbv zeta. repeat split. discriminate. Qed.

Lemma translate_raw_verbatim_witness :
  let filter :=
    Part001.set_filter "category eq 'books'"
      (Part001.set_eq [("a", VString "b")] Part001.noFields) in
  Part001.translate (Some filter) = Normal (Some "category eq 'books'").
Proof.
  cbv zeta. apply translate_raw_verbatim; [reflexivity | discriminate].
Defined.

(** C7, as stated, fails at a date that is not valid: [toISOString]
    throws, and so does [formatValue]; no text comes back. *)
Lemma formatValue_invalid_date_throws :
  toISOString (None : Date) = Throw RangeError
  /\ Part001.formatValue (VDate None) = Throw RangeError
  /\ Part001.translate
       (Some (Part001.set_gt [("published", VDate None)] Part001.noFields))
     = Throw RangeError
  /\ Part001.formatValue (VDate (Some "2024-01-15T00:00:00.000Z"))
     = Normal "2024-01-15T00:00:00.000Z".
Proof. repeat split. Qed.

(** ** White space *)

Section SpaceProperties.
Import Reading.

Lemma string_length_ind (P : string -> Prop) :
  (forall s, (forall t, String.length t < String.length s -> P t) -> P s) ->
  forall s, P s.
Proof.
  intros step s.
  assert (G : forall n t, String.length t < n -> P t).
  { induction n as [ | n IH]; intros t L; [lia | ].
    apply step. intros u Lu. apply IH. lia. }
  apply (G (S (String.length s))). lia.
Qed.

Lemma string_append_assoc (u v w : string) : (u ++ v) ++ w = u ++ v ++ w.
Proof. induction u; cbn; [reflexivity | now f_equal]. Qed.

Lemma string_append_empty (u : string) : u ++ "" = u.
Proof. induction u; cbn; [reflexivity | now f_equal]. Qed.

(** No byte of a white-space character is a visible ASCII character. *)
Lemma is_space_no_ink (a : ascii) : is_space a = true -> is_ink a = false.
Proof.
  unfold is_space, is_ink. cbv zeta.
  rewrite orb_true_iff, andb_true_iff, !Nat.leb_le, Nat.eqb_eq.
  rewrite andb_false_iff, !Nat.leb_gt. lia.
Qed.

Lemma is_space2_no_ink (a b : ascii) :
  is_space2 a b = true -> is_ink a = false /\ is_ink b = false.
Proof.
  unfold is_space2, is_ink. cbv zeta.
  rewrite andb_true_iff, !Nat.eqb_eq.
  rewrite !andb_false_iff, !Nat.leb_gt. lia.
Qed.

Lemma is_space3_no_ink (a b c : ascii) :
  is_space3 a b c = true ->
  is_ink a = false /\ is_ink b = false /\ is_ink c = false.
Proof.
  unfold is_space3, is_ink. cbv zeta.
  rewrite !orb_true_iff, !andb_true_iff, !orb_true_iff, !Nat.eqb_eq, !Nat.leb_le.
  rewrite !andb_false_iff, !Nat.leb_gt. lia.
Qed.

(** [trim_start] drops one white-space character after the other. *)
Lemma trim_start_leading (s : string) :
  trim_start s
  = match leading s with
    | Some rest => trim_start rest
    | None => s
    end.
Proof.
  destruct s as [ | a [ | b [ | c rest]]]; cbn [trim_start leading];
    try reflexivity.
  - now destruct (is_space a).
  - destruct (is_space a); [reflexivity | ]. now destruct (is_space2 a b).
  - destruct (is_space a); [reflexivity | ].
    destruct (is_space2 a b); [reflexivity | ]. now destruct (is_space3 a b c).
Qed.

(** What [leading] drops is one to three bytes, none of them visible. *)
Lemma leading_parts (s rest : string) :
  leading s = Some rest ->
  exists space,
    s = space ++ rest /\ space <> "" /\ inked space = false
    /\ forall t, leading (space ++ t) = Some t.
Proof.
  destruct s as [ | a [ | b [ | c tail]]]; cbn [leading]; try discriminate.
  - destruct (is_space a) eqn:S1; [ | discriminate].
    intros E. injection E as <-. exists (String a "").
    repeat split; [discriminate | | ].
    + cbn [inked]. now rewrite (is_space_no_ink a S1).
    + intros t. cbn [append leading]. now rewrite S1.
  - destruct (is_space a) eqn:S1.
    + intros E. injection E as <-. exists (String a "").
      repeat split; [discriminate | | ].
      * cbn [inked]. now rewrite (is_space_no_ink a S1).
      * intros t. cbn [append leading]. now rewrite S1.
    + destruct (is_space2 a b) eqn:S2; [ | discriminate].
      intros E. injection E as <-. exists (String a (String b "")).
      destruct (is_space2_no_ink a b S2) as [Ia Ib].
      repeat split; [discriminate | | ].
      * cbn [inked]. now rewrite Ia, Ib.
      * intros t. cbn [append leading]. now rewrite S1, S2.
  - destruct (is_space a) eqn:S1.
    + intros E. injection E as <-. exists (String a "").
      repeat split; [discriminate | | ].
      * cbn [inked]. now rewrite (is_space_no_ink a S1).
      * intros t. cbn [append leading]. now rewrite S1.
    + destruct (is_space2 a b) eqn:S2.
      * intros E. injection E as <-. exists (String a (String b "")).
        destruct (is_space2_no_ink a b S2) as [Ia Ib].
        repeat split; [discriminate | | ].
        -- cbn [inked]. now rewrite Ia, Ib.
        -- intros t. cbn [append leading]. now rewrite S1, S2.
      * destruct (is_space3 a b c) eqn:S3; [ | discriminate].
        intros E. injection E as <-.
        exists (String a (String b (String c ""))).
        destruct (is_space3_no_ink a b c S3) as [Ia [Ib Ic]].
        repeat split; [discriminate | | ].
        -- cbn [inked]. now rewrite Ia, Ib, Ic.
        -- intros t. cbn [append leading]. now rewrite S1, S2, S3.
Qed.

Lemma append_length (u v : string) :
  String.length (u ++ v) = String.length u + String.length v.
Proof. induction u; cbn; [reflexivity | now f_equal]. Qed.

Lemma leading_shorter (s rest : string) :
  leading s = Some rest -> String.length rest < String.length s.
Proof.
  intros L. destruct (leading_parts s rest L) as [space [-> [N _]]].
  rewrite append_length. destruct space; [congruence | cbn; lia].
Qed.

Lemma inked_app (s t : string) : inked (s ++ t) = inked s || inked t.
Proof.
  induction s as [ | a rest IH]; [reflexivity | ].
  cbn [append inked]. rewrite IH. now rewrite orb_assoc.
Qed.

Lemma leading_inked (s rest : string) :
  leading s = Some rest -> inked s = inked rest.
Proof.
  intros L. destruct (leading_parts s rest L) as [space [-> [_ [I _]]]].
  now rewrite inked_app, I.
Qed.

Lemma leading_app (s rest t : string) :
  leading s = Some rest -> leading (s ++ t) = Some (rest ++ t).
Proof.
  intros L. destruct (leading_parts s rest L) as [space [-> [_ [_ A]]]].
  rewrite string_append_assoc. apply A.
Qed.

(** Trimming at the front drops nothing visible. *)
Lemma inked_trim_start (s : string) : inked (trim_start s) = inked s.
Proof.
  induction s as [s IH] using string_length_ind.
  rewrite trim_start_leading. destruct (leading s) as [rest | ] eqn:L;
    [ | reflexivity].
  rewrite (IH rest (leading_shorter s rest L)).
  symmetry. now apply leading_inked.
Qed.

Lemma trim_start_headed (s : string) : headed (trim_start s) = true.
Proof.
  induction s as [s IH] using string_length_ind.
  rewrite trim_start_leading. destruct (leading s) as [rest | ] eqn:L.
  - apply IH. now apply leading_shorter.
  - unfold headed. now rewrite L.
Qed.

Lemma trim_start_of_headed (s : string) : headed s = true -> trim_start s = s.
Proof.
  unfold headed. intros E. rewrite trim_start_leading.
  now destruct (leading s).
Qed.

Lemma trim_start_idempotent (s : string) :
  trim_start (trim_start s) = trim_start s.
Proof. apply trim_start_of_headed, trim_start_headed. Qed.

Lemma blank_iff (s : string) : blank s = true <-> trim_start s = "".
Proof.
  unfold blank. destruct (trim_start s); split; congruence.
Qed.

Lemma trim_end_empty_iff (s : string) : trim_end s = "" <-> blank s = true.
Proof.
  destruct s as [ | a rest]; [now split | ].
  cbn [trim_end]. destruct (blank (String a rest)); split; congruence.
Qed.

(** A text that trims to nothing holds nothing visible. *)
Lemma trim_empty_not_inked (s : string) : trim s = "" -> inked s = false.
Proof.
  unfold trim. intros E. apply trim_end_empty_iff, blank_iff in E.
  rewrite trim_start_idempotent in E.
  rewrite <- inked_trim_start. now rewrite E.
Qed.

(** White space before a text is dropped with the white space that the
    text starts with. *)
Lemma trim_start_blank_app (u w : string) :
  blank u = true -> trim_start (u ++ w) = trim_start w.
Proof.
  induction u as [u IH] using string_length_ind. intros B.
  apply blank_iff in B. rewrite trim_start_leading in B.
  destruct (leading u) as [rest | ] eqn:L.
  - rewrite trim_start_leading, (leading_app u rest w L).
    apply IH; [now apply leading_shorter | now apply blank_iff].
  - now subst u.
Qed.

Lemma blank_app (u w : string) :
  blank u = true -> blank w = true -> blank (u ++ w) = true.
Proof.
  intros U W. apply blank_iff. rewrite (trim_start_blank_app u w U).
  now apply blank_iff.
Qed.

(** What [trim_end] drops is white space. *)
Lemma trim_end_dropped (s : string) :
  exists w, s = trim_end s ++ w /\ blank w = true.
Proof.
  induction s as [ | a rest IH]; [now exists "" | ].
  cbn [trim_end]. destruct (blank (String a rest)) eqn:B.
  - now exists (String a rest).
  - destruct IH as [w [E W]]. exists w. split; [ | exact W].
    cbn [append]. now rewrite <- E.
Qed.

Lemma trim_end_idempotent (s : string) : trim_end (trim_end s) = trim_end s.
Proof.
  induction s as [ | a rest IH]; [reflexivity | ].
  cbn [trim_end]. destruct (blank (String a rest)) eqn:B; [reflexivity | ].
  cbn [trim_end]. rewrite IH.
  destruct (blank (String a (trim_end rest))) eqn:C; [exfalso | reflexivity].
  destruct (trim_end_dropped rest) as [w [E W]].
  assert (D : blank (String a (trim_end rest) ++ w) = true) by now apply blank_app.
  cbn [append] in D. rewrite <- E in D. congruence.
Qed.

(** A text that starts with no white space keeps that start when it is
    cut short. *)
Lemma headed_prefix (u w : string) : headed (u ++ w) = true -> headed u = true.
Proof.
  unfold headed. destruct (leading u) as [rest | ] eqn:L; [ | reflexivity].
  now rewrite (leading_app u rest w L).
Qed.

Lemma trim_end_headed (s : string) : headed s = true -> headed (trim_end s) = true.
Proof.
  intros E. destruct (trim_end_dropped s) as [w [Q _]].
  apply (headed_prefix _ w). now rewrite <- Q.
Qed.

Lemma trim_idempotent (s : string) : trim (trim s) = trim s.
Proof.
  unfold trim.
  rewrite (trim_start_of_headed (trim_end (trim_start s))).
  - apply trim_end_idempotent.
  - apply trim_end_headed, trim_start_headed.
Qed.

(** A no-break space (U+00A0) and a byte-order mark (U+FEFF) at the
    front and an ideographic space (U+3000) at the end are trimmed like
    the white space of the ASCII range. *)
Example trim_unicode_white_space :
  trim (String (ascii_of_nat 194) (String (ascii_of_nat 160)
          (String (ascii_of_nat 239) (String (ascii_of_nat 187)
             (String (ascii_of_nat 191)
                ("a b" ++ String (ascii_of_nat 227) (String (ascii_of_nat 128)
                            (String (ascii_of_nat 128) " "))))))))
  = "a b".
Proof. reflexivity. Qed.

End SpaceProperties.

(** ** The translator, second copy *)

Section SecondCopy.
Context `{Runtime}.
Import Part002.

Local Notation "x <- m ;; k" := (bind m (fun x => k))
  (at level 61, m at next level, right associativity).

(** The two copies format values alike. *)
Lemma second_copy_formatValue (value : Value) :
  formatValue value = Part001.formatValue value.
Proof. reflexivity. Qed.

Lemma second_copy_composite_block (sep : string)
    (a : option (list AzureAISearchVectorFilter)) :
  match a with
  | Some children =>
      rendered <- mapM translateFilter children ;;
      if (0 <? length (List.filter Boolean rendered))%nat
      then Normal ["(" ++ join sep (List.filter Boolean rendered) ++ ")"]
      else Normal []
  | None => Normal []
  end
  = whenSet a (composite sep).
Proof.
  destruct a as [children | ]; [ | reflexivity]. cbn [whenSet].
  unfold composite, survivors.
  destruct (mapM translateFilter children) as [rendered | e]; [ | reflexivity].
  cbn [bind]. now destruct (List.filter Boolean rendered).
Qed.

Lemma second_copy_negation_block (n : option AzureAISearchVectorFilter) :
  match n with
  | Some child =>
      notCondition <- translateFilter child ;;
      if Boolean notCondition
      then Normal ["not (" ++ notCondition ++ ")"]
      else Normal []
  | None => Normal []
  end
  = whenSet n negation.
Proof.
  destruct n as [child | ]; [ | reflexivity]. cbn [whenSet]. unfold negation.
  destruct (translateFilter child) as [rendered | e]; [ | reflexivity].
  cbn [bind]. now destruct rendered.
Qed.

Lemma second_copy_quantified_block (quantifier : string) (q : option (string * string)) :
  match q with
  | Some (collection, predicate) =>
      Normal [collection ++ "/" ++ quantifier ++ "(" ++ predicate ++ ")"]
  | None => Normal []
  end
  = whenSet q (quantified quantifier).
Proof. now destruct q as [[collection predicate] | ]. Qed.

(** One step of [translateFilter] in this copy: the fourteen pushes, in
    a row. *)
Lemma second_copy_conditions (filter : AzureAISearchVectorFilter) :
  translateFilter filter
  = (blocks <- mapM (conditionsOf filter) fieldOrder ;;
     Normal (join " and " (concat blocks))).
Proof.
  destruct filter as [raw a o n e1 e2 e3 e4 e5 e6 s1 s2 s3 q1 q2].
  cbn [translateFilter mapM fieldOrder conditionsOf
       f_and f_or f_not f_eq f_ne f_gt f_ge f_lt f_le
       f_contains f_startsWith f_endsWith f_any f_all].
  apply (bind_head _ _ _ _ (second_copy_composite_block " and " a)).
  destruct (whenSet a (composite " and ")) as [i1 | e]; [cbn [bind] | reflexivity].
  apply (bind_head _ _ _ _ (second_copy_composite_block " or " o)).
  destruct (whenSet o (composite " or ")) as [i2 | e]; [cbn [bind] | reflexivity].
  apply (bind_head _ _ _ _ (second_copy_negation_block n)).
  destruct (whenSet n negation) as [i3 | e]; [cbn [bind] | reflexivity].
  change (match e1 with Some r => translateComparison r "eq" | None => Normal [] end)
    with (whenSet e1 (fun r => translateComparison r "eq")).
  destruct (whenSet e1 _) as [i4 | e]; [cbn [bind] | reflexivity].
  change (match e2 with Some r => translateComparison r "ne" | None => Normal [] end)
    with (whenSet e2 (fun r => translateComparison r "ne")).
  destruct (whenSet e2 _) as [i5 | e]; [cbn [bind] | reflexivity].
  change (match e3 with Some r => translateComparison r "gt" | None => Normal [] end)
    with (whenSet e3 (fun r => translateComparison r "gt")).
  destruct (whenSet e3 _) as [i6 | e]; [cbn [bind] | reflexivity].
  change (match e4 with Some r => translateComparison r "ge" | None => Normal [] end)
    with (whenSet e4 (fun r => translateComparison r "ge")).
  destruct (whenSet e4 _) as [i7 | e]; [cbn [bind] | reflexivity].
  change (match e5 with Some r => translateComparison r "lt" | None => Normal [] end)
    with (whenSet e5 (fun r => translateComparison r "lt")).
  destruct (whenSet e5 _) as [i8 | e]; [cbn [bind] | reflexivity].
  change (match e6 with Some r => translateComparison r "le" | None => Normal [] end)
    with (whenSet e6 (fun r => translateComparison r "le")).
  destruct (whenSet e6 _) as [i9 | e]; [cbn [bind] | reflexivity].
  change (match s1 with
          | Some r => translateStringOperation r "contains"
          | None => Normal []
          end)
    with (whenSet s1 (fun r => translateStringOperation r "contains")).
  destruct (whenSet s1 _) as [i10 | e]; [cbn [bind] | reflexivity].
  change (match s2 with
          | Some r => translateStringOperation r "startswith"
          | None => Normal []
          end)
    with (whenSet s2 (fun r => translateStringOperation r "startswith")).
  destruct (whenSet s2 _) as [i11 | e]; [cbn [bind] | reflexivity].
  change (match s3 with
          | Some r => translateStringOperation r "endswith"
          | None => Normal []
          end)
    with (whenSet s3 (fun r => translateStringOperation r "endswith")).
  destruct (whenSet s3 _) as [i12 | e]; [cbn [bind] | reflexivity].
  apply (bind_head _ _ _ _ (second_copy_quantified_block "any" q1)).
  destruct (whenSet q1 (quantified "any")) as [i13 | e]; [cbn [bind] | reflexivity].
  apply (bind_head _ _ _ _ (second_copy_quantified_block "all" q2)).
  destruct (whenSet q2 (quantified "all")) as [i14 | e]; [cbn [bind] | reflexivity].
  unfold push. cbn [concat app]. now rewrite app_nil_r, <- !app_assoc.
Qed.

Lemma second_copy_only (k : Field) (filter : AzureAISearchVectorFilter) :
  (forall k', k' <> k -> conditionsOf filter k' = Normal []) ->
  translateFilter filter
  = (items <- conditionsOf filter k ;; Normal (join " and " items)).
Proof.
  intros E. rewrite second_copy_conditions.
  unfold fieldOrder.
  destruct k; cbn [mapM];
    repeat match goal with
      | |- context [conditionsOf filter ?k'] =>
          rewrite (E k') by discriminate
      end;
    cbn [bind];
    match goal with
    | |- context [conditionsOf filter ?k'] =>
        destruct (conditionsOf filter k') as [items | e]
    end;
    cbn [bind concat app]; rewrite ?app_nil_r; reflexivity.
Qed.

Lemma second_copy_conditionsOf_set_filter (raw : string)
    (filter : AzureAISearchVectorFilter) (k : Field) :
  conditionsOf (set_filter raw filter) k = conditionsOf filter k.
Proof. now destruct k. Qed.

(** The structured rendering never reads [$filter]. *)
Lemma second_copy_set_filter (raw : string) (filter : AzureAISearchVectorFilter) :
  translateFilter (set_filter raw filter) = translateFilter filter.
Proof.
  rewrite !second_copy_conditions.
  now rewrite (mapM_ext_in _ _ _
                 (fun k _ => second_copy_conditionsOf_set_filter raw filter k)).
Qed.

(** *** String operations never throw *)

Lemma formatValue_string (value : string) :
  formatValue (VString value) = Normal ("'" ++ doubled value ++ "'").
Proof. cbn [formatValue]. now rewrite replace_all_doubled. Qed.

Lemma translateStringOperation_returns (operation : Entries string)
    (functionName : string) :
  translateStringOperation operation functionName
  = Normal
      (map (fun '(field, value) =>
              if functionName =? "contains"
              then "search.ismatch(" ++ ("'" ++ doubled value ++ "'") ++ ", '"
                   ++ field ++ "')"
              else functionName ++ "(" ++ field ++ ", "
                   ++ ("'" ++ doubled value ++ "'") ++ ")")
           operation).
Proof.
  unfold translateStringOperation. rewrite <- mapM_Normal.
  apply mapM_ext_in. intros [field value] _.
  rewrite formatValue_string. cbn [bind]. unfold escapeFieldName.
  now destruct (functionName =? "contains").
Qed.

(** *** What the rendering holds

    Every condition string of this copy holds a visible character, so a
    rendering that is not empty does not trim to nothing. *)

Lemma inked_join (sep : string) (items : list string) :
  Forall (fun c => inked c = true) items ->
  items = [] \/ inked (join sep items) = true.
Proof.
  intros F. destruct F as [ | c rest I F]; [now left | right].
  unfold join. destruct rest as [ | d rest]; [exact I | ].
  change (inked (c ++ sep ++ String.concat sep (d :: rest)) = true).
  rewrite inked_app, I. reflexivity.
Qed.

Lemma inked_comparison (r : Entries Value) (operator : string)
    (items : list string) :
  inked operator = true ->
  translateComparison r operator = Normal items ->
  Forall (fun c => inked c = true) items.
Proof.
  intros I. apply mapM_Forall. intros [field value] c _.
  destruct (formatValue value) as [text | e]; cbn [bind]; [ | discriminate].
  intros E. injection E as <-.
  rewrite inked_app. cbn [inked]. rewrite inked_app, I.
  now rewrite !orb_true_r.
Qed.

Lemma inked_string_operation (r : Entries string) (functionName : string)
    (items : list string) :
  inked functionName = true ->
  translateStringOperation r functionName = Normal items ->
  Forall (fun c => inked c = true) items.
Proof.
  intros I. rewrite translateStringOperation_returns. intros E.
  injection E as <-. apply Forall_map, Forall_forall. intros [field value] _.
  destruct (functionName =? "contains"); [reflexivity | ].
  now rewrite inked_app, I.
Qed.

Lemma inked_conditions (filter : AzureAISearchVectorFilter) (k : Field)
    (items : list string) :
  conditionsOf filter k = Normal items ->
  Forall (fun c => inked c = true) items.
Proof.
  destruct k; cbn [conditionsOf];
    match goal with
    | |- whenSet ?x _ = _ -> _ =>
        destruct x as [r | ]; cbn [whenSet];
        [ | intros E; injection E as <-; constructor ]
    end.
  - unfold composite. destruct (survivors r) as [kept | e]; cbn [bind];
      [ | discriminate].
    intros E. injection E as <-. destruct kept; now repeat constructor.
  - unfold composite. destruct (survivors r) as [kept | e]; cbn [bind];
      [ | discriminate].
    intros E. injection E as <-. destruct kept; now repeat constructor.
  - unfold negation. destruct (translateFilter r) as [rendered | e]; cbn [bind];
      [ | discriminate].
    intros E. injection E as <-. destruct rendered; now repeat constructor.
  - now apply inked_comparison.
  - now apply inked_comparison.
  - now apply inked_comparison.
  - now apply inked_comparison.
  - now apply inked_comparison.
  - now apply inked_comparison.
  - now apply inked_string_operation.
  - now apply inked_string_operation.
  - now apply inked_string_operation.
  - unfold quantified. intros E. injection E as <-. repeat constructor.
    rewrite inked_app. cbn [inked]. now rewrite orb_true_r.
  - unfold quantified. intros E. injection E as <-. repeat constructor.
    rewrite inked_app. cbn [inked]. now rewrite orb_true_r.
Qed.

Lemma inked_rendering (filter : AzureAISearchVectorFilter) (rendered : string) :
  translateFilter filter = Normal rendered ->
  rendered = "" \/ inked rendered = true.
Proof.
  rewrite second_copy_conditions.
  destruct (mapM (conditionsOf filter) fieldOrder) as [blocks | e] eqn:M;
    cbn [bind]; [ | discriminate].
  intros E. injection E as <-.
  destruct (inked_join " and " (concat blocks)) as [N | I];
    [ | left; now rewrite N | now right].
  apply Forall_concat.
  apply (mapM_Forall _ _ _ _ (fun k items _ => inked_conditions filter k items) M).
Qed.

(** C1: [translate] gives an absent result for an absent filter, and
    for a filter that is present exactly when [$filter] is not truthy
    and the structured rendering is the empty string; so for
    [{ and: [] }] and for [{}]. *)
Theorem translate_absent_iff_empty_rendering :
  translate None = Normal None
  /\ (forall filter,
        translate (Some filter) = Normal None
        <-> truthy (f_filter filter) = false
            /\ translateFilter filter = Normal "")
  /\ translate (Some (set_and [] noFields)) = Normal None
  /\ translate (Some noFields) = Normal None.
Proof.
  split; [reflexivity | ]. split; [ | now split].
  intros filter. unfold translate.
  destruct (truthy (f_filter filter)) eqn:T.
  - split; [ | intros [Q _]; discriminate Q].
    intros E. injection E as E. rewrite E in T. discriminate T.
  - destruct (translateFilter filter) as [rendered | e] eqn:R; cbn [bind].
    + split.
      * intros E. split; [reflexivity | ]. f_equal.
        destruct (trim rendered) eqn:Q; [ | discriminate E].
        destruct (inked_rendering filter rendered R) as [N | I]; [exact N | ].
        apply trim_empty_not_inked in Q. congruence.
      * intros [_ E]. injection E as ->. reflexivity.
    + split; [discriminate | intros [_ Q]; discriminate Q].
Qed.

(** C3: in every context but [search.ismatch], the field name goes to
    the output as it is: [escapeFieldName] returns its argument, and a
    comparison is the name, the operator and the formatted value with
    one space between them; so for names that hold a slash, a space or a
    dash. *)
Theorem field_names_pass_unchanged :
  (forall field, escapeFieldName field = field)
  /\ (forall comparison operator,
        translateComparison comparison operator
        = mapM (fun '(field, value) =>
                  text <- formatValue value ;;
                  Normal (field ++ " " ++ operator ++ " " ++ text))
               comparison)
  /\ (forall field value operator,
        translateComparison [(field, VString value)] operator
        = Normal [field ++ " " ++ operator ++ " " ++ ("'" ++ doubled value ++ "'")])
  /\ (forall field value functionName,
        (functionName =? "contains") = false ->
        translateStringOperation [(field, value)] functionName
        = Normal [functionName ++ "(" ++ field ++ ", "
                  ++ ("'" ++ doubled value ++ "'") ++ ")"])
  /\ translate (Some (set_eq [("address/city", VString "Paris")] noFields))
     = Normal (Some "address/city eq 'Paris'")
  /\ translate (Some (set_eq [("first name", VString "Al")] noFields))
     = Normal (Some "first name eq 'Al'")
  /\ translate (Some (set_gt [("unit-price", VBoolean true)] noFields))
     = Normal (Some "unit-price gt true").
Proof.
  split; [reflexivity | ]. split; [reflexivity | ].
  split.
  { intros field value operator. unfold translateComparison. cbn [mapM].
    rewrite formatValue_string. reflexivity. }
  split.
  { intros field value functionName N.
    rewrite translateStringOperation_returns. cbn [map]. now rewrite N. }
  now repeat split.
Qed.

(** C4: an [any] field gives the one condition
    [collection/any(predicate)], with the predicate as it was given, and
    an [all] field gives [collection/all(predicate)]; nothing is
    rendered inside the predicate and nothing is put before it. *)
Theorem quantifier_predicate_verbatim :
  (forall collection predicate filter,
      conditionsOf (set_any (collection, predicate) filter) FAny
      = Normal [collection ++ "/any(" ++ predicate ++ ")"])
  /\ (forall collection predicate filter,
      conditionsOf (set_all (collection, predicate) filter) FAll
      = Normal [collection ++ "/all(" ++ predicate ++ ")"])
  /\ (forall filter,
      translateFilter filter
      = (blocks <- mapM (conditionsOf filter) fieldOrder ;;
         Normal (join " and " (concat blocks))))
  /\ (forall collection predicate,
      translateFilter (set_any (collection, predicate) noFields)
      = Normal (collection ++ "/any(" ++ predicate ++ ")"))
  /\ (forall collection predicate,
      translateFilter (set_all (collection, predicate) noFields)
      = Normal (collection ++ "/all(" ++ predicate ++ ")"))
  /\ translate (Some (set_any ("stores", "s: s/name eq 'Flagship'") noFields))
     = Normal (Some "stores/any(s: s/name eq 'Flagship')")
  /\ translate (Some (set_all ("tags", "t: t ne 'draft'") noFields))
     = Normal (Some "tags/all(t: t ne 'draft')").
Proof.
  split; [reflexivity | ]. split; [reflexivity | ].
  split; [apply second_copy_conditions | ].
  now repeat split.
Qed.

(** C8: [startsWith] renders as [startswith(field, value)] and
    [endsWith] as [endswith(field, value)], the field as it is and the
    value as a string literal; [contains] renders as
    [search.ismatch(value, 'field')], the field between single quotes.
    String operations never throw. *)
Theorem string_operations_render_functions :
  (forall operation,
      translateStringOperation operation "startswith"
      = Normal (map (fun '(field, value) =>
                       "startswith(" ++ field ++ ", "
                       ++ ("'" ++ doubled value ++ "'") ++ ")")
                    operation))
  /\ (forall operation,
      translateStringOperation operation "endswith"
      = Normal (map (fun '(field, value) =>
                       "endswith(" ++ field ++ ", "
                       ++ ("'" ++ doubled value ++ "'") ++ ")")
                    operation))
  /\ (forall operation,
      translateStringOperation operation "contains"
      = Normal (map (fun '(field, value) =>
                       "search.ismatch(" ++ ("'" ++ doubled value ++ "'")
                       ++ ", '" ++ field ++ "')")
                    operation))
  /\ (forall operation,
      translateFilter (set_startsWith operation noFields)
      = (items <- translateStringOperation operation "startswith" ;;
         Normal (join " and " items)))
  /\ (forall operation,
      translateFilter (set_endsWith operation noFields)
      = (items <- translateStringOperation operation "endswith" ;;
         Normal (join " and " items)))
  /\ (forall operation,
      translateFilter (set_contains operation noFields)
      = (items <- translateStringOperation operation "contains" ;;
         Normal (join " and " items)))
  /\ translate (Some (set_startsWith [("first name", "Al")] noFields))
     = Normal (Some "startswith(first name, 'Al')")
  /\ translate (Some (set_endsWith [("address/city", "ris")] noFields))
     = Normal (Some "endswith(address/city, 'ris')")
  /\ translate (Some (set_contains [("description", "adventure")] noFields))
     = Normal (Some "search.ismatch('adventure', 'description')").
Proof.
  split; [intros operation; apply translateStringOperation_returns | ].
  split; [intros operation; apply translateStringOperation_returns | ].
  split; [intros operation; apply translateStringOperation_returns | ].
  split.
  { intros operation.
    now rewrite (second_copy_only FStartsWith)
      by (intros [] N; congruence || reflexivity). }
  split.
  { intros operation.
    now rewrite (second_copy_only FEndsWith)
      by (intros [] N; congruence || reflexivity). }
  split.
  { intros operation.
    now rewrite (second_copy_only FContains)
      by (intros [] N; congruence || reflexivity). }
  now repeat split.
Qed.

(** C10: when [$filter] is present and empty, [translate] does not
    return it: it goes on to the structured rendering of the node, which
    does not depend on [$filter], and returns what the rendering gives;
    with no other field populated the rendering is empty and the result
    is absent. *)
Theorem translate_empty_raw_falls_through (filter : AzureAISearchVectorFilter) :
  f_filter filter = Some "" ->
  translate (Some filter)
  = (rendered <- translateFilter filter ;;
     Normal (if (0 <? String.length (trim rendered))%nat
             then Some (trim rendered)
             else None))
  /\ (forall raw, translateFilter (set_filter raw filter) = translateFilter filter)
  /\ translate (Some filter) <> Normal (f_filter filter)
  /\ translateFilter (set_filter "" noFields) = Normal ""
  /\ translate (Some (set_filter "" noFields)) = Normal None.
Proof.
  intros E.
  assert (T : translate (Some filter)
              = (rendered <- translateFilter filter ;;
                 Normal (if (0 <? String.length (trim rendered))%nat
                         then Some (trim rendered)
                         else None))).
  { unfold translate. now rewrite E. }
  split; [exact T | ].
  split; [intros raw; apply second_copy_set_filter | ].
  split; [ | now split].
  rewrite T, E. destruct (translateFilter filter) as [rendered | e]; cbn [bind];
    [ | discriminate].
  destruct (trim rendered); cbn [String.length Nat.ltb Nat.leb]; discriminate.
Qed.

(** The raw filter comes back as it is in this copy too. *)
Lemma second_copy_raw_verbatim (filter : AzureAISearchVectorFilter) (raw : string) :
  f_filter filter = Some raw ->
  raw <> "" ->
  translate (Some filter) = Normal (Some raw).
Proof.
  intros E N. unfold translate. rewrite E.
  now rewrite (truthy_Some raw N).
Qed.

(** X5: what this copy returns for a structured filter is the trimmed
    rendering: it is not empty and has no white space at either end. *)
Theorem second_copy_result_is_trimmed (filter : AzureAISearchVectorFilter)
    (text : string) :
  truthy (f_filter filter) = false ->
  translate (Some filter) = Normal (Some text) ->
  exists rendered,
    translateFilter filter = Normal rendered
    /\ text = trim rendered /\ text <> "" /\ trim text = text.
Proof.
  intros T. unfold translate. rewrite T.
  destruct (translateFilter filter) as [rendered | e]; cbn [bind];
    [ | discriminate].
  destruct (trim rendered) as [ | a rest] eqn:E; [discriminate | ].
  cbn. intros Q. injection Q as <-. exists rendered. repeat split.
  - now rewrite E.
  - discriminate.
  - rewrite <- E. apply trim_idempotent.
Qed.

End SecondCopy.

(** ** Trees of filters *)

Section TreeProperties.
Context `{Runtime}.
Import Part001 Reading.

Local Notation "x <- m ;; k" := (bind m (fun x => k))
  (at level 61, m at next level, right associativity).

Lemma filter_induction (P : AzureAISearchVectorFilter -> Prop) :
  (forall filter,
      (forall children, f_and filter = Some children -> Forall P children) ->
      (forall children, f_or filter = Some children -> Forall P children) ->
      (forall child, f_not filter = Some child -> P child) ->
      (forall operand, f_any filter = Some operand -> P (snd operand)) ->
      (forall operand, f_all filter = Some operand -> P (snd operand)) ->
      P filter) ->
  forall filter, P filter.
Proof.
  intros step. fix IH 1.
  intros [raw a o n e1 e2 e3 e4 e5 e6 s1 s2 s3 q1 q2].
  apply step; cbn [f_and f_or f_not f_any f_all].
  - destruct a as [children | ]; intros ? E; [injection E as <- | discriminate].
    induction children; constructor; [apply IH | assumption].
  - destruct o as [children | ]; intros ? E; [injection E as <- | discriminate].
    induction children; constructor; [apply IH | assumption].
  - destruct n as [child | ]; intros ? E; [injection E as <- | discriminate].
    apply IH.
  - destruct q1 as [[collection inner] | ]; intros ? E;
      [injection E as <- | discriminate].
    apply IH.
  - destruct q2 as [[collection inner] | ]; intros ? E;
      [injection E as <- | discriminate].
    apply IH.
Qed.

Lemma readBody_doubled_quote (s : string) :
  readBody (String "'" (String "'" s))
  = match readBody s with
    | Some (content, after) => Some (String "'" content, after)
    | None => None
    end.
Proof. reflexivity. Qed.

Lemma readBody_other (a : ascii) (s : string) :
  Ascii.eqb a "'" = false ->
  readBody (String a s)
  = match readBody s with
    | Some (content, after) => Some (String a content, after)
    | None => None
    end.
Proof. intros E. cbn [readBody]. now rewrite E. Qed.

Lemma readBody_escaped (s rest : string) :
  startsWithQuote rest = false ->
  readBody (replace_all "'" "''" s ++ String "'" rest) = Some (s, rest).
Proof.
  intros Q. induction s as [ | a s IH].
  - cbn. destruct rest as [ | b rest]; [reflexivity | ].
    cbn in Q. now rewrite Q.
  - cbn [replace_all]. destruct (Ascii.eqb a "'") eqn:E.
    + apply Ascii.eqb_eq in E. subst a.
      change (("''" ++ replace_all "'" "''" s) ++ String "'" rest)
        with (String "'" (String "'" (replace_all "'" "''" s ++ String "'" rest))).
      now rewrite readBody_doubled_quote, IH.
    + change (String a (replace_all "'" "''" s) ++ String "'" rest)
        with (String a (replace_all "'" "''" s ++ String "'" rest)).
      now rewrite (readBody_other a _ E), IH.
Qed.

(** X1: [formatValue] returns a literal for every string; the literal
    reads back as that string, and the reading stops at the closing
    quote, whatever follows that is not a single quote. *)
Theorem string_literal_reads_back (s rest : string) :
  startsWithQuote rest = false ->
  exists literal,
    formatValue (VString s) = Normal literal
    /\ readLiteral (literal ++ rest) = Some (s, rest).
Proof.
  intros Q. eexists. split; [reflexivity | ].
  change (("'" ++ replace_all "'" "''" s ++ "'") ++ rest)
    with (String "'" ((replace_all "'" "''" s ++ "'") ++ rest)).
  cbn [readLiteral Ascii.eqb Bool.eqb].
  rewrite string_append_assoc. now apply readBody_escaped.
Qed.

Lemma mapM_translateFilter_ext
    (g : AzureAISearchVectorFilter -> AzureAISearchVectorFilter)
    (children : list AzureAISearchVectorFilter) :
  Forall (fun child => translateFilter (g child) = translateFilter child) children ->
  mapM translateFilter (map g children) = mapM translateFilter children.
Proof.
  intros F. rewrite mapM_map. apply mapM_ext_in.
  now apply Forall_forall.
Qed.

Lemma conditionsOf_forgetRaw (filter : AzureAISearchVectorFilter) (k : Field) :
  (forall children, f_and filter = Some children ->
     Forall (fun c => translateFilter (forgetRaw c) = translateFilter c) children) ->
  (forall children, f_or filter = Some children ->
     Forall (fun c => translateFilter (forgetRaw c) = translateFilter c) children) ->
  (forall child, f_not filter = Some child ->
     translateFilter (forgetRaw child) = translateFilter child) ->
  (forall operand, f_any filter = Some operand ->
     translateFilter (forgetRaw (snd operand)) = translateFilter (snd operand)) ->
  (forall operand, f_all filter = Some operand ->
     translateFilter (forgetRaw (snd operand)) = translateFilter (snd operand)) ->
  conditionsOf (forgetRaw filter) k = conditionsOf filter k.
Proof.
  destruct filter as [raw a o n e1 e2 e3 e4 e5 e6 s1 s2 s3 q1 q2].
  cbn [f_and f_or f_not f_any f_all]. intros Ha Ho Hn Hq1 Hq2.
  destruct k;
    cbn [forgetRaw conditionsOf f_and f_or f_not f_eq f_ne f_gt f_ge f_lt f_le
         f_contains f_startsWith f_endsWith f_any f_all];
    try reflexivity.
  - destruct a as [children | ]; [ | reflexivity]. cbn [whenSet].
    unfold composite, survivors.
    now rewrite (mapM_translateFilter_ext forgetRaw children (Ha _ eq_refl)).
  - destruct o as [children | ]; [ | reflexivity]. cbn [whenSet].
    unfold composite, survivors.
    now rewrite (mapM_translateFilter_ext forgetRaw children (Ho _ eq_refl)).
  - destruct n as [child | ]; [ | reflexivity]. cbn [whenSet].
    unfold negation. now rewrite (Hn _ eq_refl).
  - destruct q1 as [[collection inner] | ]; [ | reflexivity]. cbn [whenSet].
    unfold quantified. cbn [fst snd].
    pose proof (Hq1 _ eq_refl) as Q. cbn [snd] in Q. now rewrite Q.
  - destruct q2 as [[collection inner] | ]; [ | reflexivity]. cbn [whenSet].
    unfold quantified. cbn [fst snd].
    pose proof (Hq2 _ eq_refl) as Q. cbn [snd] in Q. now rewrite Q.
Qed.

(** X2: the structured rendering reads [$filter] at no node of the
    tree: removing it everywhere changes nothing, neither the text that
    comes back nor the error that is thrown. *)
Theorem nested_raw_is_ignored (filter : AzureAISearchVectorFilter) :
  translateFilter (forgetRaw filter) = translateFilter filter.
Proof.
  induction filter as [filter Ha Ho Hn Hq1 Hq2] using filter_induction.
  rewrite !translateFilter_conditions. f_equal.
  apply mapM_ext_in. intros k _. now apply conditionsOf_forgetRaw.
Qed.

Lemma append_nonempty_l (u v : string) : u <> "" -> u ++ v <> "".
Proof. destruct u; [congruence | discriminate]. Qed.

Lemma append_nonempty_r (u v : string) : v <> "" -> u ++ v <> "".
Proof. destruct u; [trivial | discriminate]. Qed.

Lemma comparison_nonempty (r : Entries Value) (operator : string)
    (items : list string) :
  translateComparison r operator = Normal items ->
  Forall (fun c => c <> "") items.
Proof.
  apply mapM_Forall. intros [field value] c _.
  destruct (formatValue value) as [text | e]; cbn [bind]; [ | discriminate].
  intros E. injection E as <-. apply append_nonempty_r. discriminate.
Qed.

Lemma string_operation_nonempty (r : Entries string) (functionName : string)
    (items : list string) :
  translateStringOperation r functionName = Normal items ->
  Forall (fun c => c <> "") items.
Proof.
  apply mapM_Forall. intros [field value] c _. cbn [formatValue bind].
  destruct (functionName =? "contains"); intros E; injection E as <-.
  - discriminate.
  - apply append_nonempty_r. discriminate.
Qed.

Lemma conditions_nonempty (filter : AzureAISearchVectorFilter) (k : Field)
    (items : list string) :
  conditionsOf filter k = Normal items ->
  Forall (fun c => c <> "") items.
Proof.
  destruct k; cbn [conditionsOf];
    match goal with
    | |- whenSet ?x _ = _ -> _ =>
        destruct x as [r | ]; cbn [whenSet];
        [ | intros E; injection E as <-; constructor ]
    end.
  - unfold composite. destruct (survivors r) as [kept | e]; cbn [bind];
      [ | discriminate].
    intros E. injection E as <-. destruct kept; repeat constructor. discriminate.
  - unfold composite. destruct (survivors r) as [kept | e]; cbn [bind];
      [ | discriminate].
    intros E. injection E as <-. destruct kept; repeat constructor. discriminate.
  - unfold negation. destruct (translateFilter r) as [rendered | e]; cbn [bind];
      [ | discriminate].
    intros E. injection E as <-. destruct rendered; repeat constructor.
    discriminate.
  - apply comparison_nonempty.
  - apply comparison_nonempty.
  - apply comparison_nonempty.
  - apply comparison_nonempty.
  - apply comparison_nonempty.
  - apply comparison_nonempty.
  - apply string_operation_nonempty.
  - apply string_operation_nonempty.
  - apply string_operation_nonempty.
  - unfold quantified.
    destruct (translateFilter (snd r)) as [rendered | e]; cbn [bind];
      [ | discriminate].
    intros E. injection E as <-. destruct rendered; repeat constructor.
    apply append_nonempty_r. discriminate.
  - unfold quantified.
    destruct (translateFilter (snd r)) as [rendered | e]; cbn [bind];
      [ | discriminate].
    intros E. injection E as <-. destruct rendered; repeat constructor.
    apply append_nonempty_r. discriminate.
Qed.

Lemma join_empty (sep : string) (items : list string) :
  Forall (fun c => c <> "") items -> join sep items = "" -> items = [].
Proof.
  intros F E. destruct F as [ | c rest N F]; [reflexivity | exfalso].
  unfold join in E. destruct rest as [ | d rest]; [now apply N | ].
  cbn [concat] in E. revert E. apply append_nonempty_l. exact N.
Qed.

Lemma mapM_concat_nil {A B : Type} (f : A -> Completion (list B)) (l : list A)
    (blocks : list (list B)) :
  mapM f l = Normal blocks ->
  concat blocks = [] ->
  forall x, In x l -> f x = Normal [].
Proof.
  intros M. apply mapM_returns in M.
  induction M as [ | x y rest ys F R IH]; intros C z I; [destruct I | ].
  cbn [concat] in C. apply app_eq_nil in C as [-> C].
  destruct I as [<- | I]; [exact F | now apply IH].
Qed.

Lemma rendering_empty_iff_no_condition (filter : AzureAISearchVectorFilter) :
  translateFilter filter = Normal ""
  <-> forall k, conditionsOf filter k = Normal [].
Proof.
  split.
  - rewrite translateFilter_conditions.
    destruct (mapM (conditionsOf filter) fieldOrder) as [blocks | e] eqn:M;
      cbn [bind]; [ | discriminate].
    intros E k. injection E as E.
    apply (mapM_concat_nil _ _ _ M); [ | apply fieldOrder_complete].
    apply (join_empty " and "); [ | exact E].
    apply Forall_concat.
    apply (mapM_Forall _ _ _ _ (fun k items _ => conditions_nonempty filter k items) M).
  - intros A.
    now rewrite (translateFilter_conjoins_returned filter (fun _ => []) A).
Qed.

Lemma list_sum_zero (l : list nat) : list_sum l = 0 <-> Forall (fun n => n = 0) l.
Proof.
  induction l as [ | n l IH]; cbn [list_sum fold_right].
  - split; [constructor | reflexivity].
  - change (fold_right Nat.add 0 l) with (list_sum l). split.
    + intros E. constructor; [lia | apply IH; lia].
    + inversion 1; subst. cbn. now apply IH.
Qed.

Lemma filter_Boolean_nil (rendered : list string) :
  List.filter Boolean rendered = [] <-> Forall (fun r => r = "") rendered.
Proof.
  induction rendered as [ | r rest IH]; cbn [List.filter].
  - split; [constructor | reflexivity].
  - destruct r as [ | a r]; cbn [Boolean String.eqb negb].
    + rewrite IH. split; [now constructor | now inversion 1].
    + split; [discriminate | inversion 1; discriminate].
Qed.

(** The children all render to the empty string exactly when [mapM]
    returns and nothing survives. *)
Lemma survivors_nil (children : list AzureAISearchVectorFilter) :
  survivors children = Normal []
  <-> Forall (fun c => translateFilter c = Normal "") children.
Proof.
  unfold survivors. split.
  - destruct (mapM translateFilter children) as [rendered | e] eqn:M;
      cbn [bind]; [ | discriminate].
    intros E. injection E as E. apply filter_Boolean_nil in E.
    apply mapM_returns in M.
    induction M as [ | c r rest rs F R IH]; constructor.
    + inversion E; subst. exact F.
    + apply IH. now inversion E.
  - intros F.
    rewrite (mapM_ext_in _ (fun _ => Normal ""))
      by (now apply Forall_forall).
    rewrite mapM_Normal. cbn [bind]. f_equal.
    apply filter_Boolean_nil, Forall_map, Forall_forall. reflexivity.
Qed.

Lemma composite_nil (sep : string) (children : list AzureAISearchVectorFilter) :
  Forall (fun c => translateFilter c = Normal "" <-> leaves c = 0) children ->
  composite sep children = Normal [] <-> list_sum (map leaves children) = 0.
Proof.
  intros F. rewrite list_sum_zero, Forall_map.
  transitivity (survivors children = Normal []).
  - unfold composite. destruct (survivors children) as [[ | c kept] | e];
      cbn [bind]; split; (reflexivity || discriminate).
  - rewrite survivors_nil. split; intros G.
    + rewrite Forall_forall in *. intros c I. now apply (F c I), G.
    + rewrite Forall_forall in *. intros c I. now apply (F c I), G.
Qed.

Lemma negation_nil (child : AzureAISearchVectorFilter) :
  negation child = Normal [] <-> translateFilter child = Normal "".
Proof.
  unfold negation. destruct (translateFilter child) as [[ | a r] | e];
    cbn [bind]; split; (reflexivity || discriminate).
Qed.

Lemma quantified_nil (quantifier : string)
    (operand : string * AzureAISearchVectorFilter) :
  quantified quantifier operand = Normal []
  <-> translateFilter (snd operand) = Normal "".
Proof.
  unfold quantified.
  destruct (translateFilter (snd operand)) as [[ | a r] | e];
    cbn [bind]; split; (reflexivity || discriminate).
Qed.

Lemma entries_nil {V : Type} (g : string * V -> Completion string)
    (r : Entries V) :
  mapM g r = Normal [] <-> length r = 0.
Proof.
  split.
  - intros M. apply mapM_length in M. now rewrite <- M.
  - destruct r; [reflexivity | discriminate].
Qed.

(** X3: a tree renders to the empty string exactly when it holds no
    comparison and no string predicate at any depth. *)
Theorem rendering_empty_iff_no_leaf (filter : AzureAISearchVectorFilter) :
  translateFilter filter = Normal "" <-> leaves filter = 0.
Proof.
  induction filter as [filter Ha Ho Hn Hq1 Hq2] using filter_induction.
  rewrite rendering_empty_iff_no_condition.
  destruct filter as [raw a o n e1 e2 e3 e4 e5 e6 s1 s2 s3 q1 q2].
  cbn [f_and f_or f_not f_any f_all] in Ha, Ho, Hn, Hq1, Hq2.
  cbn [leaves f_and f_or f_not f_eq f_ne f_gt f_ge f_lt f_le
       f_contains f_startsWith f_endsWith f_any f_all].
  assert (Ea : conditionsOf (mkFilter raw a o n e1 e2 e3 e4 e5 e6 s1 s2 s3 q1 q2) FAnd
               = Normal []
               <-> match a with Some cs => list_sum (map leaves cs) | None => 0 end = 0).
  { cbn [conditionsOf f_and]. destruct a as [cs | ]; cbn [whenSet]; [ | tauto].
    apply composite_nil. now apply Ha. }
  assert (Eo : conditionsOf (mkFilter raw a o n e1 e2 e3 e4 e5 e6 s1 s2 s3 q1 q2) FOr
               = Normal []
               <-> match o with Some cs => list_sum (map leaves cs) | None => 0 end = 0).
  { cbn [conditionsOf f_or]. destruct o as [cs | ]; cbn [whenSet]; [ | tauto].
    apply composite_nil. now apply Ho. }
  assert (En : conditionsOf (mkFilter raw a o n e1 e2 e3 e4 e5 e6 s1 s2 s3 q1 q2) FNot
               = Normal []
               <-> match n with Some c => leaves c | None => 0 end = 0).
  { cbn [conditionsOf f_not]. destruct n as [c | ]; cbn [whenSet]; [ | tauto].
    rewrite negation_nil. now apply Hn. }
  assert (Eq1 : conditionsOf (mkFilter raw a o n e1 e2 e3 e4 e5 e6 s1 s2 s3 q1 q2) FAny
                = Normal []
                <-> match q1 with Some (_, inner) => leaves inner | None => 0 end = 0).
  { cbn [conditionsOf f_any]. destruct q1 as [[c inner] | ]; cbn [whenSet]; [ | tauto].
    rewrite quantified_nil. exact (Hq1 _ eq_refl). }
  assert (Eq2 : conditionsOf (mkFilter raw a o n e1 e2 e3 e4 e5 e6 s1 s2 s3 q1 q2) FAll
                = Normal []
                <-> match q2 with Some (_, inner) => leaves inner | None => 0 end = 0).
  { cbn [conditionsOf f_all]. destruct q2 as [[c inner] | ]; cbn [whenSet]; [ | tauto].
    rewrite quantified_nil. exact (Hq2 _ eq_refl). }
  assert (Ee : forall (V : Type) (x : option (Entries V))
                      (g : Entries V -> Completion (list string)),
             (forall r, g r = Normal [] <-> length r = 0) ->
             whenSet x g = Normal [] <-> entryCount x = 0).
  { intros V x g G. destruct x; cbn [whenSet entryCount]; [apply G | tauto]. }
  split.
  - intros A.
    pose proof (proj1 Ea (A FAnd)) as Za.
    pose proof (proj1 Eo (A FOr)) as Zo.
    pose proof (proj1 En (A FNot)) as Zn.
    pose proof (proj1 Eq1 (A FAny)) as Zq1.
    pose proof (proj1 Eq2 (A FAll)) as Zq2.
    pose proof (proj1 (Ee _ e1 _ (fun r => entries_nil _ r)) (A FEq)) as Z1.
    pose proof (proj1 (Ee _ e2 _ (fun r => entries_nil _ r)) (A FNe)) as Z2.
    pose proof (proj1 (Ee _ e3 _ (fun r => entries_nil _ r)) (A FGt)) as Z3.
    pose proof (proj1 (Ee _ e4 _ (fun r => entries_nil _ r)) (A FGe)) as Z4.
    pose proof (proj1 (Ee _ e5 _ (fun r => entries_nil _ r)) (A FLt)) as Z5.
    pose proof (proj1 (Ee _ e6 _ (fun r => entries_nil _ r)) (A FLe)) as Z6.
    pose proof (proj1 (Ee _ s1 _ (fun r => entries_nil _ r)) (A FContains)) as Z7.
    pose proof (proj1 (Ee _ s2 _ (fun r => entries_nil _ r)) (A FStartsWith)) as Z8.
    pose proof (proj1 (Ee _ s3 _ (fun r => entries_nil _ r)) (A FEndsWith)) as Z9.
    lia.
  - intros Z k. destruct k.
    + apply Ea. lia.
    + apply Eo. lia.
    + apply En. lia.
    + apply (Ee _ e1 _ (fun r => entries_nil _ r)). lia.
    + apply (Ee _ e2 _ (fun r => entries_nil _ r)). lia.
    + apply (Ee _ e3 _ (fun r => entries_nil _ r)). lia.
    + apply (Ee _ e4 _ (fun r => entries_nil _ r)). lia.
    + apply (Ee _ e5 _ (fun r => entries_nil _ r)). lia.
    + apply (Ee _ e6 _ (fun r => entries_nil _ r)). lia.
    + apply (Ee _ s1 _ (fun r => entries_nil _ r)). lia.
    + apply (Ee _ s2 _ (fun r => entries_nil _ r)). lia.
    + apply (Ee _ s3 _ (fun r => entries_nil _ r)). lia.
    + apply Eq1. lia.
    + apply Eq2. lia.
Qed.

Lemma plain_escapeFieldName (field : string) :
  plainName field = true -> escapeFieldName field = field.
Proof.
  unfold plainName, escapeFieldName. intros E.
  apply negb_true_iff in E. now rewrite E.
Qed.

Lemma comparison_agrees (r : Entries Value) (operator : string) :
  plainNames (Some r) = true ->
  Part002.translateComparison r operator = translateComparison r operator.
Proof.
  cbn [plainNames]. rewrite forallb_forall. intros A.
  apply mapM_ext_in. intros [field value] I.
  rewrite (plain_escapeFieldName field (A _ I)). reflexivity.
Qed.

Lemma string_operation_agrees (r : Entries string) (functionName : string) :
  plainNames (Some r) = true ->
  Part002.translateStringOperation r functionName
  = translateStringOperation r functionName.
Proof.
  cbn [plainNames]. rewrite forallb_forall. intros A.
  apply mapM_ext_in. intros [field value] I.
  rewrite (plain_escapeFieldName field (A _ I)). reflexivity.
Qed.

Lemma contains_agrees (r : Entries string) :
  Part002.translateStringOperation r "contains"
  = translateStringOperation r "contains".
Proof. apply mapM_ext_in. now intros [field value] _. Qed.

Lemma mapM_toSecond (children : list AzureAISearchVectorFilter) :
  Forall (fun c => portable c = true ->
                   Part002.translateFilter (toSecond c) = translateFilter c) children ->
  forallb portable children = true ->
  mapM Part002.translateFilter (map toSecond children)
  = mapM translateFilter children.
Proof.
  intros F A. rewrite mapM_map. apply mapM_ext_in. intros c I.
  rewrite Forall_forall in F. rewrite forallb_forall in A. now apply F, A.
Qed.

(** X4: the two copies render alike every tree without quantifiers
    whose field names, where [escapeFieldName] is applied, hold no
    slash, space or dash: they return the same text or throw the same
    error. *)
Theorem copies_agree_on_portable_filters (filter : AzureAISearchVectorFilter) :
  portable filter = true ->
  Part002.translateFilter (toSecond filter) = translateFilter filter.
Proof.
  induction filter as [filter Ha Ho Hn _ _] using filter_induction.
  destruct filter as [raw a o n e1 e2 e3 e4 e5 e6 s1 s2 s3 q1 q2].
  cbn [f_and f_or f_not] in Ha, Ho, Hn.
  cbn [portable f_and f_or f_not f_eq f_ne f_gt f_ge f_lt f_le
       f_contains f_startsWith f_endsWith f_any f_all].
  rewrite !andb_true_iff.
  intros [[[[[[[[[[[[Pa Po] Pn] P1] P2] P3] P4] P5] P6] P8] P9] Q1] Q2].
  destruct q1; [discriminate Q1 | ]. destruct q2; [discriminate Q2 | ].
  cbn [toSecond translateFilter Part002.translateFilter
       f_filter f_and f_or f_not f_eq f_ne f_gt f_ge f_lt f_le
       f_contains f_startsWith f_endsWith f_any f_all
       Part002.f_and Part002.f_or Part002.f_not Part002.f_eq Part002.f_ne
       Part002.f_gt Part002.f_ge Part002.f_lt Part002.f_le
       Part002.f_contains Part002.f_startsWith Part002.f_endsWith
       Part002.f_any Part002.f_all].
  apply bind_both.
  { destruct a as [children | ]; [ | reflexivity].
    now rewrite (mapM_toSecond children (Ha _ eq_refl) Pa). }
  intros i1. apply bind_both.
  { destruct o as [children | ]; [ | reflexivity].
    now rewrite (mapM_toSecond children (Ho _ eq_refl) Po). }
  intros i2. apply bind_both.
  { destruct n as [child | ]; [ | reflexivity].
    now rewrite (Hn _ eq_refl Pn). }
  intros i3. apply bind_both.
  { destruct e1; [now apply comparison_agrees | reflexivity]. }
  intros i4. apply bind_both.
  { destruct e2; [now apply comparison_agrees | reflexivity]. }
  intros i5. apply bind_both.
  { destruct e3; [now apply comparison_agrees | reflexivity]. }
  intros i6. apply bind_both.
  { destruct e4; [now apply comparison_agrees | reflexivity]. }
  intros i7. apply bind_both.
  { destruct e5; [now apply comparison_agrees | reflexivity]. }
  intros i8. apply bind_both.
  { destruct e6; [now apply comparison_agrees | reflexivity]. }
  intros i9. apply bind_both.
  { destruct s1; [apply contains_agrees | reflexivity]. }
  intros i10. apply bind_both.
  { destruct s2; [now apply string_operation_agrees | reflexivity]. }
  intros i11. apply bind_both.
  { destruct s3; [now apply string_operation_agrees | reflexivity]. }
  intros i12. reflexivity.
Qed.

End TreeProperties.

(** ** The adapter *)

Section AdapterProperties.
Context `{Adapter.Host}.
Import Adapter.

(** The loop stops at a vector whose length differs. *)
Lemma validateFrom_rejects (i : nat) (vectors : list (list Num))
    (dimension : option Z) :
  (exists vector, In vector vectors /\ differs (length vector) dimension = true) ->
  exists j len,
    validateFrom i vectors dimension = Thrown (InvalidDimension j len dimension).
Proof.
  revert i. induction vectors as [ | v rest IH]; intros i [vector [I D]].
  - destruct I.
  - cbn [validateFrom]. destruct (differs (length v) dimension) eqn:E.
    + now exists i, (length v).
    + apply IH. exists vector. split; [ | exact D].
      destruct I as [-> | I]; [congruence | exact I].
Qed.

(** The loop passes when no length differs. *)
Lemma validateFrom_accepts (i : nat) (vectors : list (list Num))
    (dimension : option Z) :
  (forall vector, In vector vectors -> differs (length vector) dimension = false) ->
  validateFrom i vectors dimension = Returned tt.
Proof.
  revert i. induction vectors as [ | v rest IH]; intros i A; [reflexivity | ].
  cbn [validateFrom]. rewrite (A v (or_introl eq_refl)).
  apply IH. intros vector I. apply A. now right.
Qed.

(** A description that comes back has cost two requests: the index
    definition and the document count. *)
Lemma describeIndex_returned_calls (svc : Service) (name : string)
    (st st' : State) (stats : IndexStats) :
  describeIndex svc name st = (Returned stats, st') ->
  calls st' = (calls st ++ [GetIndex name; GetDocumentsCount name])%list.
Proof.
  unfold describeIndex, tryCatch, bind, request, getSearchClient, ret, throw.
  destruct (getIndex svc (calls st) name) as [index | e]; [ | discriminate].
  cbn [calls searchClients uuids].
  destruct (existsb (String.eqb name) (searchClients st));
    cbn [calls searchClients uuids];
    destruct (getDocumentsCount svc _ name) as [n | e]; try discriminate.
  all: destruct (findField index isVectorField) as [field | ];
    [ destruct (negb (truthyNum (sf_dimensions field))
                && negb (truthyNum (sf_vectorSearchDimensions field))) | ];
    try (destruct (findField index (fun field => sf_name field =? "vector"))
           as [fallback | ];
         [ destruct (truthyNum (orNum (sf_dimensions fallback)
                                  (sf_vectorSearchDimensions fallback))) | ]);
    try discriminate.
  all: intros E; injection E as _ <-; cbn [calls]; now rewrite <- app_assoc.
Qed.

(** C9, as amended: when the description of the index comes back and
    the length of some vector differs from the dimension it declares,
    [upsert] throws its error with the dimension error as cause; by
    then the adapter has sent the two requests of the description and
    nothing else, so no upload. *)
Theorem upsert_rejects_mismatch_after_describe
    (svc : Service) (params : UpsertVectorParams) (st st' : State)
    (stats : IndexStats) :
  describeIndex svc (indexName params) st = (Returned stats, st') ->
  (exists vector,
      In vector (vectors params)
      /\ differs (length vector) (st_dimension stats) = true) ->
  exists i len,
    upsert svc params st
    = (Thrown (MastraError "STORAGE_AZURE_AI_SEARCH_UPSERT_FAILED"
                 (InvalidDimension i len (st_dimension stats))),
       st')
    /\ calls st'
       = (calls st ++ [GetIndex (indexName params);
                       GetDocumentsCount (indexName params)])%list.
Proof.
  intros D V.
  destruct (validateFrom_rejects 0 _ _ V) as [i [len R]].
  exists i, len. split.
  - unfold upsert, tryCatch, bind. rewrite D.
    unfold lift, validateVectorDimensions. rewrite R. reflexivity.
  - now apply (describeIndex_returned_calls svc _ st st' stats).
Qed.

End AdapterProperties.

(** ** Runs of the adapter *)

Section RunProperties.
Context `{Adapter.Host}.
Import Adapter Runs.

Lemma getSearchClient_run (name : string) (st : State) :
  exists st',
    getSearchClient name st = (Returned name, st')
    /\ calls st' = calls st /\ uuids st' = uuids st
    /\ existsb (String.eqb name) (searchClients st') = true
    /\ (existsb (String.eqb name) (searchClients st) = true -> st' = st).
Proof.
  unfold getSearchClient.
  destruct (existsb (String.eqb name) (searchClients st)) eqn:E.
  - exists st. now repeat split.
  - eexists. repeat split; cbn [calls uuids searchClients existsb].
    + now rewrite String.eqb_refl.
    + discriminate.
Qed.

Lemma getVectorFieldName_run (svc : Service) (name : string) (st : State) :
  exists field,
    getVectorFieldName svc name st
    = (Returned field,
       {| calls := calls st ++ [GetIndex name];
          searchClients := searchClients st;
          uuids := uuids st |})
    /\ field <> "".
Proof.
  unfold getVectorFieldName, tryCatch, bind, request, ret.
  destruct (getIndex svc (calls st) name) as [index | e].
  - destruct (findField index isVectorField) as [field | ].
    + destruct (sf_name field) eqn:N; cbn [Boolean String.eqb negb].
      * exists "vector". split; [reflexivity | discriminate].
      * eexists. split; [reflexivity | discriminate].
    + exists "vector". split; [reflexivity | discriminate].
  - exists "vector". split; [reflexivity | discriminate].
Qed.

Lemma validateFrom_returned (i : nat) (vectors : list (list Num)) (d : option Z) :
  validateFrom i vectors d = Returned tt
  <-> Forall (fun v => differs (length v) d = false) vectors.
Proof.
  revert i. induction vectors as [ | v rest IH]; intros i; cbn [validateFrom].
  - split; [constructor | reflexivity].
  - destruct (differs (length v) d) eqn:E.
    + split; [discriminate | inversion 1; congruence].
    + rewrite IH. split; [now constructor | now inversion 1].
Qed.

Lemma validateFrom_thrown (k : nat) (vectors : list (list Num)) (d : option Z)
    (e : Error) :
  validateFrom k vectors d = Thrown e ->
  exists i v,
    e = InvalidDimension (k + i) (length v) d
    /\ nth_error vectors i = Some v
    /\ differs (length v) d = true
    /\ Forall (fun u => differs (length u) d = false) (firstn i vectors).
Proof.
  revert k. induction vectors as [ | v rest IH]; intros k; cbn [validateFrom].
  - discriminate.
  - destruct (differs (length v) d) eqn:E.
    + intros Q. injection Q as <-. exists 0, v.
      rewrite Nat.add_0_r. repeat split; [exact E | constructor].
    + intros Q. destruct (IH _ Q) as [i [u [-> [N [D F]]]]].
      exists (S i), u. repeat split.
      * f_equal. lia.
      * exact N.
      * exact D.
      * cbn [firstn]. now constructor.
Qed.

Lemma truthyNum_orNum (a b : option Z) :
  truthyNum (orNum a b) = truthyNum a || truthyNum b.
Proof. unfold orNum. now destruct (truthyNum a) eqn:E; rewrite ?E. Qed.

Lemma getSearchClient_eq (name : string) (st : State) :
  getSearchClient name st
  = (Returned name,
     {| calls := calls st;
        searchClients := withClient name (searchClients st);
        uuids := uuids st |}).
Proof.
  unfold getSearchClient, withClient.
  destruct (existsb (String.eqb name) (searchClients st)); [ | reflexivity].
  now destruct st.
Qed.

Lemma describeIndex_cases (svc : Service) (name : string) (st : State) :
  (exists e,
      getIndex svc (calls st) name = Thrown e
      /\ describeIndex svc name st
         = (Thrown (MastraError "STORAGE_AZURE_AI_SEARCH_DESCRIBE_INDEX_FAILED" e),
            afterLookup name st))
  \/ (exists index r,
      getIndex svc (calls st) name = Returned index
      /\ describeIndex svc name st = (r, afterDescribe name st)
      /\ match r with
         | Returned stats =>
             truthyNum (st_dimension stats) = true
             /\ getDocumentsCount svc (calls st ++ [GetIndex name]) name
                = Returned (st_count stats)
         | Thrown e =>
             exists cause,
               e = MastraError "STORAGE_AZURE_AI_SEARCH_DESCRIBE_INDEX_FAILED" cause
         end).
Proof.
  unfold describeIndex, tryCatch, bind, request, afterDescribe, afterLookup.
  destruct (getIndex svc (calls st) name) as [index | e].
  2:{ left. exists e. split; reflexivity. }
  right. exists index. rewrite getSearchClient_eq.
  cbn [calls searchClients uuids].
  destruct (getDocumentsCount svc (calls st ++ [GetIndex name]) name) as [n | e].
  2:{ eexists. split; [reflexivity | ]. unfold throw. rewrite <- app_assoc.
      split; [reflexivity | ]. now eexists. }
  destruct (findField index isVectorField) as [field | ] eqn:F.
  - destruct (negb (truthyNum (sf_dimensions field))
              && negb (truthyNum (sf_vectorSearchDimensions field))) eqn:G2.
    + destruct (findField index (fun field => sf_name field =? "vector"))
        as [fallback | ];
        [destruct (truthyNum (orNum (sf_dimensions fallback)
                                (sf_vectorSearchDimensions fallback))) eqn:T | ];
        eexists; (split; [reflexivity | ]);
        unfold ret, throw; rewrite <- app_assoc;
        (split; [reflexivity | ]); cbn [st_dimension st_count];
        first [now split | now eexists].
    + eexists. split; [reflexivity | ].
      unfold ret. rewrite <- app_assoc. split; [reflexivity | ].
      cbn [st_dimension st_count]. split; [ | reflexivity].
      rewrite truthyNum_orNum.
      apply andb_false_iff in G2. rewrite !negb_false_iff in G2.
      now apply orb_true_iff.
  - destruct (findField index (fun field => sf_name field =? "vector"))
      as [fallback | ];
      [destruct (truthyNum (orNum (sf_dimensions fallback)
                              (sf_vectorSearchDimensions fallback))) eqn:T | ];
      eexists; (split; [reflexivity | ]);
      unfold ret, throw; rewrite <- app_assoc;
      (split; [reflexivity | ]); cbn [st_dimension st_count];
      first [now split | now eexists].
Qed.

Lemma withClient_idempotent (name : string) (clients : list string) :
  withClient name (withClient name clients) = withClient name clients.
Proof.
  unfold withClient. destruct (existsb (String.eqb name) clients) eqn:E.
  - now rewrite E.
  - cbn [existsb]. now rewrite String.eqb_refl.
Qed.

Lemma documentsFrom_thrown (i : nat) (field : string) (vectorIds : list string)
    (metadata : list Metadata) (vectors : list (list Num)) (e : Error) :
  documentsFrom i field vectorIds metadata vectors = Thrown e ->
  exists message, e = StringifyError message.
Proof.
  revert i. induction vectors as [ | v rest IH]; intros i; cbn [documentsFrom].
  - discriminate.
  - unfold stringify. destruct (JSON_stringify _) as [json | message].
    + destruct (documentsFrom (S i) field vectorIds metadata rest) as [docs | e']
        eqn:D; [discriminate | ].
      intros Q. injection Q as <-. now apply (IH (S i)).
    + intros Q. injection Q as <-. now exists message.
Qed.

Lemma upsert_run (svc : Service) (params : UpsertVectorParams) (st : State) :
  (exists e st1,
      describeIndex svc (indexName params) st = (Thrown e, st1)
      /\ upsert svc params st
         = (Thrown (MastraError "STORAGE_AZURE_AI_SEARCH_UPSERT_FAILED" e), st1)
      /\ (st1 = afterLookup (indexName params) st
          \/ st1 = afterDescribe (indexName params) st))
  \/ (exists stats e,
      describeIndex svc (indexName params) st
      = (Returned stats, afterDescribe (indexName params) st)
      /\ validateVectorDimensions (vectors params) (st_dimension stats) = Thrown e
      /\ upsert svc params st
         = (Thrown (MastraError "STORAGE_AZURE_AI_SEARCH_UPSERT_FAILED" e),
            afterDescribe (indexName params) st))
  \/ (exists stats field,
      describeIndex svc (indexName params) st
      = (Returned stats, afterDescribe (indexName params) st)
      /\ validateVectorDimensions (vectors params) (st_dimension stats) = Returned tt
      /\ getVectorFieldName svc (indexName params) (afterDescribe (indexName params) st)
         = (Returned field, afterLookup (indexName params)
                              (afterDescribe (indexName params) st))
      /\ field <> ""
      /\ match upsertDocuments svc params st field with
         | Thrown e =>
             upsert svc params st
             = (Thrown (MastraError "STORAGE_AZURE_AI_SEARCH_UPSERT_FAILED" e),
                beforeUpload params st)
         | Returned documents =>
             upsert svc params st
             = (uploadOutcome (upsertIds svc params st)
                  (uploadDocuments svc
                     (calls st ++ [GetIndex (indexName params);
                                   GetDocumentsCount (indexName params);
                                   GetIndex (indexName params)])
                     (indexName params) documents),
                afterUpload params st documents)
         end).
Proof.
  destruct (describeIndex_cases svc (indexName params) st)
    as [[e [_ D]] | [index [r [_ [D R]]]]].
  { left. exists (MastraError "STORAGE_AZURE_AI_SEARCH_DESCRIBE_INDEX_FAILED" e).
    eexists. split; [exact D | ]. split; [ | now left].
    unfold upsert, tryCatch, bind. now rewrite D. }
  destruct r as [stats | e].
  2:{ left. exists e. eexists. split; [exact D | ]. split; [ | now right].
      unfold upsert, tryCatch, bind. now rewrite D. }
  right.
  destruct (validateVectorDimensions (vectors params) (st_dimension stats))
    as [[] | e] eqn:V.
  2:{ left. exists stats, e. split; [exact D | ]. split; [exact V | ].
      unfold upsert, tryCatch, bind. rewrite D. unfold lift. now rewrite V. }
  right.
  destruct (getVectorFieldName_run svc (indexName params)
              (afterDescribe (indexName params) st)) as [field [G N]].
  exists stats, field. split; [exact D | ]. split; [exact V | ].
  split; [exact G | ]. split; [exact N | ].
  unfold upsert, tryCatch, bind. rewrite D. unfold lift. rewrite V.
  unfold afterLookup in G. rewrite G.
  unfold afterUpload, beforeUpload, having, uploadOutcome, upsertDocuments, upsertIds.
  destruct (ids params) as [given | ].
  - unfold ret.
    destruct (documentsFrom 0 field given _ (vectors params)) as [documents | e];
      cbn [calls searchClients uuids afterDescribe];
      [ | now rewrite <- !app_assoc].
    unfold request. rewrite getSearchClient_eq.
    cbn [calls searchClients uuids afterDescribe].
    rewrite withClient_idempotent, <- !app_assoc. cbn [app].
    destruct (uploadDocuments svc _ (indexName params) _) as [results | e];
      [ | reflexivity].
    unfold throw.
    now destruct (0 <? length (List.filter _ results))%nat.
  - unfold drawIds. cbn [calls searchClients uuids afterDescribe].
    destruct (documentsFrom 0 field _ _ (vectors params)) as [documents | e];
      cbn [calls searchClients uuids afterDescribe];
      [ | now rewrite <- !app_assoc].
    unfold request. rewrite getSearchClient_eq. cbn [calls searchClients uuids].
    rewrite withClient_idempotent, <- !app_assoc. cbn [app].
    destruct (uploadDocuments svc _ (indexName params) _) as [results | e];
      [ | reflexivity].
    unfold ret, throw.
    now destruct (0 <? length (List.filter _ results))%nat.
Qed.

Lemma differs_false_iff (n : nat) (d : Z) :
  differs n (Some d) = false <-> Z.of_nat n = d.
Proof.
  cbn [differs]. rewrite negb_false_iff. apply Z.eqb_eq.
Qed.

(** X6: dimension validation passes exactly when every vector has the
    declared number of components; when the dimension is missing, only
    an empty batch passes. *)
Theorem validation_passes_iff_lengths_match (vectors : list (list Num)) :
  (forall d,
      validateVectorDimensions vectors (Some d) = Returned tt
      <-> Forall (fun vector => Z.of_nat (length vector) = d) vectors)
  /\ (validateVectorDimensions vectors None = Returned tt <-> vectors = []).
Proof.
  unfold validateVectorDimensions. split.
  - intros d. rewrite validateFrom_returned.
    split; intros F; rewrite Forall_forall in *; intros v I;
      now apply differs_false_iff, F.
  - rewrite validateFrom_returned. split.
    + intros F. destruct F as [ | v rest D _]; [reflexivity | discriminate D].
    + intros ->. constructor.
Qed.

(** X7: when dimension validation throws, the error names the first
    vector whose length differs, with that length and the expected
    dimension; every vector before it has the expected length. *)
Theorem validation_reports_first_offender (vectors : list (list Num))
    (dimension : option Z) (e : Error) :
  validateVectorDimensions vectors dimension = Thrown e ->
  exists i vector,
    e = InvalidDimension i (length vector) dimension
    /\ nth_error vectors i = Some vector
    /\ differs (length vector) dimension = true
    /\ Forall (fun u => differs (length u) dimension = false) (firstn i vectors).
Proof.
  intros T. destruct (validateFrom_thrown 0 vectors dimension e T)
    as [i [v [E R]]].
  now exists i, v.
Qed.

(** X8: a description that comes back carries a dimension that is
    present and not zero, the count that the service gave, and has cost
    exactly the two requests of the description. *)
Theorem describeIndex_returns_usable_dimension (svc : Service) (name : string)
    (st : State) :
  match describeIndex svc name st with
  | (Returned stats, st') =>
      (exists d, st_dimension stats = Some d /\ d <> 0%Z)
      /\ getDocumentsCount svc (calls st ++ [GetIndex name]) name
         = Returned (st_count stats)
      /\ st' = afterDescribe name st
  | (Thrown _, _) => True
  end.
Proof.
  destruct (describeIndex_cases svc name st)
    as [[e [_ ->]] | [index [r [_ [-> R]]]]]; [exact I | ].
  destruct r as [stats | e]; [ | exact I].
  destruct R as [T C]. split; [ | now split].
  destruct (st_dimension stats) as [d | ]; [ | discriminate T].
  exists d. split; [reflexivity | ].
  cbn [truthyNum] in T. apply negb_true_iff, Z.eqb_neq in T. exact T.
Qed.

(** X9: when the index lookup fails, [describeIndex] throws
    [DESCRIBE_INDEX_FAILED] with that failure as cause and never asks
    for the document count; otherwise both requests are sent, and any
    error still carries [DESCRIBE_INDEX_FAILED]. *)
Theorem describeIndex_failures_are_wrapped (svc : Service) (name : string)
    (st : State) :
  match getIndex svc (calls st) name with
  | Thrown cause =>
      describeIndex svc name st
      = (Thrown (MastraError "STORAGE_AZURE_AI_SEARCH_DESCRIBE_INDEX_FAILED" cause),
         afterLookup name st)
  | Returned _ =>
      snd (describeIndex svc name st) = afterDescribe name st
      /\ match fst (describeIndex svc name st) with
         | Thrown e =>
             exists cause,
               e = MastraError "STORAGE_AZURE_AI_SEARCH_DESCRIBE_INDEX_FAILED" cause
         | Returned _ => True
         end
  end.
Proof.
  destruct (describeIndex_cases svc name st)
    as [[e [G ->]] | [index [r [G [-> R]]]]]; rewrite G; [reflexivity | ].
  cbn [fst snd]. split; [reflexivity | ].
  destruct r; [exact I | exact R].
Qed.

(** X10: [getVectorFieldName] never throws: it sends one request and
    returns a name that is not empty, which is [vector] when the lookup
    fails. *)
Theorem getVectorFieldName_never_throws (svc : Service) (name : string)
    (st : State) :
  exists field,
    getVectorFieldName svc name st = (Returned field, afterLookup name st)
    /\ field <> ""
    /\ (forall e, getIndex svc (calls st) name = Thrown e -> field = "vector").
Proof.
  destruct (getVectorFieldName_run svc name st) as [field [G N]].
  exists field. split; [exact G | ]. split; [exact N | ].
  intros e T. revert G.
  unfold getVectorFieldName, tryCatch, bind, request, ret. rewrite T.
  intros Q. now injection Q as <-.
Qed.

(** X11: [getSearchClient] sends nothing; once it has run for an index,
    running it again changes nothing, and the clients of the other
    indexes stay cached. *)
Theorem getSearchClient_caches (name : string) (st : State) :
  let st1 := snd (getSearchClient name st) in
  fst (getSearchClient name st) = Returned name
  /\ calls st1 = calls st
  /\ getSearchClient name st1 = (Returned name, st1)
  /\ (forall other,
        existsb (String.eqb other) (searchClients st) = true ->
        existsb (String.eqb other) (searchClients st1) = true).
Proof.
  cbv zeta. rewrite !getSearchClient_eq. cbn [fst snd calls searchClients uuids].
  rewrite withClient_idempotent. repeat split.
  intros other E. unfold withClient.
  destruct (existsb (String.eqb name) (searchClients st)); [exact E | ].
  cbn [existsb]. rewrite E. apply orb_true_r.
Qed.


Lemma documentsFrom_returned (i : nat) (field : string) (vectorIds : list string)
    (metadata : list Metadata) (vectors : list (list Num))
    (documents : list Document) :
  documentsFrom i field vectorIds metadata vectors = Returned documents ->
  length documents = length vectors
  /\ forall k vector,
       nth_error vectors k = Some vector ->
       exists json,
         JSON_stringify (metadataAt metadata (i + k)) = Text json
         /\ nth_error documents k
            = Some (documentAt field vectorIds metadata (i + k) vector (Str json)).
Proof.
  revert i documents.
  induction vectors as [ | v rest IH]; intros i documents; cbn [documentsFrom].
  - intros Q. injection Q as <-. split; [reflexivity | ].
    intros k vector N. destruct k; discriminate N.
  - unfold stringify.
    change (match nth_error metadata i with
            | Some m => m
            | None => emptyObject
            end) with (metadataAt metadata i).
    destruct (JSON_stringify (metadataAt metadata i)) as [json | message] eqn:J;
      [ | discriminate].
    destruct (documentsFrom (S i) field vectorIds metadata rest) as [docs | e]
      eqn:D; [ | discriminate].
    intros Q. injection Q as <-. destruct (IH (S i) docs D) as [L A].
    split; [cbn [length]; now rewrite L | ].
    intros [ | k] vector N; cbn [nth_error] in N |- *.
    + injection N as <-. exists json. rewrite Nat.add_0_r. now split.
    + destruct (A k vector N) as [json' [J' E]]. exists json'.
      now rewrite Nat.add_succ_r.
Qed.

(** When the vector field is none of [id], [metadata] and [content],
    the document holds its four properties apart. *)
Lemma documentAt_plain (field : string) (vectorIds : list string)
    (metadata : list Metadata) (i : nat) (vector : list Num) (json : DocValue) :
  plainField field = true ->
  documentAt field vectorIds metadata i vector json
  = [ ("id", idAt vectorIds i);
      (field, Vec vector);
      ("metadata", json);
      ("content", Str (contentAt metadata i)) ].
Proof.
  unfold plainField. rewrite negb_true_iff, !orb_false_iff.
  intros [[A B] C].
  unfold documentAt, object. cbn [fold_left fst snd assign].
  rewrite (String.eqb_sym "id" field), A. cbn [assign].
  change ("id" =? "metadata") with false. cbv iota. rewrite B. cbn [assign].
  change ("id" =? "content") with false. cbv iota. rewrite C.
  change ("metadata" =? "content") with false. reflexivity.
Qed.

(** When the vector field has the name of another property of the
    literal, the two collide: under [id] the vector takes the place of
    the identifier, and under [metadata] or [content] the vector is
    overwritten. *)
Lemma documentAt_collisions (vectorIds : list string) (metadata : list Metadata)
    (i : nat) (vector : list Num) (json : DocValue) :
  documentAt "id" vectorIds metadata i vector json
  = [ ("id", Vec vector);
      ("metadata", json);
      ("content", Str (contentAt metadata i)) ]
  /\ documentAt "metadata" vectorIds metadata i vector json
     = [ ("id", idAt vectorIds i);
         ("metadata", json);
         ("content", Str (contentAt metadata i)) ]
  /\ documentAt "content" vectorIds metadata i vector json
     = [ ("id", idAt vectorIds i);
         ("content", Str (contentAt metadata i));
         ("metadata", json) ].
Proof. repeat split. Qed.

(** X12: whatever its outcome, [upsert] sends one, two, three or four
    requests: the index lookup, then the document count, then the lookup
    of the vector field, then one upload.  It stops after the third
    request exactly when [JSON.stringify] refuses the metadata of some
    vector.  The upload comes last and carries one document per vector,
    in order, each the object literal of its position. *)
Theorem upsert_request_protocol (svc : Service) (params : UpsertVectorParams)
    (st : State) :
  let name := indexName params in
  let metadata := match metadata params with Some m => m | None => [] end in
  exists suffix,
    calls (snd (upsert svc params st)) = (calls st ++ suffix)%list
    /\ (suffix = [GetIndex name]
        \/ suffix = [GetIndex name; GetDocumentsCount name]
        \/ (exists field message,
             suffix = [GetIndex name; GetDocumentsCount name; GetIndex name]
             /\ upsertDocuments svc params st field
                = Thrown (StringifyError message)
             /\ fst (upsert svc params st)
                = Thrown (MastraError "STORAGE_AZURE_AI_SEARCH_UPSERT_FAILED"
                            (StringifyError message)))
        \/ exists field documents,
            suffix = [GetIndex name; GetDocumentsCount name; GetIndex name;
                      UploadDocuments name documents]
            /\ field <> ""
            /\ upsertDocuments svc params st field = Returned documents
            /\ length documents = length (vectors params)
            /\ forall i vector,
                 nth_error (vectors params) i = Some vector ->
                 exists json,
                   JSON_stringify (metadataAt metadata i) = Text json
                   /\ nth_error documents i
                      = Some (documentAt field (upsertIds svc params st)
                                metadata i vector (Str json))).
Proof.
  cbv zeta.
  destruct (upsert_run svc params st)
    as [[e [st1 [_ [-> [-> | ->]]]]]
       | [[stats [e [_ [_ ->]]]] | [stats [field [_ [_ [_ [N R]]]]]]]].
  - eexists. split; [reflexivity | now left].
  - eexists. split; [reflexivity | right; now left].
  - eexists. split; [reflexivity | right; now left].
  - destruct (upsertDocuments svc params st field) as [documents | e] eqn:D;
      rewrite R; cbn [fst snd afterUpload beforeUpload having calls].
    + eexists. split; [now rewrite <- app_assoc | ].
      right. right. right. exists field, documents.
      split; [reflexivity | ]. split; [exact N | ]. split; [exact D | ].
      exact (documentsFrom_returned 0 _ _ _ _ _ D).
    + eexists. split; [reflexivity | ].
      right. right. left.
      destruct (documentsFrom_thrown 0 _ _ _ _ _ D) as [message ->].
      exists field, message. now repeat split.
Qed.

(** X13: [upsert] returns only when the description came back, every
    vector has the declared length, every metadata object was
    serialized and every upload result succeeded; it then returns the
    given identifiers, or one drawn identifier per vector.  Every error
    that it throws carries [UPSERT_FAILED]. *)
Theorem upsert_returns_after_full_success (svc : Service)
    (params : UpsertVectorParams) (st : State) :
  match upsert svc params st with
  | (Returned out, st') =>
      out = upsertIds svc params st
      /\ (forall given, ids params = Some given -> out = given)
      /\ (ids params = None -> length out = length (vectors params))
      /\ exists stats field documents results,
          describeIndex svc (indexName params) st
          = (Returned stats, afterDescribe (indexName params) st)
          /\ Forall (fun vector => differs (length vector) (st_dimension stats) = false)
               (vectors params)
          /\ upsertDocuments svc params st field = Returned documents
          /\ uploadDocuments svc
               (calls st ++ [GetIndex (indexName params);
                             GetDocumentsCount (indexName params);
                             GetIndex (indexName params)])
               (indexName params) documents
             = Returned results
          /\ forallb succeeded results = true
          /\ st' = afterUpload params st documents
  | (Thrown e, _) =>
      exists cause, e = MastraError "STORAGE_AZURE_AI_SEARCH_UPSERT_FAILED" cause
  end.
Proof.
  destruct (upsert_run svc params st)
    as [[e [st1 [_ [-> _]]]]
       | [[stats [e [_ [_ ->]]]] | [stats [field [D [V [_ [_ R]]]]]]]];
    try (now eexists).
  destruct (upsertDocuments svc params st field) as [documents | e] eqn:U;
    rewrite R; [ | now eexists].
  unfold uploadOutcome.
  destruct (uploadDocuments svc _ (indexName params) _) as [results | e] eqn:A;
    [ | now eexists].
  destruct (0 <? length (List.filter _ results))%nat eqn:L; [now eexists | ].
  split; [reflexivity | ]. split; [ | split].
  - intros given G. unfold upsertIds. now rewrite G.
  - intros G. unfold upsertIds. rewrite G. now rewrite length_map, length_seq.
  - exists stats, field, documents, results. split; [exact D | ].
    split; [now apply validateFrom_returned in V | ].
    split; [exact U | ].
    split; [exact A | ]. split; [ | reflexivity].
    apply Nat.ltb_ge in L. apply forallb_forall. intros r I.
    destruct (succeeded r) eqn:S; [reflexivity | exfalso].
    assert (J : In r (List.filter (fun result => negb (succeeded result)) results)).
    { apply filter_In. split; [exact I | now rewrite S]. }
    destruct (List.filter (fun result => negb (succeeded result)) results);
      [destruct J | cbn in L; lia].
Qed.

(** X14: when the upload is answered and some result has not
    succeeded, [upsert] throws [UPSERT_FAILED] whose cause is
    [UPSERT_PARTIAL_FAILURE] with the number of failed results and the
    number of results; the upload has been sent by then. *)
Theorem upsert_partial_failure (svc : Service) (params : UpsertVectorParams)
    (st : State) (stats : IndexStats) (field : string)
    (documents : list Document) (results : list IndexingResult) :
  describeIndex svc (indexName params) st
  = (Returned stats, afterDescribe (indexName params) st) ->
  validateVectorDimensions (vectors params) (st_dimension stats) = Returned tt ->
  getVectorFieldName svc (indexName params) (afterDescribe (indexName params) st)
  = (Returned field,
     afterLookup (indexName params) (afterDescribe (indexName params) st)) ->
  upsertDocuments svc params st field = Returned documents ->
  uploadDocuments svc
    (calls st ++ [GetIndex (indexName params);
                  GetDocumentsCount (indexName params);
                  GetIndex (indexName params)])
    (indexName params) documents
  = Returned results ->
  forallb succeeded results = false ->
  exists failed,
    upsert svc params st
    = (Thrown (MastraError "STORAGE_AZURE_AI_SEARCH_UPSERT_FAILED"
                 (MastraError "STORAGE_AZURE_AI_SEARCH_UPSERT_PARTIAL_FAILURE"
                    (DocumentsFailed failed (length results)))),
       afterUpload params st documents)
    /\ 0 < failed <= length results
    /\ failed = length (List.filter (fun result => negb (succeeded result)) results).
Proof.
  intros D V G P U F.
  destruct (upsert_run svc params st)
    as [[e [st1 [D' _]]]
       | [[stats' [e [D' [V' _]]]] | [stats' [field' [D' [_ [G' [_ R]]]]]]]].
  - rewrite D in D'. discriminate D'.
  - rewrite D in D'. injection D' as <-. rewrite V in V'. discriminate V'.
  - rewrite G in G'. injection G' as <-.
    rewrite P in R. rewrite R, U. unfold uploadOutcome.
    exists (length (List.filter (fun result => negb (succeeded result)) results)).
    assert (Q : 0 < length (List.filter (fun result => negb (succeeded result)) results)).
    { destruct (List.filter (fun result => negb (succeeded result)) results)
        as [ | r rest] eqn:E; [exfalso | cbn; lia].
      assert (A : forallb succeeded results = true).
      { apply forallb_forall. intros r I.
        destruct (succeeded r) eqn:S; [reflexivity | exfalso].
        assert (J : In r (List.filter (fun result => negb (succeeded result)) results)).
        { apply filter_In. split; [exact I | now rewrite S]. }
        rewrite E in J. destruct J. }
      congruence. }
    apply Nat.ltb_lt in Q as L. rewrite L. split; [reflexivity | ].
    split; [ | reflexivity]. split; [exact Q | apply filter_length_le].
Qed.

End RunProperties.

(** ** Creating, deleting and updating *)

Section OperationProperties.
Context `{Adapter.Host}.
Import Adapter Runs Operations Worlds.

Lemma state_not_extended (st : State) (c : Call) : having c st <> st.
Proof.
  intros E. apply (f_equal calls) in E. cbn [having calls] in E.
  apply (f_equal (@length Call)) in E. rewrite length_app in E. cbn in E. lia.
Qed.

(** X15: [createIndex] throws [CREATE_INDEX_INVALID_DIMENSION] and
    leaves everything as it was, nothing sent, exactly when the
    dimension is not an integer or is not positive. *)
Theorem createIndex_rejects_bad_dimension_unsent (backend : Backend)
    (params : CreateIndexParams) (st : State) :
  createIndex backend params st
  = (Raise (Mastra "STORAGE_AZURE_AI_SEARCH_CREATE_INDEX_INVALID_DIMENSION"
              (Some "Dimension must be a positive integer") None),
     st)
  <-> match ci_dimension params with
      | Some d => (d <= 0)%Z
      | None => True
      end.
Proof.
  unfold createIndex. destruct (ci_dimension params) as [d | ]; [ | now split].
  destruct (d <=? 0)%Z eqn:L.
  - split; [intros _; now apply Z.leb_le | reflexivity].
  - split; [ | intros P; apply Z.leb_le in P; congruence].
    unfold attempt, send. intros E. exfalso.
    apply (state_not_extended st (CreateIndex (indexDefinition params d))).
    destruct (sdk_createIndex backend (calls st) (indexDefinition params d))
      as [[] | f].
    + now injection E.
    + unfold done, raise in E.
      destruct (alreadyExists (Sdk f)); now injection E.
Qed.

Lemma alreadyExists_Sdk (f : Failure) :
  alreadyExists (Sdk f) = hasStatus 409 f || messageIncludes "already exists" f.
Proof. reflexivity. Qed.

(** X16: when the service refuses to create the index, [createIndex]
    returns normally if the status is 409 or the message holds
    [already exists], and otherwise throws [CREATE_INDEX_FAILED] with
    the refusal as cause; the one request has been sent either way. *)
Theorem createIndex_tolerates_existing_index (backend : Backend)
    (params : CreateIndexParams) (st : State) (d : Z) (f : Failure) :
  ci_dimension params = Some d ->
  (0 < d)%Z ->
  sdk_createIndex backend (calls st) (indexDefinition params d) = Refused f ->
  createIndex backend params st
  = (if hasStatus 409 f || messageIncludes "already exists" f
     then Done tt
     else Raise (Mastra "STORAGE_AZURE_AI_SEARCH_CREATE_INDEX_FAILED" None
                   (Some (Sdk f))),
     having (CreateIndex (indexDefinition params d)) st).
Proof.
  intros D P R. unfold createIndex. rewrite D.
  destruct (d <=? 0)%Z eqn:L; [apply Z.leb_le in L; lia | ].
  unfold attempt, send. rewrite R. rewrite alreadyExists_Sdk.
  now destruct (hasStatus 409 f || messageIncludes "already exists" f).
Qed.

(** X17: the definition that [createIndex] sends starts with the four
    default fields; an additional field is kept, after them, exactly
    when its name is not the name of a default field, so no caller field
    replaces [id], the vector field, [metadata] or [content]. *)
Theorem createIndex_keeps_default_fields (params : CreateIndexParams) (d : Z) :
  let defaults := defaultFields (orDefault (ci_vectorField params) "vector") d in
  exists kept,
    def_fields (indexDefinition params d) = (defaults ++ kept)%list
    /\ Forall (fun field => ~ In (fd_name field) (map fd_name defaults)) kept
    /\ (forall field,
          In field (orDefault (ci_additionalFields params) []) ->
          In field kept \/ In (fd_name field) (map fd_name defaults)).
Proof.
  cbv zeta. eexists. split; [reflexivity | ]. split.
  - apply Forall_forall. intros field I. apply filter_In in I as [_ N].
    apply negb_true_iff in N. intros J.
    assert (E : existsb (String.eqb (fd_name field))
                  (map fd_name
                     (defaultFields (orDefault (ci_vectorField params) "vector") d))
                = true).
    { apply existsb_exists. exists (fd_name field). split; [exact J | ].
      apply String.eqb_refl. }
    congruence.
  - intros field I.
    destruct (existsb (String.eqb (fd_name field))
                (map fd_name
                   (defaultFields (orDefault (ci_vectorField params) "vector") d)))
      eqn:E.
    + right. apply existsb_exists in E as [name [J Q]].
      apply String.eqb_eq in Q. now subst name.
    + left. apply filter_In. split; [exact I | now rewrite E].
Qed.

(** X18: when the service holds the definition that [createIndex]
    sends for a positive dimension, [describeIndex] returns that
    dimension and the metric that was asked for ([cosine] when none
    was), whatever the vector field is called and whatever fields were
    added. *)
Theorem create_then_describe_round_trip (svc : Service)
    (params : CreateIndexParams) (d : Z) (name : string) (st : State) (n : Z) :
  (0 < d)%Z ->
  getIndex svc (calls st) name = Returned (stored (indexDefinition params d)) ->
  getDocumentsCount svc (calls st ++ [GetIndex name]) name = Returned n ->
  describeIndex svc name st
  = (Returned {| st_dimension := Some d;
                 st_count := n;
                 st_metric := orDefault (ci_metric params) cosine |},
     afterDescribe name st).
Proof.
  intros P G C.
  unfold describeIndex, tryCatch, bind, request. rewrite G.
  rewrite getSearchClient_eq. cbn [calls searchClients uuids]. rewrite C.
  assert (T : truthyNum (Some d) = true).
  { cbn [truthyNum]. apply negb_true_iff, Z.eqb_neq. lia. }
  assert (F : findField (stored (indexDefinition params d)) isVectorField
              = Some {| sf_name := orDefault (ci_vectorField params) "vector";
                        sf_type := "Collection(Edm.Single)";
                        sf_dimensions := None;
                        sf_vectorSearchDimensions := Some d |}).
  { unfold findField, stored, indexDefinition.
    cbn [ix_fields def_fields defaultFields app map find isVectorField
         sf_type sf_dimensions sf_vectorSearchDimensions
         fd_name fd_type fd_vectorSearchDimensions orNum truthyNum
         String.eqb Ascii.eqb Bool.eqb andb].
    change (negb (d =? 0)%Z) with (truthyNum (Some d)). now rewrite T. }
  rewrite F. cbn [sf_dimensions sf_vectorSearchDimensions]. rewrite T.
  cbn [truthyNum negb andb orNum]. unfold ret, afterDescribe.
  rewrite <- app_assoc. cbn [app]. do 3 f_equal.
  unfold metricOf, stored, indexDefinition.
  cbn [ix_algorithms def_algorithms map nth_error alg_hnswParameters hc_metric].
  now destruct (orDefault (ci_metric params) cosine).
Qed.

Lemma earlier_getSearchClient (name : string) (st : State) :
  earlier (getSearchClient name) st = (Done name, cached name st).
Proof. unfold earlier. now rewrite getSearchClient_eq. Qed.

Lemma notFound_Sdk (f : Failure) : notFound (Sdk f) = hasStatus 404 f.
Proof. reflexivity. Qed.

(** X19: [deleteVector] sends one request for the one identifier; it
    returns normally exactly when the service accepts or refuses with
    status 404, and any other refusal is thrown as
    [DELETE_VECTOR_FAILED] with the refusal as cause. *)
Theorem deleteVector_ignores_missing_document (backend : Backend)
    (name id : string) (st : State) :
  snd (deleteVector backend name id st)
  = having (DeleteDocuments name [id]) (cached name st)
  /\ (fst (deleteVector backend name id st) = Done tt
      <-> sdk_deleteDocuments backend (calls st) name [id] = Replied tt
          \/ exists f,
              sdk_deleteDocuments backend (calls st) name [id] = Refused f
              /\ statusCode f = Some 404%Z)
  /\ (forall e,
        fst (deleteVector backend name id st) = Raise e ->
        exists f,
          e = Mastra "STORAGE_AZURE_AI_SEARCH_DELETE_VECTOR_FAILED" None
                (Some (Sdk f))
          /\ sdk_deleteDocuments backend (calls st) name [id] = Refused f).
Proof.
  unfold deleteVector, attempt, andThen. rewrite earlier_getSearchClient.
  unfold send. cbn [cached calls searchClients uuids].
  change {| calls := (calls st ++ [DeleteDocuments name [id]])%list;
            searchClients := withClient name (searchClients st);
            uuids := uuids st |}
    with (having (DeleteDocuments name [id]) (cached name st)).
  destruct (sdk_deleteDocuments backend (calls st) name [id]) as [[] | f].
  - cbn [fst snd]. split; [reflexivity | ]. split.
    + split; [now left | reflexivity].
    + discriminate.
  - rewrite notFound_Sdk. unfold hasStatus.
    destruct (statusCode f) as [code | ] eqn:S.
    + destruct (code =? 404)%Z eqn:Q; cbn [fst snd done raise].
      * apply Z.eqb_eq in Q. subst code. split; [reflexivity | ]. split.
        -- split; [ | reflexivity]. intros _. right. now exists f.
        -- discriminate.
      * apply Z.eqb_neq in Q. split; [reflexivity | ]. split.
        -- split; [discriminate | ].
           intros [D | [g [D G]]]; [discriminate D | ].
           injection D as <-. congruence.
        -- intros e E. injection E as <-. now exists f.
    + cbn [fst snd done raise]. split; [reflexivity | ]. split.
      * split; [discriminate | ].
        intros [D | [g [D G]]]; [discriminate D | ].
        injection D as <-. congruence.
      * intros e E. injection E as <-. now exists f.
Qed.

Lemma filter_forgets (name : string) (clients : list string) :
  existsb (String.eqb name)
    (List.filter (fun other => negb (other =? name)) clients) = false.
Proof.
  induction clients as [ | c rest IH]; [reflexivity | ].
  cbn [List.filter]. destruct (c =? name) eqn:E; cbn [negb]; [exact IH | ].
  cbn [existsb]. rewrite IH, String.eqb_sym, E. reflexivity.
Qed.

Lemma filter_keeps_others (name other : string) (clients : list string) :
  other <> name ->
  existsb (String.eqb other)
    (List.filter (fun c => negb (c =? name)) clients)
  = existsb (String.eqb other) clients.
Proof.
  intros N. induction clients as [ | c rest IH]; [reflexivity | ].
  cbn [List.filter existsb]. destruct (c =? name) eqn:E; cbn [negb existsb].
  - apply String.eqb_eq in E. subst c.
    apply String.eqb_neq in N. now rewrite N.
  - now rewrite IH.
Qed.

(** X20: [deleteIndex] sends one request; when the service accepts,
    the search client of that index leaves the cache and the clients of
    the other indexes stay; when it refuses, the cache is untouched and
    [DELETE_INDEX_FAILED] is thrown with the refusal as cause. *)
Theorem deleteIndex_forgets_client (backend : Backend) (name : string) (st : State) :
  calls (snd (deleteIndex backend name st)) = (calls st ++ [DeleteIndex name])%list
  /\ match deleteIndex backend name st with
     | (Done _, st') =>
         sdk_deleteIndex backend (calls st) name = Replied tt
         /\ existsb (String.eqb name) (searchClients st') = false
         /\ (forall other,
               other <> name ->
               existsb (String.eqb other) (searchClients st')
               = existsb (String.eqb other) (searchClients st))
         /\ uuids st' = uuids st
     | (Raise e, st') =>
         st' = having (DeleteIndex name) st
         /\ exists f,
             sdk_deleteIndex backend (calls st) name = Refused f
             /\ e = Mastra "STORAGE_AZURE_AI_SEARCH_DELETE_INDEX_FAILED" None
                      (Some (Sdk f))
     end.
Proof.
  unfold deleteIndex, attempt, andThen, send.
  destruct (sdk_deleteIndex backend (calls st) name) as [[] | f].
  - unfold forgetClient. cbn [fst snd searchClients calls uuids].
    split; [reflexivity | ]. split; [reflexivity | ].
    split; [apply filter_forgets | ]. split; [ | reflexivity].
    intros other N. now apply filter_keeps_others.
  - unfold raise. cbn [fst snd calls]. split; [reflexivity | ].
    split; [reflexivity | ]. now exists f.
Qed.

Lemma earlier_getVectorFieldName (svc : Service) (name : string) (st : State) :
  exists field,
    getVectorFieldName svc name (cached name st)
    = (Returned field, looked name st)
    /\ field <> ""
    /\ earlier (getVectorFieldName svc name) (cached name st)
       = (Done field, looked name st).
Proof.
  destruct (getVectorFieldName_run svc name (cached name st))
    as [field [G N]].
  exists field. split; [exact G | ]. split; [exact N | ].
  unfold earlier. now rewrite G.
Qed.


Lemma looked_calls (name : string) (st : State) :
  calls (looked name st) = (calls st ++ [GetIndex name])%list.
Proof. reflexivity. Qed.

(** [updateVector] up to the answer to its request for the document. *)
Lemma updateVector_fetch (svc : Service) (backend : Backend)
    (name id : string) (update : Update) (st : State) :
  up_vector update <> None \/ up_metadata update <> None ->
  exists field,
    getVectorFieldName svc name (cached name st)
    = (Returned field, looked name st)
    /\ field <> ""
    /\ updateVector svc backend name id update st
       = match sdk_getDocument backend (calls st ++ [GetIndex name]) name id with
         | Refused f =>
             (Raise (Mastra "STORAGE_AZURE_AI_SEARCH_UPDATE_VECTOR_FAILED" None
                       (Some (Sdk f))),
              fetched name id st)
         | Replied None =>
             (Raise (Mastra "STORAGE_AZURE_AI_SEARCH_UPDATE_VECTOR_FAILED" None
                       (Some (Plain ("Document with ID " ++ id ++ " not found")))),
              fetched name id st)
         | Replied (Some existingDoc) =>
             match merging svc backend name id field update existingDoc
                     (fetched name id st) with
             | (Done a, st') => (Done a, st')
             | (Raise e, st') =>
                 (Raise (Mastra "STORAGE_AZURE_AI_SEARCH_UPDATE_VECTOR_FAILED" None
                           (Some e)),
                  st')
             end
         end.
Proof.
  intros U.
  destruct (earlier_getVectorFieldName svc name st) as [field [G [N E]]].
  exists field. split; [exact G | ]. split; [exact N | ].
  unfold updateVector, attempt.
  assert (T : match up_vector update, up_metadata update with
              | None, None => @raise _ unit (Plain "No updates provided")
              | _, _ => done tt
              end = done tt).
  { destruct (up_vector update), (up_metadata update); try reflexivity.
    destruct U as [U | U]; now elim U. }
  unfold andThen at 1. rewrite T. unfold done at 1. cbv beta iota.
  unfold andThen at 1. cbv beta. rewrite earlier_getSearchClient. cbv beta iota.
  unfold andThen at 1. cbv beta. rewrite E. cbv beta iota.
  unfold andThen at 1. unfold send at 1. cbv beta iota.
  rewrite looked_calls.
  change {| calls := (calls st ++ [GetIndex name]) ++ [GetDocument name id];
            searchClients := searchClients (looked name st);
            uuids := uuids (looked name st) |}
    with (fetched name id st).
  destruct (sdk_getDocument backend (calls st ++ [GetIndex name]) name id)
    as [[doc | ] | f]; reflexivity.
Qed.

(** The requests of [updateVector] once the document has come back:
    those of the description when a vector is given, then at most one
    merge. *)
Lemma merging_calls (svc : Service) (backend : Backend) (name id field : string)
    (update : Update) (existingDoc : Document) (st : State) :
  exists described merged,
    calls (snd (merging svc backend name id field update existingDoc st))
    = (calls st ++ described ++ merged)%list
    /\ (described = []
        \/ described = [GetIndex name]
        \/ described = [GetIndex name; GetDocumentsCount name])
    /\ (up_vector update = None -> described = [])
    /\ (merged = []
        \/ exists metadata,
            merged = [MergeDocuments name
                        [updatedDocument id field update existingDoc metadata]])
    /\ (up_vector update <> None ->
        merged <> [] ->
        described = [GetIndex name; GetDocumentsCount name])
    /\ (fst (merging svc backend name id field update existingDoc st) = Done tt ->
        merged <> []).
Proof.
  assert (Last : forall st0 : State,
             exists merged,
               (let run := andThen
                             match up_metadata update with
                             | Some m => earlier (lift (stringify m))
                             | None => done (get "metadata" existingDoc)
                             end
                             (fun metadata =>
                                send (MergeDocuments name
                                        [updatedDocument id field update existingDoc
                                           metadata])
                                  (fun h =>
                                     sdk_mergeDocuments backend h name
                                       [updatedDocument id field update existingDoc
                                          metadata])) st0 in
                calls (snd run) = (calls st0 ++ merged)%list
                /\ (merged = []
                    \/ exists metadata,
                        merged = [MergeDocuments name
                                    [updatedDocument id field update existingDoc
                                       metadata]])
                /\ (fst run = Done tt -> merged <> []))).
  { intros st0. cbv zeta. unfold andThen.
    destruct (up_metadata update) as [m | ].
    - unfold earlier, lift, stringify.
      destruct (JSON_stringify m) as [json | message].
      + eexists. unfold send. cbn [fst snd calls].
        split; [reflexivity | ]. split; [right; now eexists | discriminate].
      + exists []. cbn [fst snd]. rewrite app_nil_r.
        split; [reflexivity | ]. split; [now left | discriminate].
    - unfold done, send. eexists. cbn [fst snd calls].
      split; [reflexivity | ]. split; [right; now eexists | discriminate]. }
  destruct (merging svc backend name id field update existingDoc st)
    as [result st'] eqn:Q.
  cbn [fst snd]. unfold merging in Q. unfold andThen at 1 in Q.
  destruct (up_vector update) as [vector | ] eqn:V.
  - unfold andThen at 1 in Q. unfold earlier at 1 in Q.
    destruct (describeIndex_cases svc name st)
      as [[e [_ D]] | [index [r [_ [D R]]]]].
    + rewrite D in Q. injection Q as <- <-.
      exists [GetIndex name], []. cbn [afterLookup calls].
      rewrite app_nil_r.
      split; [reflexivity | ]. split; [right; now left | ].
      split; [discriminate | ]. split; [now left | ].
      split; [congruence | discriminate].
    + rewrite D in Q. destruct r as [stats | e].
      * unfold earlier at 1, lift in Q.
        destruct (validateVectorDimensions [vector] (st_dimension stats))
          as [[] | e].
        -- destruct (Last (afterDescribe name st)) as [merged [C [M F]]].
           cbv zeta in C, F. unfold lift in C, F, Q.
           rewrite Q in C, F. cbn [fst snd] in C, F.
           exists [GetIndex name; GetDocumentsCount name], merged.
           split; [rewrite C; cbn [afterDescribe calls]; now rewrite <- app_assoc | ].
           split; [right; now right | ]. split; [discriminate | ].
           split; [exact M | ]. split; [reflexivity | exact F].
        -- injection Q as <- <-.
           exists [GetIndex name; GetDocumentsCount name], [].
           cbn [afterDescribe calls]. rewrite app_nil_r.
           split; [reflexivity | ]. split; [right; now right | ].
           split; [discriminate | ]. split; [now left | ].
           split; [reflexivity | discriminate].
      * injection Q as <- <-.
        exists [GetIndex name; GetDocumentsCount name], [].
        cbn [afterDescribe calls]. rewrite app_nil_r.
        split; [reflexivity | ]. split; [right; now right | ].
        split; [discriminate | ]. split; [now left | ].
        split; [reflexivity | discriminate].
  - unfold done at 1 in Q. destruct (Last st) as [merged [C [M F]]].
    cbv zeta in C, F. rewrite Q in C, F. cbn [fst snd] in C, F.
    exists [], merged. cbn [app].
    split; [exact C | ]. split; [now left | ]. split; [reflexivity | ].
    split; [exact M | ]. split; [congruence | exact F].
Qed.

Lemma fetched_calls (name id : string) (st : State) :
  calls (fetched name id st)
  = (calls st ++ [GetIndex name; GetDocument name id])%list.
Proof. cbn [fetched having looked afterLookup cached calls]. now rewrite <- app_assoc. Qed.

(** With an update in hand, [updateVector] looks the vector field up,
    asks for the document, describes the index when a vector is given,
    and merges at most once, last. *)
Lemma updateVector_calls (svc : Service) (backend : Backend)
    (name id : string) (update : Update) (st : State) :
  up_vector update <> None \/ up_metadata update <> None ->
  exists described merged,
    calls (snd (updateVector svc backend name id update st))
    = (calls st ++ [GetIndex name; GetDocument name id] ++ described ++ merged)%list
    /\ (described = []
        \/ described = [GetIndex name]
        \/ described = [GetIndex name; GetDocumentsCount name])
    /\ (up_vector update = None -> described = [])
    /\ (merged = [] \/ exists document, merged = [MergeDocuments name [document]])
    /\ (up_vector update <> None ->
        merged <> [] ->
        described = [GetIndex name; GetDocumentsCount name])
    /\ (fst (updateVector svc backend name id update st) = Done tt ->
        merged <> []).
Proof.
  intros U.
  destruct (updateVector_fetch svc backend name id update st U)
    as [field [_ [_ ->]]].
  destruct (sdk_getDocument backend (calls st ++ [GetIndex name]) name id)
    as [[doc | ] | f].
  - destruct (merging_calls svc backend name id field update doc
                (fetched name id st)) as [described [merged [C [D [V [M [B F]]]]]]].
    exists described, merged.
    destruct (merging svc backend name id field update doc (fetched name id st))
      as [[[] | e] st']; cbn [fst snd] in C, F |- *.
    + rewrite C, fetched_calls, <- !app_assoc. cbn [app].
      split; [reflexivity | ]. split; [exact D | ]. split; [exact V | ].
      split; [ | split; [exact B | exact F]].
      destruct M as [M | [metadata M]]; [now left | right; eexists; exact M].
    + rewrite C, fetched_calls, <- !app_assoc. cbn [app].
      split; [reflexivity | ]. split; [exact D | ]. split; [exact V | ].
      split; [ | split; [exact B | discriminate]].
      destruct M as [M | [metadata M]]; [now left | right; eexists; exact M].
  - exists [], []. cbn [fst snd app]. rewrite fetched_calls.
    split; [reflexivity | ]. split; [now left | ]. split; [reflexivity | ].
    split; [now left | ]. split; [congruence | discriminate].
  - exists [], []. cbn [fst snd app]. rewrite fetched_calls.
    split; [reflexivity | ]. split; [now left | ]. split; [reflexivity | ].
    split; [now left | ]. split; [congruence | discriminate].
Qed.

(** X21: [updateVector] throws [No updates provided] with everything
    left as it was exactly when the update holds neither a vector nor
    metadata. *)
Theorem updateVector_without_updates (svc : Service) (backend : Backend)
    (name id : string) (update : Update) (st : State) :
  updateVector svc backend name id update st
  = (Raise (Mastra "STORAGE_AZURE_AI_SEARCH_UPDATE_VECTOR_FAILED" None
              (Some (Plain "No updates provided"))),
     st)
  <-> up_vector update = None /\ up_metadata update = None.
Proof.
  split.
  - intros E.
    destruct (up_vector update) as [vector | ] eqn:V;
      [ | destruct (up_metadata update) as [m | ] eqn:D; [ | now split] ];
      exfalso.
    + assert (U : up_vector update <> None \/ up_metadata update <> None)
        by (left; congruence).
      destruct (updateVector_calls svc backend name id update st U)
        as [described [merged [C _]]].
      rewrite E in C. cbn [snd] in C.
      apply (f_equal (@length Call)) in C. rewrite !length_app in C.
      cbn [length] in C. lia.
    + assert (U : up_vector update <> None \/ up_metadata update <> None)
        by (right; congruence).
      destruct (updateVector_calls svc backend name id update st U)
        as [described [merged [C _]]].
      rewrite E in C. cbn [snd] in C.
      apply (f_equal (@length Call)) in C. rewrite !length_app in C.
      cbn [length] in C. lia.
  - intros [V D]. unfold updateVector, attempt, andThen. now rewrite V, D.
Qed.

(** X22: when the length of the new vector differs from the dimension
    that the description of the index declares, [updateVector] throws
    [UPDATE_VECTOR_FAILED] with the dimension error as cause; the vector
    field has been looked up, the document asked for and the index
    described, in this order, and nothing is merged. *)
Theorem updateVector_rejects_wrong_dimension (svc : Service) (backend : Backend)
    (name id : string) (update : Update) (st : State) (vector : list Num)
    (existingDoc : Document) (stats : IndexStats) (st2 : State) :
  up_vector update = Some vector ->
  sdk_getDocument backend (calls st ++ [GetIndex name]) name id
  = Replied (Some existingDoc) ->
  describeIndex svc name (fetched name id st) = (Returned stats, st2) ->
  differs (length vector) (st_dimension stats) = true ->
  updateVector svc backend name id update st
  = (Raise (Mastra "STORAGE_AZURE_AI_SEARCH_UPDATE_VECTOR_FAILED" None
              (Some (Inner (InvalidDimension 0 (length vector)
                              (st_dimension stats))))),
     st2)
  /\ calls st2
     = (calls st ++ [GetIndex name; GetDocument name id;
                     GetIndex name; GetDocumentsCount name])%list.
Proof.
  intros V D S F.
  assert (U : up_vector update <> None \/ up_metadata update <> None).
  { left. congruence. }
  destruct (updateVector_fetch svc backend name id update st U)
    as [field [_ [_ ->]]].
  rewrite D. unfold merging. rewrite V. unfold andThen, earlier.
  rewrite S. unfold lift, validateVectorDimensions. cbn [validateFrom].
  rewrite F. split; [reflexivity | ].
  destruct (describeIndex_cases svc name (fetched name id st))
    as [[e [_ Q]] | [index [r [_ [Q _]]]]]; rewrite Q in S.
  - discriminate.
  - injection S as _ <-. cbn [afterDescribe calls].
    rewrite fetched_calls, <- app_assoc. reflexivity.
Qed.

(** X23: an update of the metadata alone never consults the
    description of the index: it looks the vector field up, asks for the
    document and serializes the new metadata.  When that succeeds it
    merges one document that keeps the stored vector, takes the new
    metadata, and takes its content from the new metadata or else from
    the stored document; when [JSON.stringify] throws, nothing is merged
    and the error is the cause of [UPDATE_VECTOR_FAILED]. *)
Theorem updateVector_metadata_only (svc : Service) (backend : Backend)
    (name id : string) (m : Metadata) (st : State) (existingDoc : Document) :
  sdk_getDocument backend (calls st ++ [GetIndex name]) name id
  = Replied (Some existingDoc) ->
  exists field,
    getVectorFieldName svc name (cached name st)
    = (Returned field, looked name st)
    /\ updateVector svc backend name id
         {| up_vector := None; up_metadata := Some m |} st
       = match JSON_stringify m with
         | Text json =>
             let updatedDoc :=
               object [ ("id", Str id);
                        (field, get field existingDoc);
                        ("metadata", Str json);
                        ("content",
                         orValue (orValue (Str (contentOf m))
                                    (get "content" existingDoc))
                           (Str "")) ] in
             (match sdk_mergeDocuments backend (calls (fetched name id st))
                      name [updatedDoc] with
              | Replied _ => Done tt
              | Refused f =>
                  Raise (Mastra "STORAGE_AZURE_AI_SEARCH_UPDATE_VECTOR_FAILED" None
                           (Some (Sdk f)))
              end,
              having (MergeDocuments name [updatedDoc]) (fetched name id st))
         | Unserializable message =>
             (Raise (Mastra "STORAGE_AZURE_AI_SEARCH_UPDATE_VECTOR_FAILED" None
                       (Some (Inner (StringifyError message)))),
              fetched name id st)
         end
    /\ calls (fetched name id st)
       = (calls st ++ [GetIndex name; GetDocument name id])%list.
Proof.
  intros D.
  assert (U : up_vector {| up_vector := None; up_metadata := Some m |} <> None
              \/ up_metadata {| up_vector := None; up_metadata := Some m |} <> None).
  { right. discriminate. }
  destruct (updateVector_fetch svc backend name id _ st U) as [field [G [_ ->]]].
  exists field. split; [exact G | ]. split; [ | apply fetched_calls].
  rewrite D. unfold merging. cbn [up_vector up_metadata].
  unfold andThen, done, earlier, lift, stringify.
  destruct (JSON_stringify m) as [json | message]; [ | reflexivity].
  cbv zeta. unfold send, updatedDocument, having.
  cbn [up_vector up_metadata].
  now destruct (sdk_mergeDocuments backend _ name _) as [[] | f].
Qed.

(** X24: when the document to update does not exist, [updateVector]
    throws [UPDATE_VECTOR_FAILED] whose cause names the identifier; the
    vector field has been looked up and the document asked for, and
    nothing is merged. *)
Theorem updateVector_missing_document (svc : Service) (backend : Backend)
    (name id : string) (update : Update) (st : State) :
  up_vector update <> None \/ up_metadata update <> None ->
  sdk_getDocument backend (calls st ++ [GetIndex name]) name id = Replied None ->
  updateVector svc backend name id update st
  = (Raise (Mastra "STORAGE_AZURE_AI_SEARCH_UPDATE_VECTOR_FAILED" None
              (Some (Plain ("Document with ID " ++ id ++ " not found")))),
     fetched name id st)
  /\ calls (fetched name id st)
     = (calls st ++ [GetIndex name; GetDocument name id])%list.
Proof.
  intros U D.
  destruct (updateVector_fetch svc backend name id update st U)
    as [field [_ [_ ->]]].
  rewrite D. split; [reflexivity | apply fetched_calls].
Qed.

(** X25: with an update in hand, the requests of [updateVector] are, in
    this order: the index, for the name of the vector field; the
    document; when a vector is given and the document exists, the index
    again and, if that came back, the document count; and a merge of one
    document, last.  There is a merge when [updateVector] returns, and a
    merge of a new vector follows both requests of the description. *)
Theorem updateVector_request_protocol (svc : Service) (backend : Backend)
    (name id : string) (update : Update) (st : State) :
  up_vector update <> None \/ up_metadata update <> None ->
  exists described merged,
    calls (snd (updateVector svc backend name id update st))
    = (calls st ++ [GetIndex name; GetDocument name id] ++ described ++ merged)%list
    /\ (described = []
        \/ described = [GetIndex name]
        \/ described = [GetIndex name; GetDocumentsCount name])
    /\ (up_vector update = None -> described = [])
    /\ (merged = [] \/ exists document, merged = [MergeDocuments name [document]])
    /\ (up_vector update <> None ->
        merged <> [] ->
        described = [GetIndex name; GetDocumentsCount name])
    /\ (fst (updateVector svc backend name id update st) = Done tt ->
        merged <> []).
Proof. apply updateVector_calls. Qed.

End OperationProperties.

(** ** The examples of the test suite, first copy *)

Example translate_equality :
  Part001.translate
    (Some (Part001.set_eq [("category", VString "books");
                           ("author", VString "Jane Doe")] Part001.noFields))
  = Normal (Some "category eq 'books' and author eq 'Jane Doe'").
Proof. reflexivity. Qed.

Example translate_comparisons :
  Part001.translate
    (Some (Part001.mkFilter None None None None None None
             (Some [("price", VOther "10")])
             (Some [("year", VOther "2020")])
             (Some [("rating", VOther "5")])
             (Some [("pages", VOther "300")])
             None None None None None))
  = Normal (Some "price gt 10 and year ge 2020 and rating lt 5 and pages le 300").
Proof. reflexivity. Qed.

Example translate_string_operations :
  Part001.translate
    (Some (Part001.set_startsWith [("title", "The")]
             (Part001.set_contains [("description", "adventure")] Part001.noFields)))
  = Normal
      (Some "search.ismatch('adventure', 'description') and startswith(title, 'The')").
Proof. reflexivity. Qed.

Example translate_logical :
  Part001.translate
    (Some (Part001.set_and
             [Part001.set_eq [("category", VString "electronics")] Part001.noFields;
              Part001.set_gt [("price", VOther "10")] Part001.noFields]
             Part001.noFields))
  = Normal (Some "(category eq 'electronics' and price gt 10)").
Proof. reflexivity. Qed.

Example translate_nested :
  Part001.translate
    (Some (Part001.set_and
             [Part001.set_eq [("category", VString "books")] Part001.noFields;
              Part001.set_or
                [Part001.set_gt [("price", VOther "20")] Part001.noFields;
                 Part001.set_eq [("author", VString "Famous Author")] Part001.noFields]
                Part001.noFields]
             Part001.noFields))
  = Normal
      (Some "(category eq 'books' and (price gt 20 or author eq 'Famous Author'))").
Proof. reflexivity. Qed.

Example translate_not :
  Part001.translate
    (Some (Part001.set_not
             (Part001.set_eq [("category", VString "books")] Part001.noFields)
             Part001.noFields))
  = Normal (Some "not (category eq 'books')").
Proof. reflexivity. Qed.

Example translate_value_types :
  Part001.translate
    (Some (Part001.set_eq [("isAvailable", VBoolean true);
                           ("price", VOther "29.99");
                           ("category", VString "fiction")] Part001.noFields))
  = Normal (Some "isAvailable eq true and price eq 29.99 and category eq 'fiction'").
Proof. reflexivity. Qed.

(** ** The same examples, second copy *)

Example second_copy_logical :
  Part002.translate
    (Some (Part002.set_and
             [Part002.set_eq [("category", VString "electronics")] Part002.noFields;
              Part002.set_gt [("price", VOther "10")] Part002.noFields]
             Part002.noFields))
  = Normal (Some "(category eq 'electronics' and price gt 10)").
Proof. reflexivity. Qed.

Example second_copy_string_operations :
  Part002.translate
    (Some (Part002.set_startsWith [("title", "The")]
             (Part002.set_contains [("description", "adventure")] Part002.noFields)))
  = Normal
      (Some "search.ismatch('adventure', 'description') and startswith(title, 'The')").
Proof. reflexivity. Qed.

Example second_copy_escapes_quotes :
  Part002.translate
    (Some (Part002.set_eq [("title", VString "Book's Title")] Part002.noFields))
  = Normal (Some "title eq 'Book''s Title'").
Proof. reflexivity. Qed.

Example second_copy_invalid_date_throws :
  Part002.translate
    (Some (Part002.set_gt [("published", VDate None)] Part002.noFields))
  = Throw RangeError.
Proof. reflexivity. Qed.

(** ** The adapter at concrete inputs *)

(** C9, as stated, fails at a vector of two components for the index
    [products], which declares three: the rejection comes after the two
    requests of the description. *)
Lemma upsert_mismatch_follows_two_requests :
  Adapter.differs (length [1; 2]%Z) (Some 3%Z) = true
  /\ fst (Adapter.upsert productsService mismatched Adapter.fresh)
     = Adapter.Thrown
         (Adapter.MastraError "STORAGE_AZURE_AI_SEARCH_UPSERT_FAILED"
            (Adapter.InvalidDimension 0 2 (Some 3%Z)))
  /\ Adapter.calls (snd (Adapter.upsert productsService mismatched Adapter.fresh))
     = [Adapter.GetIndex "products"; Adapter.GetDocumentsCount "products"].
Proof. repeat split. Qed.

Lemma upsert_rejects_mismatch_after_describe_witness :
  exists i len,
    Adapter.upsert productsService mismatched Adapter.fresh
    = (Adapter.Thrown
         (Adapter.MastraError "STORAGE_AZURE_AI_SEARCH_UPSERT_FAILED"
            (Adapter.InvalidDimension i len (Some 3%Z))),
       {| Adapter.calls :=
            [Adapter.GetIndex "products"; Adapter.GetDocumentsCount "products"];
          Adapter.searchClients := ["products"];
          Adapter.uuids := 0 |})
    /\ Adapter.calls
         {| Adapter.calls :=
              [Adapter.GetIndex "products"; Adapter.GetDocumentsCount "products"];
            Adapter.searchClients := ["products"];
            Adapter.uuids := 0 |}
       = [Adapter.GetIndex "products"; Adapter.GetDocumentsCount "products"].
Proof.
  apply (upsert_rejects_mismatch_after_describe productsService mismatched
           Adapter.fresh
           {| Adapter.calls :=
                [Adapter.GetIndex "products"; Adapter.GetDocumentsCount "products"];
              Adapter.searchClients := ["products"];
              Adapter.uuids := 0 |}
           {| Adapter.st_dimension := Some 3%Z;
              Adapter.st_count := 0%Z;
              Adapter.st_metric := Adapter.cosine |}).
  - reflexivity.
  - exists [1; 2]%Z. split; [left; reflexivity | reflexivity].
Defined.

(** An upsert whose vectors fit goes on to look the vector field up and
    to upload one object per vector. *)
Example upsert_matching_uploads :
  Adapter.upsert productsService matching Adapter.fresh
  = (Adapter.Returned ["doc1"],
     {| Adapter.calls :=
          [Adapter.GetIndex "products";
           Adapter.GetDocumentsCount "products";
           Adapter.GetIndex "products";
           Adapter.UploadDocuments "products"
             [ [ ("id", Adapter.Str "doc1");
                 ("vector", Adapter.Vec [1; 2; 3]%Z);
                 ("metadata", Adapter.Str "{}");
                 ("content", Adapter.Str "") ] ]];
        Adapter.searchClients := ["products"];
        Adapter.uuids := 0 |}).
Proof. reflexivity. Qed.

(** An upsert whose metadata [JSON.stringify] refuses stops after three
    requests, with nothing uploaded. *)
Example upsert_unserializable_stops_after_three :
  Adapter.upsert productsService unserializable Adapter.fresh
  = (Adapter.Thrown
       (Adapter.MastraError "STORAGE_AZURE_AI_SEARCH_UPSERT_FAILED"
          (Adapter.StringifyError "Do not know how to serialize a BigInt")),
     {| Adapter.calls :=
          [Adapter.GetIndex "products";
           Adapter.GetDocumentsCount "products";
           Adapter.GetIndex "products"];
        Adapter.searchClients := ["products"];
        Adapter.uuids := 0 |}).
Proof. reflexivity. Qed.

(** An update with a vector of three components describes the index
    between the request for the document and the merge. *)
Example updateVector_full_vector_requests :
  Operations.updateVector productsService productsBackend "products" "doc1"
    fullVectorUpdate Adapter.fresh
  = (Operations.Done tt,
     {| Adapter.calls :=
          [Adapter.GetIndex "products";
           Adapter.GetDocument "products" "doc1";
           Adapter.GetIndex "products";
           Adapter.GetDocumentsCount "products";
           Adapter.MergeDocuments "products"
             [ [ ("id", Adapter.Str "doc1");
                 ("vector", Adapter.Vec [4; 5; 6]%Z);
                 ("metadata", Adapter.Str "{}");
                 ("content", Adapter.Str "first document") ] ]];
        Adapter.searchClients := ["products"];
        Adapter.uuids := 0 |}).
Proof. reflexivity. Qed.

(** ** The theorems above at concrete inputs *)

Lemma translate_empty_raw_falls_through_witness :
  let filter :=
    Part002.set_filter "" (Part002.set_eq [("a", VString "b")] Part002.noFields) in
  Part002.translate (Some filter) = Normal (Some "a eq 'b'")
  /\ Part002.translate (Some filter) <> Normal (Part002.f_filter filter)
  /\ Part002.translate (Some (Part002.set_filter "" Part002.noFields)) = Normal None.
Proof.
  cbv zeta.
  destruct (translate_empty_raw_falls_through
              (Part002.set_filter ""
                 (Part002.set_eq [("a", VString "b")] Part002.noFields))
              eq_refl) as [R [_ [D [_ E]]]].
  split; [exact R | ]. split; [exact D | exact E].
Defined.

Lemma string_literal_reads_back_witness :
  exists literal,
    Part001.formatValue (VString "Book's Title") = Normal literal
    /\ Reading.readLiteral (literal ++ " and x eq 1")
       = Some ("Book's Title", " and x eq 1").
Proof. apply string_literal_reads_back. reflexivity. Defined.

Lemma copies_agree_on_portable_filters_witness :
  Part002.translateFilter (Reading.toSecond booksFilter)
  = Part001.translateFilter booksFilter.
Proof. apply copies_agree_on_portable_filters. reflexivity. Defined.

Lemma second_copy_result_is_trimmed_witness :
  exists rendered,
    Part002.translateFilter paddedFilter = Normal rendered
    /\ "name eq 'x'" = trim rendered
    /\ "name eq 'x'" <> ""
    /\ trim "name eq 'x'" = "name eq 'x'".
Proof.
  apply (second_copy_result_is_trimmed paddedFilter "name eq 'x'"); reflexivity.
Defined.

Lemma validation_reports_first_offender_witness :
  exists i (vector : list Z),
    Adapter.InvalidDimension 1 2 (Some 3%Z)
    = Adapter.InvalidDimension i (length vector) (Some 3%Z)
    /\ nth_error [[1; 2; 3]%Z; [1; 2]%Z; [4]%Z] i = Some vector
    /\ Adapter.differs (length vector) (Some 3%Z) = true
    /\ Forall (fun u => Adapter.differs (length u) (Some 3%Z) = false)
         (firstn i [[1; 2; 3]%Z; [1; 2]%Z; [4]%Z]).
Proof.
  apply (@validation_reports_first_offender textHost
           [[1; 2; 3]%Z; [1; 2]%Z; [4]%Z] (Some 3%Z)).
  reflexivity.
Defined.

Lemma upsert_partial_failure_witness :
  exists failed,
    Adapter.upsert rejectingService matching Adapter.fresh
    = (Adapter.Thrown
         (Adapter.MastraError "STORAGE_AZURE_AI_SEARCH_UPSERT_FAILED"
            (Adapter.MastraError "STORAGE_AZURE_AI_SEARCH_UPSERT_PARTIAL_FAILURE"
               (Adapter.DocumentsFailed failed 1))),
       Runs.afterUpload matching Adapter.fresh
         [preparedDoc])
    /\ 0 < failed <= 1
    /\ failed
       = length (List.filter (fun result => negb (Adapter.succeeded result))
                   [ {| Adapter.succeeded := false;
                        Adapter.key := Some "doc1";
                        Adapter.errorMessage := Some "quota exceeded" |} ]).
Proof.
  apply (upsert_partial_failure rejectingService matching Adapter.fresh
           {| Adapter.st_dimension := Some 3%Z;
              Adapter.st_count := 0%Z;
              Adapter.st_metric := Adapter.cosine |}
           "vector"
           [preparedDoc]
           [ {| Adapter.succeeded := false;
                Adapter.key := Some "doc1";
                Adapter.errorMessage := Some "quota exceeded" |} ]);
    reflexivity.
Defined.

Lemma createIndex_tolerates_existing_index_witness :
  Operations.createIndex productsBackend productsParams Adapter.fresh
  = (Operations.Done tt,
     Runs.having
       (Adapter.CreateIndex (Operations.indexDefinition productsParams 3%Z))
       Adapter.fresh).
Proof.
  apply (createIndex_tolerates_existing_index productsBackend productsParams
           Adapter.fresh 3%Z
           {| Operations.statusCode := Some 409%Z;
              Operations.message := Some "Index already exists" |});
    reflexivity.
Defined.

Lemma create_then_describe_round_trip_witness :
  Adapter.describeIndex catalogService "catalog" Adapter.fresh
  = (Adapter.Returned {| Adapter.st_dimension := Some 1536%Z;
                         Adapter.st_count := 7%Z;
                         Adapter.st_metric := Adapter.dotproduct |},
     Runs.afterDescribe "catalog" Adapter.fresh).
Proof.
  apply (create_then_describe_round_trip catalogService catalogParams 1536%Z
           "catalog" Adapter.fresh 7%Z); reflexivity.
Defined.

Lemma updateVector_rejects_wrong_dimension_witness :
  Operations.updateVector productsService productsBackend "products" "doc1"
    shortVectorUpdate Adapter.fresh
  = (Operations.Raise
       (Operations.Mastra "STORAGE_AZURE_AI_SEARCH_UPDATE_VECTOR_FAILED" None
          (Some (Operations.Inner (Adapter.InvalidDimension 0 2 (Some 3%Z))))),
     {| Adapter.calls := [Adapter.GetIndex "products";
                          Adapter.GetDocument "products" "doc1";
                          Adapter.GetIndex "products";
                          Adapter.GetDocumentsCount "products"];
        Adapter.searchClients := ["products"];
        Adapter.uuids := 0 |})
  /\ Adapter.calls
       {| Adapter.calls := [Adapter.GetIndex "products";
                            Adapter.GetDocument "products" "doc1";
                            Adapter.GetIndex "products";
                            Adapter.GetDocumentsCount "products"];
          Adapter.searchClients := ["products"];
          Adapter.uuids := 0 |}
     = [Adapter.GetIndex "products";
        Adapter.GetDocument "products" "doc1";
        Adapter.GetIndex "products";
        Adapter.GetDocumentsCount "products"].
Proof.
  apply (updateVector_rejects_wrong_dimension productsService productsBackend
           "products" "doc1"
           shortVectorUpdate Adapter.fresh [1; 2]%Z storedDoc
           {| Adapter.st_dimension := Some 3%Z;
              Adapter.st_count := 0%Z;
              Adapter.st_metric := Adapter.cosine |});
    reflexivity.
Defined.

Lemma updateVector_metadata_only_witness :
  exists field,
    Adapter.getVectorFieldName productsService "products"
      (Runs.cached "products" Adapter.fresh)
    = (Adapter.Returned field, Worlds.looked "products" Adapter.fresh)
    /\ Operations.updateVector productsService productsBackend "products" "doc1"
         metadataUpdate Adapter.fresh
       = (Operations.Done tt,
          Runs.having
            (Adapter.MergeDocuments "products"
               [ Adapter.object
                   [ ("id", Adapter.Str "doc1");
                     (field, Adapter.get field storedDoc);
                     ("metadata", Adapter.Str "{}");
                     ("content", Adapter.Str "first document") ] ])
            (Worlds.fetched "products" "doc1" Adapter.fresh))
    /\ Adapter.calls (Worlds.fetched "products" "doc1" Adapter.fresh)
       = [Adapter.GetIndex "products"; Adapter.GetDocument "products" "doc1"].
Proof.
  exact (updateVector_metadata_only productsService productsBackend
           "products" "doc1" "{}" Adapter.fresh storedDoc eq_refl).
Defined.

Lemma updateVector_missing_document_witness :
  Operations.updateVector productsService productsBackend "products" "doc2"
    metadataUpdate Adapter.fresh
  = (Operations.Raise
       (Operations.Mastra "STORAGE_AZURE_AI_SEARCH_UPDATE_VECTOR_FAILED" None
          (Some (Operations.Plain "Document with ID doc2 not found"))),
     Worlds.fetched "products" "doc2" Adapter.fresh)
  /\ Adapter.calls (Worlds.fetched "products" "doc2" Adapter.fresh)
     = [Adapter.GetIndex "products"; Adapter.GetDocument "products" "doc2"].
Proof.
  apply (updateVector_missing_document productsService productsBackend
           "products" "doc2"
           metadataUpdate Adapter.fresh).
  - right. discriminate.
  - reflexivity.
Defined.

Lemma updateVector_request_protocol_witness :
  exists described merged,
    Adapter.calls
      (snd (Operations.updateVector productsService productsBackend "products"
              "doc1" fullVectorUpdate Adapter.fresh))
    = ([] ++ [Adapter.GetIndex "products"; Adapter.GetDocument "products" "doc1"]
          ++ described ++ merged)%list
    /\ (described = []
        \/ described = [Adapter.GetIndex "products"]
        \/ described = [Adapter.GetIndex "products";
                        Adapter.GetDocumentsCount "products"])
    /\ (Operations.up_vector fullVectorUpdate = None -> described = [])
    /\ (merged = []
        \/ exists document, merged = [Adapter.MergeDocuments "products" [document]])
    /\ (Operations.up_vector fullVectorUpdate <> None ->
        merged <> [] ->
        described = [Adapter.GetIndex "products";
                     Adapter.GetDocumentsCount "products"])
    /\ (fst (Operations.updateVector productsService productsBackend "products"
               "doc1" fullVectorUpdate Adapter.fresh)
        = Operations.Done tt ->
        merged <> []).
Proof.
  apply (updateVector_request_protocol productsService productsBackend
           "products" "doc1" fullVectorUpdate Adapter.fresh).
  left. discriminate.
Defined.
